(** * Pakistan Internet Timeline: content pipeline

    A shallow embedding of the three classes that make up the content
    pipeline of the timeline site,

    - [JSONValidator]        (src/js/json-validator.js),
    - [TemplateRenderer]     (src/js/template-renderer.js),
    - [PakistanTimelineApp]  (src/js/app.js),

    together with the statements about them that the project
    specification makes.

    Conventions of the embedding.

    - JSON data is the tree type [JS.value]; objects are association lists
      of their own properties in enumeration order (the order
      [Object.keys] reports).  Members inherited from [Object.prototype]
      are outside the model of data; they are modelled where the renderer
      looks a template up by name ([TemplateRenderer.templateAt]).
    - Numbers are integers: the code inspects only [typeof] and the
      truthiness of numbers.  Strings are byte strings in UTF-8;
      [toLowerCase] acts on the ASCII letters, [trim] on every white space
      character of ECMAScript.
    - A method that can raise returns a [JS.completion]; a method that
      mutates [this] or the page is a function in the state-and-exception
      monad [JS.M].  Messages of built-in TypeErrors have the wording of
      V8.
    - The browser and the libraries ([document.querySelector],
      [document.getElementById], [Handlebars.compile], [JSON.parse],
      [fetch]) are parameters, gathered in records called [host].  Which
      element a selector denotes is fixed by the page and does not change
      when the content of an element is replaced.
    - [console.*] output is not modelled.  Two fields exist for the sake
      of the statements only and are read by no method: the history of
      [renderTemplate] calls and the timeline of requests and waits. *)

From stdpp Require Import gmap strings list pretty.
From Stdlib Require Import ZArith Lia Ascii Sorted.

Set Warnings "-register-all,-abstract-large-number".
Open Scope string_scope.
Open Scope list_scope.

(** ** JavaScript values and the few built-ins the pipeline uses *)

Module JS.

Inductive value : Type :=
| VUndefined
| VNull
| VBool (b : bool)
| VNum (n : Z)
| VStr (s : string)
| VArr (items : list value)
| VObj (props : list (string * value)).

(** An exception object; only [message] is ever read by the code. *)
Record error : Type := mkError { ename : string; message : string }.

Definition Error (msg : string) : error := mkError "Error" msg.
Definition TypeError (msg : string) : error := mkError "TypeError" msg.

Inductive completion (A : Type) : Type :=
| Return (a : A)
| Throw (e : error).
Arguments Return {A} a.
Arguments Throw {A} e.

(** State-and-exception monad: the state survives a throw, as the side
    effects of a JavaScript function survive the exception it raises. *)
Definition M (S A : Type) : Type := S -> completion A * S.

Definition ret {S A} (a : A) : M S A := fun s => (Return a, s).
Definition throw {S A} (e : error) : M S A := fun s => (Throw e, s).
Definition bind {S A B} (m : M S A) (k : A -> M S B) : M S B :=
  fun s => match m s with
           | (Return a, s') => k a s'
           | (Throw e, s') => (Throw e, s')
           end.
Definition try_catch {S A} (m : M S A) (handler : error -> M S A) : M S A :=
  fun s => match m s with
           | (Return a, s') => (Return a, s')
           | (Throw e, s') => handler e s'
           end.
Definition gets {S A} (f : S -> A) : M S A := fun s => (Return (f s), s).
Definition modify {S} (f : S -> S) : M S unit := fun s => (Return tt, f s).
Definition lift {S A} (c : completion A) : M S A := fun s => (c, s).

(** Running a computation on a component [get] of a larger state. *)
Definition zoom {S T A} (get : T -> S) (set : S -> T -> T) (m : M S A) : M T A :=
  fun t => let '(r, s') := m (get t) in (r, set s' t).

Declare Scope js_scope.
Delimit Scope js_scope with js.
Notation "x <- m ;; k" := (bind m (fun x => k))
  (at level 100, m at next level, right associativity) : js_scope.
Notation "m ;;; k" := (bind m (fun _ => k))
  (at level 100, right associativity) : js_scope.

(** [array.forEach(f)] for an effectful callback. *)
Fixpoint forEach {S A} (f : A -> M S unit) (l : list A) : M S unit :=
  match l with
  | [] => ret tt
  | x :: rest => bind (f x) (fun _ => forEach f rest)
  end.

(** [typeof v] *)
Definition typeof (v : value) : string :=
  match v with
  | VUndefined => "undefined"
  | VNull => "object"
  | VBool _ => "boolean"
  | VNum _ => "number"
  | VStr _ => "string"
  | VArr _ => "object"
  | VObj _ => "object"
  end.

(** [Array.isArray(v)] *)
Definition isArray (v : value) : bool :=
  match v with VArr _ => true | _ => false end.

(** ToBoolean: the value of [v] in a condition; [!v] is its negation. *)
Definition truthy (v : value) : bool :=
  match v with
  | VUndefined | VNull => false
  | VBool b => b
  | VNum n => negb (n =? 0)%Z
  | VStr s => negb (String.eqb s "")
  | VArr _ | VObj _ => true
  end.

(** Own-property lookup in an object literal: the first binding wins. *)
Fixpoint assoc {A} (k : string) (l : list (string * A)) : option A :=
  match l with
  | [] => None
  | (k', v) :: rest => if String.eqb k k' then Some v else assoc k rest
  end.

(** The index an array-index property name denotes, among the first [n]. *)
Definition index_of (k : string) (n : nat) : option nat :=
  List.find (fun i => String.eqb (pretty i) k) (seq 0 n).

(** [k in v] for a value that is not a primitive; on [null] (and
    [undefined]) the operator raises a TypeError (V8 wording). *)
Definition has_property (k : string) (v : value) : completion bool :=
  match v with
  | VObj props => Return (bool_decide (is_Some (assoc k props)))
  | VArr items =>
      Return (String.eqb k "length"
              || bool_decide (is_Some (index_of k (length items))))
  | VNull =>
      Throw (TypeError ("Cannot use 'in' operator to search for '" +:+ k +:+ "' in null"))
  | VUndefined =>
      Throw (TypeError ("Cannot use 'in' operator to search for '" +:+ k +:+ "' in undefined"))
  | VBool b =>
      Throw (TypeError ("Cannot use 'in' operator to search for '" +:+ k +:+ "' in "
                        +:+ (if b then "true" else "false")))
  | VNum n =>
      Throw (TypeError ("Cannot use 'in' operator to search for '" +:+ k +:+ "' in " +:+ pretty n))
  | VStr s =>
      Throw (TypeError ("Cannot use 'in' operator to search for '" +:+ k +:+ "' in " +:+ s))
  end.

(** [v[k]] / [v.k] for data properties; reading a property of [null] or
    [undefined] raises a TypeError (V8 wording). *)
Definition get (v : value) (k : string) : completion value :=
  match v with
  | VUndefined =>
      Throw (TypeError ("Cannot read properties of undefined (reading '" +:+ k +:+ "')"))
  | VNull =>
      Throw (TypeError ("Cannot read properties of null (reading '" +:+ k +:+ "')"))
  | VObj props => Return (default VUndefined (assoc k props))
  | VArr items =>
      if String.eqb k "length" then Return (VNum (Z.of_nat (length items)))
      else Return (default VUndefined (i ← index_of k (length items); items !! i))
  | VStr s =>
      if String.eqb k "length" then Return (VNum (Z.of_nat (String.length s)))
      else Return (match index_of k (String.length s) with
                   | Some i => VStr (String.substring i 1 s)
                   | None => VUndefined
                   end)
  | VBool _ | VNum _ => Return VUndefined
  end.

(** [Object.keys(v)]: the own enumerable property names; [null] and
    [undefined] cannot be converted to an object. *)
Definition keys (v : value) : completion (list string) :=
  match v with
  | VObj props => Return props.*1
  | VArr items => Return (pretty <$> seq 0 (length items))
  | VStr s => Return (pretty <$> seq 0 (String.length s))
  | VBool _ | VNum _ => Return []
  | VUndefined | VNull =>
      Throw (TypeError "Cannot convert undefined or null to object")
  end.

(** [parts.join(sep)] on strings. *)
Fixpoint join (sep : string) (parts : list string) : string :=
  match parts with
  | [] => ""
  | [p] => p
  | p :: rest => p +:+ sep +:+ join sep rest
  end.

(** ToString, as applied by a template literal [`${v}`]. *)
Fixpoint toString (v : value) : string :=
  match v with
  | VUndefined => "undefined"
  | VNull => "null"
  | VBool b => if b then "true" else "false"
  | VNum n => pretty n
  | VStr s => s
  | VArr items =>
      join "," ((fix elems (l : list value) : list string :=
                   match l with
                   | [] => []
                   | VUndefined :: rest | VNull :: rest => "" :: elems rest
                   | x :: rest => toString x :: elems rest
                   end) items)
  | VObj _ => "[object Object]"
  end.

(** ToString where the conversion is observable: the elements of an
    array are converted one after the other, and an object that has an own
    property [toString] (a datum, never a function) has no primitive
    value, whether or not it has an own [valueOf] (V8 wording). *)
Fixpoint toPrimitiveString (v : value) : completion string :=
  match v with
  | VArr items =>
      match (fix elems (l : list value) : completion (list string) :=
               match l with
               | [] => Return []
               | x :: rest =>
                   match match x with
                         | VUndefined | VNull => Return EmptyString
                         | _ => toPrimitiveString x
                         end with
                   | Return part =>
                       match elems rest with
                       | Return parts => Return (part :: parts)
                       | Throw e => Throw e
                       end
                   | Throw e => Throw e
                   end
               end) items with
      | Return parts => Return (join "," parts)
      | Throw e => Throw e
      end
  | VObj props =>
      if bool_decide (is_Some (assoc "toString" props))
      then Throw (TypeError "Cannot convert object to primitive value")
      else Return "[object Object]"
  | _ => Return (toString v)
  end.

(** [a || b] on values. *)
Definition or_else (a b : value) : value := if truthy a then a else b.

(** [s.toLowerCase()] on the ASCII letters. *)
Definition lower (c : ascii) : ascii :=
  let n := nat_of_ascii c in
  if (65 <=? n)%nat && (n <=? 90)%nat then ascii_of_nat (n + 32) else c.

Fixpoint lowercase (s : string) : string :=
  match s with
  | EmptyString => EmptyString
  | String c rest => String (lower c) (lowercase rest)
  end.

(** [s.includes(part)] *)
Fixpoint includes (s part : string) : bool :=
  String.prefix part s
  || match s with
     | EmptyString => false
     | String _ rest => includes rest part
     end.

(** [v.toLowerCase()], where [expr] is the source text of [v]. *)
Definition toLowerCase (v : value) (expr : string) : completion string :=
  match v with
  | VStr s => Return (lowercase s)
  | VUndefined =>
      Throw (TypeError "Cannot read properties of undefined (reading 'toLowerCase')")
  | VNull =>
      Throw (TypeError "Cannot read properties of null (reading 'toLowerCase')")
  | _ => Throw (TypeError (expr +:+ ".toLowerCase is not a function"))
  end.

(** The receiver check of an array method call [v.method(...)]. *)
Definition array_receiver (v : value) (expr method : string)
    : completion (list value) :=
  match v with
  | VArr items => Return items
  | VUndefined =>
      Throw (TypeError ("Cannot read properties of undefined (reading '"
                        +:+ method +:+ "')"))
  | VNull =>
      Throw (TypeError ("Cannot read properties of null (reading '"
                        +:+ method +:+ "')"))
  | _ => Throw (TypeError (expr +:+ "." +:+ method +:+ " is not a function"))
  end.

Fixpoint find_first (pred : value -> completion bool) (items : list value)
    : completion value :=
  match items with
  | [] => Return VUndefined
  | x :: rest =>
      match pred x with
      | Return true => Return x
      | Return false => find_first pred rest
      | Throw e => Throw e
      end
  end.

(** [v.find(pred)] *)
Definition find (v : value) (expr : string) (pred : value -> completion bool)
    : completion value :=
  match array_receiver v expr "find" with
  | Return items => find_first pred items
  | Throw e => Throw e
  end.

Fixpoint map_each (f : value -> completion value) (items : list value)
    : completion (list value) :=
  match items with
  | [] => Return []
  | x :: rest =>
      match f x with
      | Return y =>
          match map_each f rest with
          | Return ys => Return (y :: ys)
          | Throw e => Throw e
          end
      | Throw e => Throw e
      end
  end.

(** [v.map(f)] *)
Definition map (v : value) (expr : string) (f : value -> completion value)
    : completion value :=
  match array_receiver v expr "map" with
  | Return items =>
      match map_each f items with
      | Return ys => Return (VArr ys)
      | Throw e => Throw e
      end
  | Throw e => Throw e
  end.

(** Sequencing of completions. *)
Definition andThen {A B} (c : completion A) (k : A -> completion B)
    : completion B :=
  match c with
  | Return a => k a
  | Throw e => Throw e
  end.

End JS.

Import JS.
Open Scope js_scope.

(** ** JSONValidator (src/js/json-validator.js) *)

Module JSONValidator.

(** A declared field type: one [typeof] name, or a list of accepted ones. *)
Inductive typeSpec : Type :=
| One (t : string)
| OneOf (ts : list string).

Record requirements : Type := {
  required : list string;
  optional : list string;
  types : list (string * typeSpec)
}.

(** [getRequiredFields()]: the schema registry, keyed by item type. *)
Definition getRequiredFields : list (string * requirements) :=
  [ ("heroStats",
      {| required := ["icon"; "title"; "value"; "description"];
         optional := [];
         types := [("icon", One "string"); ("title", One "string");
                   ("value", One "string"); ("description", One "string")] |});
    ("historicalEvents",
      {| required := ["date"; "title"; "description"];
         optional := ["impact"];
         types := [("date", One "string"); ("title", One "string");
                   ("description", One "string"); ("impact", One "string")] |});
    ("yearlyStats",
      {| required := ["year"; "users"; "penetration"];
         optional := [];
         types := [("year", One "string"); ("users", One "string");
                   ("penetration", One "string")] |});
    ("socialMediaPlatforms",
      {| required := ["platform"; "users"];
         optional := ["penetration"; "ranking"; "note"; "status"];
         types := [("platform", One "string"); ("users", One "string");
                   ("penetration", One "string"); ("ranking", One "string");
                   ("note", One "string"); ("status", One "string")] |});
    ("companies",
      {| required := ["name"; "marketShare"; "subscribers"];
         optional := ["founded"; "keyMilestone"];
         types := [("name", One "string");
                   ("marketShare", OneOf ["string"; "number"]);
                   ("subscribers", One "string"); ("founded", One "string");
                   ("keyMilestone", One "string")] |});
    ("policies",
      {| required := ["title"; "year"; "target"; "achievement"];
         optional := ["description"; "achievementStatus"];
         types := [("title", One "string"); ("year", OneOf ["string"; "number"]);
                   ("target", One "string"); ("achievement", One "string");
                   ("description", One "string");
                   ("achievementStatus", One "string")] |});
    ("infrastructure",
      {| required := ["name"; "icon"; "specifications"];
         optional := [];
         types := [("name", One "string"); ("icon", One "string");
                   ("specifications", One "array")] |}) ].

(** The validator object.  Error arrays are JavaScript objects with
    identity: [arrays] is the store of the arrays allocated so far and
    [validationErrors] (the field [this.validationErrors]) refers to one of
    them.  A result object keeps the reference it was built with. *)
Record validator : Type := {
  arrays : list (list string);
  validationErrors : nat
}.

Record result : Type := {
  success : bool;
  errors : nat;
  data : value
}.

(** What a holder of a reference sees when reading the array. *)
Definition read (st : validator) (ref : nat) : list string :=
  default [] (arrays st !! ref).

(** [constructor()] *)
Definition new : validator := {| arrays := [[]]; validationErrors := 0 |}.

(** Evaluation of an array literal: a fresh array. *)
Definition alloc (contents : list string) : M validator nat :=
  fun st => (Return (length (arrays st)),
             {| arrays := arrays st ++ [contents];
                validationErrors := validationErrors st |}).

(** [this.validationErrors = []] *)
Definition resetErrors : M validator unit :=
  fun st => (Return tt,
             {| arrays := arrays st ++ [[]];
                validationErrors := length (arrays st) |}).

(** [addError(error)]: [this.validationErrors.push(error)] *)
Definition addError (error : string) : M validator unit :=
  fun st => (Return tt,
             {| arrays := alter (fun errs => errs ++ [error])
                                (validationErrors st) (arrays st);
                validationErrors := validationErrors st |}).

(** [validationFailed(message)] *)
Definition validationFailed (message : string) : M validator result :=
  ref <- alloc [message];;
  ret {| success := false; errors := ref; data := VNull |}.

(** [getValidationResult()] *)
Definition getValidationResult : M validator result :=
  fun st =>
    let n := length (read st (validationErrors st)) in
    (Return {| success := Nat.eqb n 0;
               errors := validationErrors st;
               data := if Nat.eqb n 0 then VStr "Valid" else VNull |}, st).

(** [validateFieldType(value, expectedType, fieldPath)]; [None] is an
    [undefined] expected type.  The empty-array warning goes to the
    console only. *)
Definition validateFieldType (value : value) (expectedType : option typeSpec)
    (fieldPath : string) : M validator unit :=
  let actualType := if isArray value then "array" else typeof value in
  match expectedType with
  | Some (OneOf ts) =>
      if negb (existsb (String.eqb actualType) ts)
      then addError (fieldPath +:+ " must be one of: " +:+ join ", " ts
                     +:+ ", got: " +:+ actualType)
      else ret tt
  | Some (One t) =>
      if negb (String.eqb actualType t)
      then addError (fieldPath +:+ " must be " +:+ t +:+ ", got: " +:+ actualType)
      else ret tt
  | None =>
      addError (fieldPath +:+ " must be undefined, got: " +:+ actualType)
  end.

(** [validateItemStructure(item, itemType, itemPath)] *)
Definition validateItemStructure (item : value) (itemType itemPath : string)
    : M validator unit :=
  if negb (String.eqb (typeof item) "object")
  then addError (itemPath +:+ " must be an object")
  else
    match assoc itemType getRequiredFields with
    | None => addError ("Unknown item type: " +:+ itemType)
    | Some requirements =>
        forEach (fun field =>
                   present <- lift (has_property field item);;
                   if negb present
                   then addError (itemPath +:+ " missing required field: " +:+ field)
                   else
                     v <- lift (get item field);;
                     validateFieldType v (assoc field (types requirements))
                                       (itemPath +:+ "." +:+ field))
                (required requirements);;;
        fields <- lift (keys item);;
        forEach (fun field =>
                   match assoc field (types requirements) with
                   | Some t =>
                       v <- lift (get item field);;
                       validateFieldType v (Some t) (itemPath +:+ "." +:+ field)
                   | None => ret tt
                   end)
                fields
    end.

(** [validateArrayItems(items, itemType)] *)
Definition validateArrayItems (items : value) (itemType : string)
    : M validator unit :=
  match items with
  | VArr l =>
      forEach (fun '(index, item) =>
                 validateItemStructure item itemType
                   (itemType +:+ "[" +:+ pretty index +:+ "]"))
              (imap pair l)
  | _ => addError (itemType +:+ " must be an array")
  end.

(** The recurring test [!data.field || !Array.isArray(data.field)] and its
    two branches. *)
Definition checkArray (owner : value) (field message itemType : string)
    : M validator unit :=
  v <- lift (get owner field);;
  if negb (truthy v) || negb (isArray v)
  then addError message
  else validateArrayItems v itemType.

(** [validateFoundationEra(foundationEra)] *)
Definition validateFoundationEra (foundationEra : value) : M validator unit :=
  checkArray foundationEra "events" "foundationEra.events must be an array"
             "historicalEvents";;;
  checkArray foundationEra "yearlyStats"
             "foundationEra.yearlyStats must be an array" "yearlyStats".

(** [validateMobileEra(mobileEra)] *)
Definition validateMobileEra (mobileEra : value) : M validator unit :=
  checkArray mobileEra "events" "mobileEra.events must be an array"
             "historicalEvents";;;
  checkArray mobileEra "socialMediaGrowth"
             "mobileEra.socialMediaGrowth must be an array"
             "socialMediaPlatforms".

(** The test of the two fintech collections, whose elements are not
    validated. *)
Definition requireArray (owner : value) (field message : string)
    : M validator unit :=
  v <- lift (get owner field);;
  if negb (truthy v) || negb (isArray v) then addError message else ret tt.

(** [validateFintechEra(fintechEra)] *)
Definition validateFintechEra (fintechEra : value) : M validator unit :=
  checkArray fintechEra "events" "fintechEra.events must be an array"
             "historicalEvents";;;
  requireArray fintechEra "mobileBanking"
               "fintechEra.mobileBanking must be an array";;;
  requireArray fintechEra "investmentBoom"
               "fintechEra.investmentBoom must be an array".

(** The test [!data.era || typeof data.era !== 'object'] and its branches. *)
Definition checkEra (data : value) (field : string)
    (validateEra : value -> M validator unit) : M validator unit :=
  era <- lift (get data field);;
  if negb (truthy era) || negb (String.eqb (typeof era) "object")
  then addError (field +:+ " must be an object")
  else validateEra era.

(** [validateHistoricalEvents(data)] *)
Definition validateHistoricalEvents (data : value) : M validator result :=
  checkArray data "heroStats" "heroStats must be an array" "heroStats";;;
  checkEra data "foundationEra" validateFoundationEra;;;
  checkEra data "mobileEra" validateMobileEra;;;
  checkEra data "fintechEra" validateFintechEra;;;
  getValidationResult.

(** [validateStatistics(data)] *)
Definition validateStatistics (data : value) : M validator result :=
  getValidationResult.

(** [validateCompanies(data)] *)
Definition validateCompanies (data : value) : M validator result :=
  checkArray data "companies" "companies must be an array" "companies";;;
  getValidationResult.

(** [validateSocialMedia(data)] *)
Definition validateSocialMedia (data : value) : M validator result :=
  checkArray data "platforms" "platforms must be an array"
             "socialMediaPlatforms";;;
  getValidationResult.

(** [validatePolicies(data)] *)
Definition validatePolicies (data : value) : M validator result :=
  checkArray data "policies" "policies must be an array" "policies";;;
  getValidationResult.

(** [validateInfrastructure(data)] *)
Definition validateInfrastructure (data : value) : M validator result :=
  checkArray data "infrastructure" "infrastructure must be an array"
             "infrastructure";;;
  getValidationResult.

(** The [switch (dataType)] of [validateJSONData]. *)
Definition dispatch (jsonData : value) (dataType : string) : M validator result :=
  if String.eqb dataType "historical_events" then validateHistoricalEvents jsonData
  else if String.eqb dataType "statistics" then validateStatistics jsonData
  else if String.eqb dataType "companies" then validateCompanies jsonData
  else if String.eqb dataType "social_media" then validateSocialMedia jsonData
  else if String.eqb dataType "policies" then validatePolicies jsonData
  else if String.eqb dataType "infrastructure" then validateInfrastructure jsonData
  else validationFailed ("Unknown data type: " +:+ dataType).

(** [validateJSONData(jsonData, dataType)] *)
Definition validateJSONData (jsonData : value) (dataType : string)
    : M validator result :=
  resetErrors;;;
  if negb (truthy jsonData)
  then validationFailed "JSON data is null or undefined"
  else if negb (String.eqb (typeof jsonData) "object")
  then validationFailed "JSON data must be an object"
  else
    try_catch (dispatch jsonData dataType)
              (fun error => validationFailed ("Validation error: " +:+ message error)).

(** [JSONValidator.validateJSONString(jsonString)], over the host's
    [JSON.parse].  The argument is always the text of a response, hence a
    string. *)
Record parseResult : Type := {
  parse_success : bool;
  parse_error : option string;
  parse_data : value
}.

Definition validateJSONString (JSON_parse : string -> completion value)
    (jsonString : string) : parseResult :=
  if String.eqb jsonString ""
  then {| parse_success := false;
          parse_error := Some "JSON string is empty or not a string";
          parse_data := VNull |}
  else
    match JSON_parse jsonString with
    | Return parsedData =>
        {| parse_success := true; parse_error := None; parse_data := parsedData |}
    | Throw error =>
        {| parse_success := false;
           parse_error := Some ("JSON parse error: " +:+ message error);
           parse_data := VNull |}
    end.

(** The contents of a result as its holder reads them in state [st]. *)
Definition contents (st : validator) (r : result) : bool * list string * value :=
  (success r, read st (errors r), data r).

End JSONValidator.

(** ** TemplateRenderer (src/js/template-renderer.js) *)

Module TemplateRenderer.

(** An element of the page, by a handle. *)
Definition element : Type := string.

(** A compiled Handlebars template: a function of the data that returns
    markup or raises. *)
Definition template : Type := value -> completion string.

(** The part of the browser the renderer calls into.  Which element a
    selector or an id denotes is fixed by the page: the renderer only
    replaces the content of insertion points. *)
Record host : Type := {
  querySelector : string -> completion (option element);
  getElementById : string -> option element;
  elementToString : element -> string;
  Handlebars_compile : string -> completion template;
  (** whether ToNumber of a string is greater than zero *)
  stringIsPositive : string -> bool
}.

(** [document.readyState] *)
Inductive readyState : Type :=
| loading
| interactive
| complete.

(** The [targetSelector] argument: a selector string or an element. *)
Inductive target : Type :=
| Selector (s : string)
| Element (e : element).

Record renderer : Type := {
  compiledTemplates : gmap string template;
  templateElements : gmap string element
}.

(** One [renderTemplate] call, as observed from outside. *)
Record call : Type := {
  call_template : string;
  call_target : target;
  call_outcome : completion bool
}.

(** The state the renderer's methods act on: the renderer object, the
    [innerHTML] of the page's elements, and the history of
    [renderTemplate] calls (a ghost field, read by no method). *)
Record world : Type := {
  this : renderer;
  innerHTML : gmap element string;
  calls : list call
}.

(** The names every object inherits from [Object.prototype]. *)
Definition prototypeNames : list string :=
  [ "constructor"; "__defineGetter__"; "__defineSetter__"; "hasOwnProperty";
    "__lookupGetter__"; "__lookupSetter__"; "isPrototypeOf";
    "propertyIsEnumerable"; "toString"; "valueOf"; "__proto__";
    "toLocaleString" ].

(** [String(this.compiledTemplates)]: the object is plain, unless a
    template was stored under the name [toString], which is then called
    without an argument. *)
Definition templatesToString (own : gmap string template) : completion string :=
  match own !! "toString" with
  | Some render => render VUndefined
  | None => Return "[object Object]"
  end.

(** [this.compiledTemplates.hasOwnProperty(data)] *)
Definition hasOwnTemplate (own : gmap string template) (data : value)
    : completion bool :=
  andThen (toPrimitiveString data) (fun key =>
  Return (bool_decide (is_Some (own !! key)))).

(** [this.compiledTemplates.__lookupGetter__(data)] and
    [__lookupSetter__]: the own properties are data properties, and the
    only accessor of [Object.prototype] is [__proto__]; the result is given
    as the text it has in markup. *)
Definition lookupAccessor (own : gmap string template) (kind : string)
    (data : value) : completion string :=
  andThen (toPrimitiveString data) (fun key =>
  Return (if bool_decide (is_Some (own !! key)) then "undefined"
          else if String.eqb key "__proto__"
          then "function " +:+ kind +:+ " __proto__() { [native code] }"
          else "undefined")).

(** [Object.prototype[name]], as [this.compiledTemplates[name]] finds it
    when the object has no own property [name]: the member, when it
    exists, as the function of the data that
    [this.compiledTemplates[name](data)] followed by the conversion of the
    result to markup is.  [__proto__] is an object and cannot be called;
    [__defineGetter__] and [__defineSetter__] want a function as their
    second argument (V8 wording). *)
Definition inheritedTemplate (own : gmap string template) (name : string)
    : option template :=
  if String.eqb name "constructor" then Some toPrimitiveString
  else if String.eqb name "toString" then Some (fun _ => Return "[object Object]")
  else if String.eqb name "toLocaleString" then Some (fun _ => templatesToString own)
  else if String.eqb name "valueOf" then Some (fun _ => templatesToString own)
  else if String.eqb name "hasOwnProperty" || String.eqb name "propertyIsEnumerable"
  then Some (fun data =>
               andThen (hasOwnTemplate own data) (fun found =>
               Return (if found : bool then "true" else "false")))
  else if String.eqb name "isPrototypeOf" then Some (fun _ => Return "false")
  else if String.eqb name "__lookupGetter__" then Some (lookupAccessor own "get")
  else if String.eqb name "__lookupSetter__" then Some (lookupAccessor own "set")
  else if String.eqb name "__defineGetter__"
  then Some (fun _ => Throw (TypeError "Object.prototype.__defineGetter__: Expecting function"))
  else if String.eqb name "__defineSetter__"
  then Some (fun _ => Throw (TypeError "Object.prototype.__defineSetter__: Expecting function"))
  else if String.eqb name "__proto__"
  then Some (fun _ => Throw (TypeError "this.compiledTemplates[templateName] is not a function"))
  else None.

(** [this.compiledTemplates[templateName]]: the template compiled under
    this name or, for want of one, the member of this name that the object
    inherits. *)
Definition templateAt (own : gmap string template) (templateName : string)
    : option template :=
  match own !! templateName with
  | Some render => Some render
  | None => inheritedTemplate own templateName
  end.

Definition set_this (f : renderer -> renderer) (w : world) : world :=
  {| this := f (this w); innerHTML := innerHTML w; calls := calls w |}.

(** [el.innerHTML = html] *)
Definition set_innerHTML (el : element) (html : string) : M world unit :=
  modify (fun w => {| this := this w;
                      innerHTML := <[el := html]> (innerHTML w);
                      calls := calls w |}).

(** [el.innerHTML] *)
Definition get_innerHTML (el : element) : M world string :=
  gets (fun w => default "" (innerHTML w !! el)).

Definition record_call (c : call) (w : world) : world :=
  {| this := this w; innerHTML := innerHTML w; calls := calls w ++ [c] |}.

(** The white space [trim] removes (WhiteSpace and LineTerminator of
    ECMAScript), by its encoding in UTF-8.  One byte: TAB, LF, VT, FF, CR
    and the space. *)
Definition is_whitespace (c : ascii) : bool :=
  let n := nat_of_ascii c in
  (n =? 32)%nat || ((9 <=? n)%nat && (n <=? 13)%nat).

(** Two bytes: U+00A0, the no-break space. *)
Definition is_whitespace2 (c1 c2 : ascii) : bool :=
  (nat_of_ascii c1 =? 194)%nat && (nat_of_ascii c2 =? 160)%nat.

(** Three bytes: U+1680, U+2000 to U+200A, U+2028, U+2029, U+202F,
    U+205F, U+3000 and U+FEFF. *)
Definition is_whitespace3 (c1 c2 c3 : ascii) : bool :=
  let n1 := nat_of_ascii c1 in
  let n2 := nat_of_ascii c2 in
  let n3 := nat_of_ascii c3 in
  ((n1 =? 225) && (n2 =? 154) && (n3 =? 128))%nat
  || ((n1 =? 226) && (n2 =? 128)
      && (((128 <=? n3) && (n3 <=? 138)) || (n3 =? 168) || (n3 =? 169)
          || (n3 =? 175)))%nat
  || ((n1 =? 226) && (n2 =? 129) && (n3 =? 159))%nat
  || ((n1 =? 227) && (n2 =? 128) && (n3 =? 128))%nat
  || ((n1 =? 239) && (n2 =? 187) && (n3 =? 191))%nat.

(** [!s.trim()]: nothing is left of [s] once white space is trimmed,
    that is, [s] is a sequence of white space characters. *)
Fixpoint blank (s : string) : bool :=
  match s with
  | EmptyString => true
  | String c1 rest1 =>
      if is_whitespace c1 then blank rest1
      else match rest1 with
           | EmptyString => false
           | String c2 rest2 =>
               if is_whitespace2 c1 c2 then blank rest2
               else match rest2 with
                    | EmptyString => false
                    | String c3 rest3 => is_whitespace3 c1 c2 c3 && blank rest3
                    end
           end
  end.

(** The double-quote character, as a string. *)
Definition quote : string := String (ascii_of_nat 34) EmptyString.

(** [templateMappings] of [compileAllTemplates]. *)
Definition templateMappings : list (string * string) :=
  [ ("heroStats", "hero-stats-template");
    ("historicalEvents", "historical-events-template");
    ("statistics", "statistics-template");
    ("companies", "company-template");
    ("socialMedia", "social-media-template");
    ("policies", "policy-template");
    ("infrastructure", "infrastructure-template") ].

Section Methods.
Variable h : host.

(** [compileTemplate(templateName, templateId)] *)
Definition compileTemplate (templateName templateId : string) : M world unit :=
  match getElementById h templateId with
  | None => ret tt
  | Some templateElement =>
      templateSource <- get_innerHTML templateElement;;
      if blank templateSource then ret tt
      else
        try_catch
          (compiled <- lift (Handlebars_compile h templateSource);;
           modify (set_this (fun r =>
             {| compiledTemplates := <[templateName := compiled]> (compiledTemplates r);
                templateElements := <[templateName := templateElement]> (templateElements r) |})))
          (fun error => throw error)
  end.

(** [compileAllTemplates()] *)
Definition compileAllTemplates : M world unit :=
  try_catch
    (forEach (fun '(key, templateId) => compileTemplate key templateId)
             templateMappings)
    (fun error => throw error).

(** [initializeTemplates()], when [document.readyState] is [state]: while
    the document is loading the compilation is left to a listener for
    [DOMContentLoaded]; the listeners the call adds to the document are
    what it returns. *)
Definition initializeTemplates (state : readyState)
    : M world (list (M world unit)) :=
  match state with
  | loading => ret [compileAllTemplates]
  | interactive | complete => compileAllTemplates;;; ret []
  end.

(** [new TemplateRenderer()], when [document.readyState] is [state]. *)
Definition new (state : readyState) : M world (list (M world unit)) :=
  modify (set_this (fun _ => {| compiledTemplates := ∅; templateElements := ∅ |}));;;
  initializeTemplates state.

(** The inline error placeholder of [handleRenderError]. *)
Definition placeholder (templateName errorMessage : string) : string :=
  "
                <div class=" +:+ quote +:+ "render-error" +:+ quote +:+ ">
                    <h4>⚠️ Content Loading Error</h4>
                    <p>Unable to load " +:+ templateName +:+ " content.</p>
                    <small>Error: " +:+ errorMessage +:+ "</small>
                </div>
            ".

(** The string a [targetSelector] is when passed on as a selector. *)
Definition selector_of (targetSelector : target) : string :=
  match targetSelector with
  | Selector s => s
  | Element e => elementToString h e
  end.

(** [handleRenderError(templateName, targetSelector, error)] *)
Definition handleRenderError (templateName : string) (targetSelector : target)
    (error : error) : M world unit :=
  targetElement <- lift (querySelector h (selector_of targetSelector));;
  match targetElement with
  | Some el => set_innerHTML el (placeholder templateName (message error))
  | None => ret tt
  end.

(** The body of [renderTemplate(templateName, data, targetSelector)]. *)
Definition renderTemplate_body (templateName : string) (data : value)
    (targetSelector : target) : M world bool :=
  try_catch
    (compiled <- gets (fun w => templateAt (compiledTemplates (this w)) templateName);;
     match compiled with
     | None => ret false
     | Some render =>
         if negb (truthy data) then ret false
         else
           targetElement <-
             match targetSelector with
             | Selector s => lift (querySelector h s)
             | Element e => ret (Some e)
             end;;
           match targetElement with
           | None => ret false
           | Some el =>
               renderedHTML <- lift (render data);;
               set_innerHTML el renderedHTML;;;
               ret true
           end
     end)
    (fun error =>
       handleRenderError templateName targetSelector error;;;
       ret false).

(** [renderTemplate], with the call entered in the history. *)
Definition renderTemplate (templateName : string) (data : value)
    (targetSelector : target) : M world bool :=
  fun w =>
    let '(outcome, w') := renderTemplate_body templateName data targetSelector w in
    (outcome, record_call {| call_template := templateName;
                             call_target := targetSelector;
                             call_outcome := outcome |} w').

(** [renderHeroStats(heroStatsData)] *)
Definition renderHeroStats (heroStatsData : value) : M world bool :=
  renderTemplate "heroStats" (VObj [("heroStats", heroStatsData)])
                 (Selector "#heroStats").

(** [event => event.title.toLowerCase().includes(keyword)] *)
Definition title_includes (keyword : string) (event : value) : completion bool :=
  andThen (get event "title") (fun title =>
  andThen (toLowerCase title "event.title") (fun lowered =>
  Return (includes lowered keyword))).

(** [success.every(result => result === true)] *)
Definition every_true (success : list bool) : value :=
  VBool (forallb (fun result => result) success).

(** The recurring step: look an event up by keyword and, when there is
    one, render it alone into [targetSelector]; the outcome joins
    [success]. *)
Definition renderEvent (found : value) (targetSelector : string)
    (success : list bool) : M world (list bool) :=
  if truthy found
  then ok <- renderTemplate "historicalEvents"
                            (VObj [("events", VArr [found])])
                            (Selector targetSelector);;
       ret (success ++ [ok])
  else ret success.

(** [v > 0] *)
Definition greaterThanZero (v : value) : bool :=
  match v with
  | VNum n => (0 <? n)%Z
  | VBool b => b
  | VStr s => stringIsPositive h s
  | VArr _ => stringIsPositive h (toString v)
  | VUndefined | VNull | VObj _ => false
  end.

(** [renderFoundationEra(foundationData)] *)
Definition renderFoundationEra (foundationData : value) : M world value :=
  let success := [] in
  events <- lift (get foundationData "events");;
  nonEmpty <- (if truthy events
               then len <- lift (get events "length");;
                    ret (greaterThanZero len)
               else ret false);;
  success <- (if nonEmpty : bool
              then ptclEvent <- lift (find events "foundationData.events"
                                           (title_includes "ptcl privatization"));;
                   renderEvent ptclEvent "#ptclPrivatization" success
              else ret success);;
  ok1 <- renderTemplate "historicalEvents" (VObj [("events", events)])
                        (Selector "#foundationMilestones");;
  yearlyStats <- lift (get foundationData "yearlyStats");;
  ok2 <- renderTemplate "statistics" (VObj [("yearlyStats", yearlyStats)])
                        (Selector "#foundationStats");;
  ok3 <- renderTemplate "historicalEvents" (VObj [("events", events)])
                        (Selector "#foundationTimeline");;
  ret (every_true (success ++ [ok1; ok2; ok3])).

(** [getSocialMediaIcon(platform)] *)
Definition getSocialMediaIcon (platform : value) : value :=
  let icons := [ ("Facebook", VStr "📘"); ("YouTube", VStr "📹");
                 ("WhatsApp", VStr "💬"); ("TikTok", VStr "🎵");
                 ("Twitter", VStr "🐦"); ("Instagram", VStr "📷") ] in
  or_else (default VUndefined (assoc (toString platform) icons)) (VStr "📱").

(** The callback of [mobileData.socialMediaGrowth.map]. *)
Definition platformCard (platform : value) : completion value :=
  andThen (get platform "platform") (fun name =>
  andThen (get platform "users") (fun users =>
  andThen (get platform "peakUsers") (fun peakUsers =>
  andThen (get platform "penetration") (fun penetration =>
  andThen (get platform "ranking") (fun ranking =>
  andThen (get platform "note") (fun note =>
  andThen (get platform "status") (fun status =>
  Return (VObj [ ("icon", getSocialMediaIcon name);
                 ("name", name);
                 ("users", or_else users peakUsers);
                 ("penetration", or_else penetration (VStr (toString ranking)));
                 ("note", or_else note status) ])))))))).

(** [renderMobileEra(mobileData)] *)
Definition renderMobileEra (mobileData : value) : M world value :=
  let success := [] in
  events <- lift (get mobileData "events");;
  launch3G4G <- lift (find events "mobileData.events" (fun event =>
                        andThen (title_includes "3g/4g" event) (fun hit =>
                        if hit : bool then Return true
                        else title_includes "spectrum auction" event)));;
  success <- renderEvent launch3G4G "#mobile3G4G" success;;
  socialMediaGrowth <- lift (get mobileData "socialMediaGrowth");;
  platforms <- lift (map socialMediaGrowth "mobileData.socialMediaGrowth"
                         platformCard);;
  ok <- renderTemplate "socialMedia" (VObj [("platforms", platforms)])
                       (Selector "#socialMediaGrowth");;
  let success := success ++ [ok] in
  policyEvent <- lift (find events "mobileData.events"
                            (title_includes "digital pakistan policy"));;
  success <- renderEvent policyEvent "#digitalPakistanPolicy" success;;
  ret (every_true success).

(** The callback of [fintechData.mobileBanking.map]. *)
Definition serviceCard (service : value) : completion value :=
  andThen (get service "service") (fun name =>
  andThen (get service "users") (fun users =>
  andThen (get service "parent") (fun parent =>
  andThen (get service "description") (fun description =>
  Return (VObj [ ("name", name);
                 ("marketShare", VStr EmptyString);
                 ("subscribers", or_else users (VStr "Market leader"));
                 ("founded", parent);
                 ("keyMilestone", description) ]))))).

(** The callback of [fintechData.investmentBoom.map]. *)
Definition investmentCard (company : value) : completion value :=
  andThen (get company "company") (fun name =>
  andThen (get company "funding") (fun funding =>
  andThen (get company "type") (fun type =>
  andThen (get company "note") (fun note =>
  Return (VObj [ ("name", name);
                 ("marketShare", VStr EmptyString);
                 ("subscribers", funding);
                 ("founded", type);
                 ("keyMilestone", or_else note (VStr "Fintech startup")) ]))))).

(** [renderFintechEra(fintechData)] *)
Definition renderFintechEra (fintechData : value) : M world value :=
  let success := [] in
  events <- lift (get fintechData "events");;
  raastEvent <- lift (find events "fintechData.events" (title_includes "raast"));;
  success <- renderEvent raastEvent "#raastRevolution" success;;
  mobileBanking <- lift (get fintechData "mobileBanking");;
  services <- lift (map mobileBanking "fintechData.mobileBanking" serviceCard);;
  ok1 <- renderTemplate "companies" (VObj [("companies", services)])
                        (Selector "#mobileBanking");;
  investmentBoom <- lift (get fintechData "investmentBoom");;
  companies <- lift (map investmentBoom "fintechData.investmentBoom"
                         investmentCard);;
  ok2 <- renderTemplate "companies" (VObj [("companies", companies)])
                        (Selector "#investmentBoom");;
  ret (every_true (success ++ [ok1; ok2])).

(** One entry of a [specifications] array. *)
Definition specification (label value : string) : JS.value :=
  VObj [("label", VStr label); ("value", VStr value)].

(** [renderSidebarContent(allData)]; the method has no [return]
    statement, so a call evaluates to [undefined]. *)
Definition renderSidebarContent (allData : value) : M world value :=
  mobileEra <- lift (get allData "mobileEra");;
  (if truthy mobileEra
   then events <- lift (get mobileEra "events");;
        covidEvent <- lift (find events "allData.mobileEra.events"
                                 (title_includes "covid"));;
        if truthy covidEvent
        then renderTemplate "historicalEvents"
                            (VObj [("events", VArr [covidEvent])])
                            (Selector "#covidImpact");;;
             ret tt
        else ret tt
   else ret tt);;;
  fiveGFuture <- lift (get allData "fiveGFuture");;
  (if truthy fiveGFuture
   then launchTimeline <- lift (get fiveGFuture "launchTimeline");;
        testSpeeds <- lift (get fiveGFuture "testSpeeds");;
        regionalFirst <- lift (get fiveGFuture "regionalFirst");;
        let fiveGData :=
          VObj [ ("name", VStr "5G Commercial Launch");
                 ("icon", VStr "🚀");
                 ("specifications",
                  VArr [ VObj [("label", VStr "Launch Timeline"); ("value", launchTimeline)];
                         VObj [("label", VStr "Test Speeds"); ("value", testSpeeds)];
                         VObj [("label", VStr "Regional First"); ("value", regionalFirst)] ]) ] in
        renderTemplate "infrastructure"
                       (VObj [("infrastructure", VArr [fiveGData])])
                       (Selector "#fiveGFuture");;;
        ret tt
   else ret tt);;;
  digitalDivides <- lift (get allData "digitalDivides");;
  (if truthy digitalDivides
   then genderGap <- lift (get digitalDivides "genderGap");;
        percentage <- lift (get genderGap "percentage");;
        menAccess <- lift (get genderGap "menAccess");;
        womenAccess <- lift (get genderGap "womenAccess");;
        geographicGap <- lift (get digitalDivides "geographicGap");;
        urbanAccess <- lift (get geographicGap "urbanAccess");;
        ruralAccess <- lift (get geographicGap "ruralAccess");;
        let divideData :=
          VObj [ ("name", VStr "Digital Divide Challenges");
                 ("icon", VStr "⚖️");
                 ("specifications",
                  VArr [ specification "Gender Gap"
                           (toString percentage +:+ " (World's highest)");
                         specification "Men vs Women"
                           (toString menAccess +:+ " vs " +:+ toString womenAccess);
                         specification "Urban vs Rural"
                           (toString urbanAccess +:+ " vs " +:+ toString ruralAccess) ]) ] in
        renderTemplate "infrastructure"
                       (VObj [("infrastructure", VArr [divideData])])
                       (Selector "#digitalDivide");;;
        ret tt
   else ret tt);;;
  ret VUndefined.

End Methods.

(** [isReady()] *)
Definition isReady (r : renderer) : bool :=
  let requiredTemplates :=
    ["heroStats"; "historicalEvents"; "statistics"; "companies"; "socialMedia"] in
  forallb (fun template => bool_decide (is_Some (compiledTemplates r !! template)))
          requiredTemplates.

End TemplateRenderer.

(** ** PakistanTimelineApp (src/js/app.js) *)

Module PakistanTimelineApp.

(** What [await fetch(filePath)] followed by [await response.text()]
    yields: a rejection, or a response with its status line and body. *)
Inductive fetchResult : Type :=
| Rejected (e : error)
| Response (status : nat) (statusText : string) (body : string).

(** The browser as the application sees it.  [fetch n filePath] is the
    result of the [n]-th call of [fetch] since the page was opened, made
    for [filePath]. *)
Record host : Type := {
  page : TemplateRenderer.host;
  JSON_parse : string -> completion value;
  fetch : nat -> string -> fetchResult
}.

Record config : Type := {
  dataFiles : list string;
  retryAttempts : nat;
  retryDelay : nat
}.

(** An entry of the timeline of network and timer activity (a ghost
    field, read by no method). *)
Inductive event : Type :=
| Fetched (filePath : string) (attempt : nat)
| Delayed (ms : nat).

Record app : Type := {
  validator : JSONValidator.validator;
  renderer : TemplateRenderer.world;
  data : gmap string value;
  isLoading : bool;
  hasErrors : bool;
  cfg : config;
  (** the page outside the renderer's reach: the class [hidden] of
      [#loadingOverlay], the [display] style of [#errorModal], and the text
      of [#errorMessage] as [showErrorModal] assigns it through
      [textContent]; the [innerHTML] map of the renderer holds what is
      assigned through [innerHTML] *)
  overlayHidden : bool;
  modalDisplay : string;
  modalMessage : string;
  (** the world *)
  fetches : nat;
  timeline : list event
}.

(** The configuration the constructor installs. *)
Definition defaultConfig : config :=
  {| dataFiles := [ "data/historical_events.json"; "data/statistics.json";
                    "data/companies.json"; "data/social_media.json";
                    "data/policies.json"; "data/infrastructure.json" ];
     retryAttempts := 3;
     retryDelay := 1000 |}.

(** [constructor()], before [initialize] starts the application; the
    components are created by [startApp]. *)
Definition new (content : gmap TemplateRenderer.element string) : app :=
  {| validator := JSONValidator.new;
     renderer := {| TemplateRenderer.this :=
                      {| TemplateRenderer.compiledTemplates := ∅;
                         TemplateRenderer.templateElements := ∅ |};
                    TemplateRenderer.innerHTML := content;
                    TemplateRenderer.calls := [] |};
     data := ∅;
     isLoading := false;
     hasErrors := false;
     cfg := defaultConfig;
     overlayHidden := false;
     modalDisplay := "none";
     modalMessage := EmptyString;
     fetches := 0;
     timeline := [] |}.

Definition with_validator (v : JSONValidator.validator) (a : app) : app :=
  {| validator := v; renderer := renderer a; data := data a;
     isLoading := isLoading a; hasErrors := hasErrors a; cfg := cfg a;
     overlayHidden := overlayHidden a; modalDisplay := modalDisplay a;
     modalMessage := modalMessage a; fetches := fetches a;
     timeline := timeline a |}.

Definition with_renderer (r : TemplateRenderer.world) (a : app) : app :=
  {| validator := validator a; renderer := r; data := data a;
     isLoading := isLoading a; hasErrors := hasErrors a; cfg := cfg a;
     overlayHidden := overlayHidden a; modalDisplay := modalDisplay a;
     modalMessage := modalMessage a; fetches := fetches a;
     timeline := timeline a |}.

Definition with_data (d : gmap string value) (a : app) : app :=
  {| validator := validator a; renderer := renderer a; data := d;
     isLoading := isLoading a; hasErrors := hasErrors a; cfg := cfg a;
     overlayHidden := overlayHidden a; modalDisplay := modalDisplay a;
     modalMessage := modalMessage a; fetches := fetches a;
     timeline := timeline a |}.

Definition with_world (n : nat) (t : list event) (a : app) : app :=
  {| validator := validator a; renderer := renderer a; data := data a;
     isLoading := isLoading a; hasErrors := hasErrors a; cfg := cfg a;
     overlayHidden := overlayHidden a; modalDisplay := modalDisplay a;
     modalMessage := modalMessage a; fetches := n; timeline := t |}.

Definition with_overlay (hidden loading : bool) (a : app) : app :=
  {| validator := validator a; renderer := renderer a; data := data a;
     isLoading := loading; hasErrors := hasErrors a; cfg := cfg a;
     overlayHidden := hidden; modalDisplay := modalDisplay a;
     modalMessage := modalMessage a; fetches := fetches a;
     timeline := timeline a |}.

Definition with_modal (display message : string) (errors : bool) (a : app) : app :=
  {| validator := validator a; renderer := renderer a; data := data a;
     isLoading := isLoading a; hasErrors := errors; cfg := cfg a;
     overlayHidden := overlayHidden a; modalDisplay := display;
     modalMessage := message; fetches := fetches a;
     timeline := timeline a |}.

(** Calls into the two components. *)
Definition onValidator {A} (m : M JSONValidator.validator A) : M app A :=
  zoom validator with_validator m.
Definition onRenderer {A} (m : M TemplateRenderer.world A) : M app A :=
  zoom renderer with_renderer m.

(** [s.split(sep)] for a one-character separator. *)
Fixpoint split (sep : ascii) (s : string) : list string :=
  match s with
  | EmptyString => [EmptyString]
  | String c rest =>
      if Ascii.eqb c sep then EmptyString :: split sep rest
      else match split sep rest with
           | part :: parts => String c part :: parts
           | [] => [String c EmptyString]
           end
  end.

Fixpoint drop_chars (n : nat) (s : string) : string :=
  match n, s with
  | S n', String _ rest => drop_chars n' rest
  | _, _ => s
  end.

(** [s.replace(pattern, replacement)] for a string pattern: the first
    occurrence only. *)
Fixpoint replace (pattern replacement s : string) : string :=
  if String.prefix pattern s
  then replacement +:+ drop_chars (String.length pattern) s
  else match s with
       | EmptyString => EmptyString
       | String c rest => String c (replace pattern replacement rest)
       end.

(** [file.split('/')[1].replace('.json', '')] *)
Definition fileNameOf (file : string) : completion string :=
  match split "/" file !! 1%nat with
  | Some part => Return (replace ".json" EmptyString part)
  | None => Throw (TypeError "Cannot read properties of undefined (reading 'replace')")
  end.

(** The [optionalFiles] of [loadOptionalDataFiles]. *)
Definition optionalFiles : list string :=
  [ "data/statistics.json"; "data/companies.json"; "data/social_media.json";
    "data/policies.json"; "data/infrastructure.json" ].

Section Methods.
Variable h : host.

(** [await this.delay(ms)] *)
Definition delay (ms : nat) : M app unit :=
  modify (fun a => with_world (fetches a) (timeline a ++ [Delayed ms]) a).

(** [response.ok] *)
Definition ok (status : nat) : bool := (200 <=? status)%nat && (status <=? 299)%nat.

(** The [try] block of one iteration of [loadJSONFile], from the moment
    the response (or the rejection) is in. *)
Definition responseOutcome (r : fetchResult) : completion value :=
  match r with
  | Rejected e => Throw e
  | Response status statusText jsonText =>
      if negb (ok status)
      then Throw (Error ("HTTP " +:+ pretty status +:+ ": " +:+ statusText))
      else
        let parseResult := JSONValidator.validateJSONString (JSON_parse h) jsonText in
        if negb (JSONValidator.parse_success parseResult)
        then Throw (Error (default "null" (JSONValidator.parse_error parseResult)))
        else Return (JSONValidator.parse_data parseResult)
  end.

(** The [try] block of one iteration of [loadJSONFile]. *)
Definition fetchAndParse (filePath : string) (attempt : nat) : M app value :=
  n <- gets fetches;;
  modify (fun a => with_world (S n) (timeline a ++ [Fetched filePath attempt]) a);;;
  lift (responseOutcome (fetch h n filePath)).

(** The [for] loop of [loadJSONFile], entered at [attempt] with
    [remaining] iterations to go; [inl] is the [return] from inside the
    loop, [inr] the value of [lastError] when the loop runs out. *)
Fixpoint attemptLoop (remaining attempt : nat) (filePath : string)
    (lastError : option error) : M app (value + option error) :=
  match remaining with
  | 0 => ret (inr lastError)
  | S remaining' =>
      try_catch
        (parsed <- fetchAndParse filePath attempt;;
         ret (inl parsed))
        (fun error =>
           limit <- gets (fun a => retryAttempts (cfg a));;
           step <- gets (fun a => retryDelay (cfg a));;
           (if (attempt <? limit)%nat then delay (step * attempt) else ret tt);;;
           attemptLoop remaining' (S attempt) filePath (Some error))
  end.

(** [loadJSONFile(filePath)] *)
Definition loadJSONFile (filePath : string) : M app value :=
  limit <- gets (fun a => retryAttempts (cfg a));;
  outcome <- attemptLoop limit 1 filePath None;;
  match outcome with
  | inl parsed => ret parsed
  | inr lastError =>
      match lastError with
      | None => throw (TypeError "Cannot read properties of null (reading 'message')")
      | Some lastError =>
          if includes filePath "historical_events.json"
          then throw (Error ("Failed to load critical data file: " +:+ filePath
                             +:+ ". Last error: " +:+ message lastError))
          else ret VNull
      end
  end.

(** [loadOptionalDataFiles()] *)
Definition loadOptionalDataFiles : M app unit :=
  forEach (fun file =>
             try_catch
               (loaded <- loadJSONFile file;;
                if truthy loaded
                then fileName <- lift (fileNameOf file);;
                     modify (fun a => with_data (<[fileName := loaded]> (data a)) a)
                else ret tt)
               (fun error => ret tt))
          optionalFiles.

(** [loadAllData()] *)
Definition loadAllData : M app unit :=
  try_catch
    (primaryData <- loadJSONFile "data/historical_events.json";;
     (if truthy primaryData
      then validationResult <-
             onValidator (JSONValidator.validateJSONData primaryData "historical_events");;
           if JSONValidator.success validationResult
           then modify (fun a => with_data (<["historical_events" := primaryData]> (data a)) a)
           else modify (fun a => with_data (<["historical_events" := primaryData]> (data a)) a)
      else ret tt);;;
     loadOptionalDataFiles)
    (fun error => throw error).

Definition maxWait : nat := 10000.
Definition checkInterval : nat := 100.

(** The [while] loop of [waitForTemplatesReady]; [ticks] bounds the
    number of iterations, which is at most [maxWait / checkInterval]. *)
Fixpoint waitLoop (ticks waited : nat) : M app unit :=
  match ticks with
  | 0 => ret tt
  | S ticks' =>
      ready <- gets (fun a => TemplateRenderer.isReady (TemplateRenderer.this (renderer a)));;
      if negb ready && (waited <? maxWait)%nat
      then delay checkInterval;;; waitLoop ticks' (waited + checkInterval)
      else ret tt
  end.

(** [waitForTemplatesReady()] *)
Definition waitForTemplatesReady : M app unit :=
  waitLoop (maxWait / checkInterval) 0;;;
  ready <- gets (fun a => TemplateRenderer.isReady (TemplateRenderer.this (renderer a)));;
  if negb ready
  then throw (Error "Templates failed to compile within timeout period")
  else ret tt.

(** One guarded section of [renderAllContent]:
    [if (historicalData.field) { this.renderer.render(historicalData.field) }] *)
Definition renderSection {A} (historicalData : value) (field : string)
    (render : value -> M TemplateRenderer.world A) : M app unit :=
  section <- lift (get historicalData field);;
  if truthy section
  then onRenderer (render section);;; ret tt
  else ret tt.

(** [renderAllContent()] *)
Definition renderAllContent : M app unit :=
  try_catch
    (waitForTemplatesReady;;;
     historicalData <- gets (fun a => default VUndefined (data a !! "historical_events"));;
     if negb (truthy historicalData)
     then throw (Error "No historical data available for rendering")
     else
       renderSection historicalData "heroStats"
                     (TemplateRenderer.renderHeroStats (page h));;;
       renderSection historicalData "foundationEra"
                     (TemplateRenderer.renderFoundationEra (page h));;;
       renderSection historicalData "mobileEra"
                     (TemplateRenderer.renderMobileEra (page h));;;
       renderSection historicalData "fintechEra"
                     (TemplateRenderer.renderFintechEra (page h));;;
       onRenderer (TemplateRenderer.renderSidebarContent (page h) historicalData);;;
       ret tt)
    (fun error => throw error).

(** [showLoadingOverlay()] and [hideLoadingOverlay()] *)
Definition showLoadingOverlay : M app unit :=
  match TemplateRenderer.getElementById (page h) "loadingOverlay" with
  | Some _ => modify (with_overlay false true)
  | None => ret tt
  end.

Definition hideLoadingOverlay : M app unit :=
  match TemplateRenderer.getElementById (page h) "loadingOverlay" with
  | Some _ => modify (with_overlay true false)
  | None => ret tt
  end.

(** [showErrorModal(message)] *)
Definition showErrorModal (message : string) : M app unit :=
  match TemplateRenderer.getElementById (page h) "errorModal",
        TemplateRenderer.getElementById (page h) "errorMessage" with
  | Some _, Some _ => modify (with_modal "flex" message true)
  | _, _ => ret tt
  end.

(** [closeErrorModal()] *)
Definition closeErrorModal : M app unit :=
  match TemplateRenderer.getElementById (page h) "errorModal" with
  | Some _ => modify (fun a => with_modal "none" (modalMessage a) false a)
  | None => ret tt
  end.

(** [handleAppError(error)] *)
Definition handleAppError (error : error) : M app unit :=
  hideLoadingOverlay;;;
  let userMessage := "An error occurred while loading the Pakistan Internet Timeline. " in
  let userMessage :=
    if includes (message error) "Failed to load critical data"
    then userMessage +:+ "Unable to load timeline data. Please check your internet connection and ensure the data files are available."
    else if includes (message error) "Templates failed to compile"
    then userMessage +:+ "There was a problem with the page templates. Please refresh the page to try again."
    else userMessage +:+ "Please try refreshing the page or contact support if the problem persists." in
  showErrorModal userMessage.

(** [startApp()], up to the wiring of user interactions: the components
    are created, the data loaded and the content rendered.  [initialize]
    calls [startApp] at once only when the document is no longer loading,
    and otherwise from its listener for [DOMContentLoaded]: the renderer is
    constructed when [document.readyState] is [interactive] or [complete],
    between which [initializeTemplates] makes no difference. *)
Definition startApp : M app unit :=
  try_catch
    (modify (with_validator JSONValidator.new);;;
     onRenderer (TemplateRenderer.new (page h) TemplateRenderer.interactive);;;
     showLoadingOverlay;;;
     loadAllData;;;
     renderAllContent;;;
     hideLoadingOverlay)
    handleAppError.

(** [retryDataLoad()] *)
Definition retryDataLoad : M app unit :=
  closeErrorModal;;;
  showLoadingOverlay;;;
  try_catch
    (loadAllData;;;
     renderAllContent;;;
     hideLoadingOverlay)
    handleAppError.

End Methods.
End PakistanTimelineApp.

(** ** Concrete pages, networks and documents used in the examples *)

Module Fixtures.
Import TemplateRenderer PakistanTimelineApp.

(** A stand-in for Handlebars: the compiled template returns its source,
    except that a source calling the helper [fail] raises, as a template
    that calls an unregistered helper does. *)
Definition compileStub (source : string) : completion template :=
  Return (fun data =>
            if includes source "{{fail"
            then Throw (Error "Missing helper: fail")
            else Return source).

(** A page whose elements are exactly those with an id in [ids]: the
    selector [#id] denotes the element [id], any other well-formed
    selector denotes nothing, and the text of an element object is not a
    selector at all. *)
Definition pageOf (ids : list string) : TemplateRenderer.host :=
  {| querySelector := fun selector =>
       if String.eqb selector "[object HTMLDivElement]"
       then Throw (mkError "SyntaxError"
                     "Failed to execute 'querySelector' on 'Document': '[object HTMLDivElement]' is not a valid selector.")
       else match selector with
            | String "#" id =>
                Return (if bool_decide (id ∈ ids) then Some id else None)
            | _ => Return None
            end;
     getElementById := fun id => if bool_decide (id ∈ ids) then Some id else None;
     elementToString := fun _ => "[object HTMLDivElement]";
     Handlebars_compile := compileStub;
     stringIsPositive := fun _ => false |}.

Definition templateIds : list string := templateMappings.*2.

(** The insertion points of the timeline page. *)
Definition contentIds : list string :=
  [ "heroStats"; "ptclPrivatization"; "foundationMilestones";
    "foundationStats"; "foundationTimeline"; "mobile3G4G";
    "socialMediaGrowth"; "digitalPakistanPolicy"; "raastRevolution";
    "mobileBanking"; "investmentBoom"; "covidImpact"; "fiveGFuture";
    "digitalDivide" ].

Definition chromeIds : list string :=
  [ "loadingOverlay"; "errorModal"; "errorMessage" ].

(** The full page, and its initial content: every template has a source. *)
Definition timelinePage : TemplateRenderer.host :=
  pageOf (templateIds ++ contentIds ++ chromeIds).

Definition timelineContent : gmap element string :=
  list_to_map ((fun id => (id, "<div>{{this}}</div>")) <$> templateIds).

(** A page without the templates. *)
Definition barePage : TemplateRenderer.host := pageOf (contentIds ++ chromeIds).

(** The text of a timeline document that has a [mobileEra] object and
    nothing else. *)
Definition mobileEraOnlyText : string :=
  "{" +:+ quote +:+ "mobileEra" +:+ quote +:+ ":{}}".

(** A stand-in for [JSON.parse] that knows two texts. *)
Definition parseStub (text : string) : completion value :=
  if String.eqb text "{}" then Return (VObj [])
  else if String.eqb text mobileEraOnlyText
  then Return (VObj [("mobileEra", VObj [])])
  else Throw (mkError "SyntaxError" "Unexpected token < in JSON at position 0").

(** A renderer world with the given templates compiled. *)
Definition worldWith (templates : list (string * template)) : world :=
  {| this := {| compiledTemplates := list_to_map templates;
                templateElements := ∅ |};
     innerHTML := ∅;
     calls := [] |}.

(** A [companies.json] document, and an entry of it. *)
Definition companyEntry (name marketShare subscribers : value) : value :=
  VObj [("name", name); ("marketShare", marketShare); ("subscribers", subscribers)].

Definition companiesDocument (entries : list value) : value :=
  VObj [("companies", VArr entries)].

(** A network that is down, and a server that has none of the files. *)
Definition offline : nat -> string -> fetchResult :=
  fun _ _ => Rejected (TypeError "Failed to fetch").

Definition notFound : nat -> string -> fetchResult :=
  fun _ _ => Response 404 "Not Found" EmptyString.

Definition offlineHost : PakistanTimelineApp.host :=
  {| page := timelinePage; JSON_parse := parseStub; fetch := offline |}.

(** A session in which the statistics file is served once and is gone
    afterwards: the first request gets the timeline document that has only
    a [mobileEra], the second gets an empty statistics object, and from
    then on the server has the (empty) timeline document and nothing
    else. *)
Definition statisticsOnce : nat -> string -> fetchResult :=
  fun n filePath =>
    if (n =? 0)%nat then Response 200 "OK" mobileEraOnlyText
    else if (n =? 1)%nat then Response 200 "OK" "{}"
    else if String.eqb filePath "data/historical_events.json"
    then Response 200 "OK" "{}"
    else Response 404 "Not Found" EmptyString.

Definition statisticsOnceHost : PakistanTimelineApp.host :=
  {| page := timelinePage; JSON_parse := parseStub; fetch := statisticsOnce |}.

(** A timeline document that is complete except that its [mobileEra] has
    no [events]. *)
Definition timelineWithoutMobileEvents : value :=
  VObj [ ("heroStats", VArr []);
         ("foundationEra", VObj [("events", VArr []); ("yearlyStats", VArr [])]);
         ("mobileEra", VObj [("socialMediaGrowth", VArr [])]);
         ("fintechEra", VObj [("events", VArr []); ("mobileBanking", VArr []);
                              ("investmentBoom", VArr [])]) ].

(** A timeline document with all four sections, each of them empty. *)
Definition emptyTimeline : value :=
  VObj [ ("heroStats", VArr []);
         ("foundationEra", VObj [("events", VArr []); ("yearlyStats", VArr [])]);
         ("mobileEra", VObj [("events", VArr []); ("socialMediaGrowth", VArr [])]);
         ("fintechEra", VObj [("events", VArr []); ("mobileBanking", VArr []);
                              ("investmentBoom", VArr [])]) ].

(** A server that has the timeline document [document] and no optional
    file; [JSON.parse] of the text it sends is [document]. *)
Definition serving (document : value) : PakistanTimelineApp.host :=
  {| page := timelinePage;
     JSON_parse := fun _ => Return document;
     fetch := fun _ filePath =>
       if String.eqb filePath "data/historical_events.json"
       then Response 200 "OK" "{ ... }"
       else Response 404 "Not Found" EmptyString |}.

Definition okTemplate : template := fun _ => Return "<p>ok</p>".
Definition failingTemplate : template := fun _ => Throw (Error "boom").

End Fixtures.

(** * Properties *)

(** ** The validator *)

Module JSONValidatorFacts.
Import JSONValidator.

(** The validator in the middle of a call: the arrays [older] allocated
    before the call, then the accumulator [current] the call works on. *)
Definition during (older : list (list string)) (current : list string) : validator :=
  {| arrays := older ++ [current]; validationErrors := length older |}.

(** [m] only pushes onto the accumulator: its outcome and the errors it
    adds are the same whatever was allocated or accumulated before, and an
    exception it raises satisfies [P]. *)
Definition pushes {T} (P : error -> Prop) (m : M validator T) : Prop :=
  exists r added,
    (forall e, r = Throw e -> P e) /\
    forall older current, m (during older current) = (r, during older (current ++ added)).

(** [m] raises an exception satisfying [P], after pushing some errors. *)
Definition raises {T} (P : error -> Prop) (m : M validator T) : Prop :=
  exists e added,
    P e /\
    forall older current, m (during older current) = (Throw e, during older (current ++ added)).

(** The result object [getValidationResult] builds over an accumulator. *)
Definition resultOver (ref : nat) (errs : list string) : result :=
  {| success := Nat.eqb (length errs) 0;
     errors := ref;
     data := if Nat.eqb (length errs) 0 then VStr "Valid" else VNull |}.

(** [m] is a kind-specific check: it pushes errors and ends in
    [getValidationResult], unless it raises. *)
Definition finishes (P : error -> Prop) (m : M validator result) : Prop :=
  exists (r : completion unit) added,
    (forall e, r = Throw e -> P e) /\
    forall older current,
      m (during older current)
      = (match r with
         | Return _ => Return (resultOver (length older) (current ++ added))
         | Throw e => Throw e
         end, during older (current ++ added)).

Lemma alter_last {A} (f : A -> A) (older : list A) (x : A) :
  alter f (length older) (older ++ [x]) = older ++ [f x].
Proof. induction older as [|y older IH]; [done |]. simpl. f_equal. apply IH. Qed.

Lemma read_during older current : read (during older current) (length older) = current.
Proof.
  unfold read, during; simpl.
  rewrite lookup_app_r by lia. by rewrite Nat.sub_diag.
Qed.

Section Rules.
Context (P : error -> Prop).

Lemma pushes_ret {T} (x : T) : pushes P (ret x).
Proof.
  exists (Return x), []. split; [done |].
  intros older current. by rewrite app_nil_r.
Qed.

Lemma pushes_lift {T} (c : completion T) :
  (forall e, c = Throw e -> P e) -> pushes P (lift c).
Proof.
  intros Hc. exists c, []. split; [done |].
  intros older current. by rewrite app_nil_r.
Qed.

Lemma pushes_addError msg : pushes P (addError msg).
Proof.
  exists (Return tt), [msg]. split; [done |].
  intros older current. unfold addError, during.
  cbn [arrays validationErrors]. by rewrite alter_last.
Qed.

Lemma pushes_bind {T U} (m : M validator T) (k : T -> M validator U) :
  pushes P m -> (forall x, pushes P (k x)) -> pushes P (bind m k).
Proof.
  intros (r & added & Hr & Hm) Hk. destruct r as [x | e].
  - destruct (Hk x) as (r' & added' & Hr' & Hkx).
    exists r', (added ++ added'). split; [done |].
    intros older current. unfold bind. rewrite Hm, Hkx. by rewrite app_assoc.
  - exists (Throw e), added. split; [intros e' [= <-]; by apply Hr |].
    intros older current. unfold bind. by rewrite Hm.
Qed.

Lemma pushes_forEach {T} (f : T -> M validator unit) (l : list T) :
  (forall x, pushes P (f x)) -> pushes P (forEach f l).
Proof.
  intros Hf. induction l as [|x l IH]; simpl.
  - apply pushes_ret.
  - apply pushes_bind; auto.
Qed.

Lemma raises_pushes {T} (m : M validator T) : raises P m -> pushes P m.
Proof.
  intros (e & added & He & Hm). exists (Throw e), added.
  split; [by intros e' [= <-] | done].
Qed.

Lemma raises_bind_l {T U} (m : M validator T) (k : T -> M validator U) :
  raises P m -> raises P (bind m k).
Proof.
  intros (e & added & He & Hm). exists e, added. split; [done |].
  intros older current. unfold bind. by rewrite Hm.
Qed.

Lemma raises_bind_r {T U} (m : M validator T) (k : T -> M validator U) :
  pushes P m -> (forall x, raises P (k x)) -> raises P (bind m k).
Proof.
  intros (r & added & Hr & Hm) Hk. destruct r as [x | e].
  - destruct (Hk x) as (e & added' & He & Hkx).
    exists e, (added ++ added'). split; [done |].
    intros older current. unfold bind. rewrite Hm, Hkx. by rewrite app_assoc.
  - exists e, added. split; [by apply Hr |].
    intros older current. unfold bind. by rewrite Hm.
Qed.

Lemma raises_forEach {T} (f : T -> M validator unit) (l : list T) (x : T) :
  x ∈ l -> (forall y, pushes P (f y)) -> raises P (f x) -> raises P (forEach f l).
Proof.
  intros Hx Hf Hfx. induction l as [|y l IH]; [by apply elem_of_nil in Hx |].
  apply elem_of_cons in Hx as [-> | Hx]; simpl.
  - by apply raises_bind_l.
  - apply raises_bind_r; auto.
Qed.

Lemma finishes_getValidationResult : finishes P getValidationResult.
Proof.
  exists (Return tt), []. split; [done |].
  intros older current. unfold getValidationResult.
  rewrite app_nil_r. simpl validationErrors. by rewrite read_during.
Qed.


Lemma finishes_seq {T} (m : M validator T) (k : T -> M validator result) :
  pushes P m -> (forall x, finishes P (k x)) -> finishes P (bind m k).
Proof.
  intros (r & added & Hr & Hm) Hk. destruct r as [x | e].
  - destruct (Hk x) as (r' & added' & Hr' & Hkx).
    exists r', (added ++ added'). split; [done |].
    intros older current. unfold bind. rewrite Hm, Hkx. by rewrite app_assoc.
  - exists (Throw e), added. split; [intros e' [= <-]; by apply Hr |].
    intros older current. unfold bind. by rewrite Hm.
Qed.

End Rules.

(** The TypeError of [field in null]. *)
Definition in_null (e : error) : Prop :=
  exists field,
    e = TypeError ("Cannot use 'in' operator to search for '" +:+ field +:+ "' in null").

(** What passes the guard [!v || typeof v !== 'object']: an array or an
    object, never [null]. *)
Definition is_object (v : value) : Prop :=
  truthy v = true /\ String.eqb (typeof v) "object" = true.

Lemma is_object_cases v :
  is_object v -> (exists l, v = VArr l) \/ (exists props, v = VObj props).
Proof. intros [Ht Ho]. destruct v; simpl in *; try discriminate; eauto. Qed.

Lemma is_object_get v k : is_object v -> exists x, get v k = Return x.
Proof.
  intros [[l ->] | [props ->]]%is_object_cases; simpl; [| eauto].
  destruct (String.eqb k "length"); eauto.
Qed.

Lemma is_object_has_property v k : is_object v -> exists b, has_property k v = Return b.
Proof. intros [[l ->] | [props ->]]%is_object_cases; simpl; eauto. Qed.

Lemma is_object_keys v : is_object v -> exists ks, keys v = Return ks.
Proof. intros [[l ->] | [props ->]]%is_object_cases; simpl; eauto. Qed.

Lemma pushes_returning {T} P (c : completion T) :
  (exists x, c = Return x) -> pushes P (lift c).
Proof. intros [x ->]. apply pushes_lift. discriminate. Qed.

Lemma pushes_validateFieldType P v t path : pushes P (validateFieldType v t path).
Proof.
  unfold validateFieldType. destruct t as [[t | ts] |].
  - destruct (negb _); [apply pushes_addError | apply pushes_ret].
  - destruct (negb _); [apply pushes_addError | apply pushes_ret].
  - apply pushes_addError.
Qed.

Lemma required_nonempty itemType requirements :
  assoc itemType getRequiredFields = Some requirements ->
  exists field rest, required requirements = field :: rest.
Proof.
  unfold getRequiredFields. cbn [assoc].
  repeat (destruct (String.eqb itemType _); [intros [= <-]; simpl; eauto |]).
  discriminate.
Qed.

Lemma raises_validateItemStructure_null itemType itemPath requirements :
  assoc itemType getRequiredFields = Some requirements ->
  raises in_null (validateItemStructure VNull itemType itemPath).
Proof.
  intros Hreq. unfold validateItemStructure. cbn -[getRequiredFields].
  rewrite Hreq.
  destruct (required_nonempty _ _ Hreq) as (field & rest & ->). cbn [forEach].
  do 3 apply raises_bind_l.
  exists (TypeError ("Cannot use 'in' operator to search for '" +:+ field +:+ "' in null")), [].
  split; [by exists field |].
  intros older current. by rewrite app_nil_r.
Qed.

Lemma pushes_validateItemStructure item itemType itemPath :
  pushes in_null (validateItemStructure item itemType itemPath).
Proof.
  unfold validateItemStructure.
  destruct (String.eqb (typeof item) "object") eqn:Hobj; cbn [negb];
    [| apply pushes_addError].
  destruct (assoc itemType getRequiredFields) as [requirements |] eqn:Hreq;
    [| apply pushes_addError].
  destruct (truthy item) eqn:Htruthy.
  - assert (is_object item) as Hitem by done.
    apply pushes_bind.
    + apply pushes_forEach. intros field. apply pushes_bind.
      * by apply pushes_returning, is_object_has_property.
      * intros present. destruct (negb present); [apply pushes_addError |].
        apply pushes_bind; [by apply pushes_returning, is_object_get |].
        intros v. apply pushes_validateFieldType.
    + intros _. apply pushes_bind; [by apply pushes_returning, is_object_keys |].
      intros fields. apply pushes_forEach. intros field.
      destruct (assoc field (types requirements)); [| apply pushes_ret].
      apply pushes_bind; [by apply pushes_returning, is_object_get |].
      intros v. apply pushes_validateFieldType.
  - assert (item = VNull) as -> by (destruct item; simpl in *; congruence).
    pose proof (raises_validateItemStructure_null itemType itemPath _ Hreq) as Hr.
    apply raises_pushes in Hr. unfold validateItemStructure in Hr.
    cbn -[getRequiredFields] in Hr. by rewrite Hreq in Hr.
Qed.

Lemma pushes_validateArrayItems items itemType :
  pushes in_null (validateArrayItems items itemType).
Proof.
  unfold validateArrayItems. destruct items; try apply pushes_addError.
  apply pushes_forEach. intros [index item]. apply pushes_validateItemStructure.
Qed.

Lemma raises_validateArrayItems items itemType requirements :
  assoc itemType getRequiredFields = Some requirements ->
  VNull ∈ items ->
  raises in_null (validateArrayItems (VArr items) itemType).
Proof.
  intros Hreq [index Hindex]%list_elem_of_lookup. unfold validateArrayItems.
  apply raises_forEach with (x := (index, VNull)).
  - apply list_elem_of_lookup. exists index.
    by rewrite list_lookup_imap, Hindex.
  - intros [i item]. apply pushes_validateItemStructure.
  - by eapply raises_validateItemStructure_null.
Qed.

Lemma pushes_checkArray owner field message itemType :
  is_object owner -> pushes in_null (checkArray owner field message itemType).
Proof.
  intros Howner. unfold checkArray.
  apply pushes_bind; [by apply pushes_returning, is_object_get |].
  intros v. destruct (_ || _); [apply pushes_addError | apply pushes_validateArrayItems].
Qed.

Lemma raises_checkArray owner field message itemType items requirements :
  get owner field = Return (VArr items) ->
  assoc itemType getRequiredFields = Some requirements ->
  VNull ∈ items ->
  raises in_null (checkArray owner field message itemType).
Proof.
  intros Hget Hreq Hnull.
  destruct (raises_validateArrayItems items itemType _ Hreq Hnull)
    as (e & added & He & Hrun).
  exists e, added. split; [done |].
  intros older current. unfold checkArray, bind, lift. rewrite Hget.
  cbn [truthy isArray negb orb]. apply Hrun.
Qed.

Lemma pushes_requireArray owner field message :
  is_object owner -> pushes in_null (requireArray owner field message).
Proof.
  intros Howner. unfold requireArray.
  apply pushes_bind; [by apply pushes_returning, is_object_get |].
  intros v. destruct (_ || _); [apply pushes_addError | apply pushes_ret].
Qed.

Lemma pushes_checkEra data field validateEra :
  is_object data ->
  (forall era, is_object era -> pushes in_null (validateEra era)) ->
  pushes in_null (checkEra data field validateEra).
Proof.
  intros Hdata Hera. unfold checkEra.
  apply pushes_bind; [by apply pushes_returning, is_object_get |].
  intros era. destruct (truthy era) eqn:Ht; [| apply pushes_addError].
  destruct (String.eqb (typeof era) "object") eqn:Ho; [| apply pushes_addError].
  by apply Hera.
Qed.

Lemma raises_checkEra data field validateEra era :
  get data field = Return era ->
  is_object era ->
  raises in_null (validateEra era) ->
  raises in_null (checkEra data field validateEra).
Proof.
  intros Hget [Ht Ho] (e & added & He & Hrun).
  exists e, added. split; [done |].
  intros older current. unfold checkEra, bind, lift. rewrite Hget, Ht, Ho.
  apply Hrun.
Qed.

Lemma pushes_validateFoundationEra era :
  is_object era -> pushes in_null (validateFoundationEra era).
Proof.
  intros. unfold validateFoundationEra.
  apply pushes_bind; [by apply pushes_checkArray |].
  intros _. by apply pushes_checkArray.
Qed.

Lemma pushes_validateMobileEra era :
  is_object era -> pushes in_null (validateMobileEra era).
Proof.
  intros. unfold validateMobileEra.
  apply pushes_bind; [by apply pushes_checkArray |].
  intros _. by apply pushes_checkArray.
Qed.

Lemma pushes_validateFintechEra era :
  is_object era -> pushes in_null (validateFintechEra era).
Proof.
  intros. unfold validateFintechEra.
  apply pushes_bind; [by apply pushes_checkArray |].
  intros _. apply pushes_bind; by intros; apply pushes_requireArray.
Qed.

Create HintDb validator discriminated.
#[local] Hint Resolve pushes_checkArray pushes_checkEra pushes_validateFoundationEra
  pushes_validateMobileEra pushes_validateFintechEra pushes_requireArray
  : validator.

(** Every branch of the [switch] other than [default] is a check that
    ends in [getValidationResult]. *)
Lemma finishes_dispatch jsonData dataType :
  is_object jsonData ->
  finishes in_null (dispatch jsonData dataType)
  \/ dispatch jsonData dataType = validationFailed ("Unknown data type: " +:+ dataType).
Proof.
  intros Hdata. unfold dispatch.
  repeat (destruct (String.eqb dataType _);
          [left;
           unfold validateHistoricalEvents, validateStatistics,
             validateCompanies, validateSocialMedia, validatePolicies,
             validateInfrastructure;
           repeat (apply finishes_seq; [auto with validator | intros _]);
           apply finishes_getValidationResult |]).
  by right.
Qed.

Lemma resetErrors_during st : resetErrors st = (Return tt, during (arrays st) []).
Proof. done. Qed.

Lemma validationFailed_during message older current :
  validationFailed message (during older current)
  = (Return {| success := false; errors := S (length older); data := VNull |},
     {| arrays := (older ++ [current]) ++ [[message]];
        validationErrors := length older |}).
Proof.
  unfold validationFailed, bind, alloc, ret, during. cbn [arrays validationErrors].
  rewrite length_app. simpl. by rewrite Nat.add_1_r.
Qed.

(** A result that was built during a call on [st]: its array is new, and
    the arrays of [st] are all still there, unchanged. *)
Definition fresh (st st' : validator) (r : result) : Prop :=
  arrays st `prefix_of` arrays st' /\
  length (arrays st) <= errors r < length (arrays st').

(** The whole of [validateJSONData]: it always returns, and what the
    result holds is a function of the document and the kind alone. *)
Lemma validateJSONData_outcome jsonData dataType :
  exists c : bool * list string * value,
    forall st, exists r st',
      validateJSONData jsonData dataType st = (Return r, st')
      /\ contents st' r = c
      /\ fresh st st' r.
Proof.
  unfold validateJSONData.
  assert (forall message st current, exists r st',
             validationFailed message (during (arrays st) current) = (Return r, st')
             /\ contents st' r = (false, [message], VNull)
             /\ fresh st st' r) as Hfailed.
  { intros message st current. eexists _, _. rewrite validationFailed_during.
    split; [done |]. split.
    - unfold contents, read. cbn [success errors data arrays].
      rewrite lookup_app_r; rewrite length_app; simpl; [| lia].
      by replace (S _ - _) with 0 by lia.
    - unfold fresh. cbn [errors arrays]. split.
      + rewrite <- app_assoc. by apply prefix_app_r.
      + rewrite !length_app. simpl. lia. }
  destruct (truthy jsonData) eqn:Htruthy; cbn [negb].
  2:{ eexists. intros st. unfold bind. rewrite resetErrors_during. apply Hfailed. }
  destruct (String.eqb (typeof jsonData) "object") eqn:Hobject; cbn [negb].
  2:{ eexists. intros st. unfold bind. rewrite resetErrors_during. apply Hfailed. }
  destruct (finishes_dispatch jsonData dataType) as [(r & added & _ & Hrun) | ->];
    [done | |].
  - destruct r as [[] | e].
    + exists (Nat.eqb (length added) 0, added,
              if Nat.eqb (length added) 0 then VStr "Valid" else VNull).
      intros st. eexists _, _. unfold bind, try_catch.
      rewrite resetErrors_during, Hrun. split; [done |]. split.
      * unfold contents. cbn [resultOver success errors data app].
        by rewrite read_during.
      * unfold fresh, during. cbn [resultOver errors arrays app]. split.
        -- by apply prefix_app_r.
        -- rewrite length_app. simpl. lia.
    + exists (false, ["Validation error: " +:+ message e], VNull).
      intros st. unfold bind, try_catch. rewrite resetErrors_during, Hrun.
      apply Hfailed.
  - eexists. intros st. unfold bind, try_catch. rewrite resetErrors_during.
    destruct (Hfailed ("Unknown data type: " +:+ dataType) st [])
      as (r & st' & -> & Hc & Hf).
    eauto.
Qed.

(** C7.  Two successive calls of [validateJSONData] on the same document
    and kind both return, and the two results hold the same contents (same
    success flag, same ordered errors, same data marker); the second call
    leaves what the first result holds untouched, because it accumulates
    into an array of its own.  The state [st] the first call starts from is
    arbitrary (whatever earlier calls accumulated), and a call from any
    other state [st0] yields the same contents again. *)
Theorem validateJSONData_twice (jsonData : value) (dataType : string) (st : validator) :
  exists r1 st1 r2 st2,
    validateJSONData jsonData dataType st = (Return r1, st1)
    /\ validateJSONData jsonData dataType st1 = (Return r2, st2)
    /\ contents st2 r2 = contents st1 r1
    /\ contents st2 r1 = contents st1 r1
    /\ errors r1 <> errors r2
    /\ forall st0, exists r0 st0',
         validateJSONData jsonData dataType st0 = (Return r0, st0')
         /\ contents st0' r0 = contents st1 r1.
Proof.
  destruct (validateJSONData_outcome jsonData dataType) as [c Hc].
  destruct (Hc st) as (r1 & st1 & Hrun1 & Hc1 & Hpre1 & Hlo1 & Hhi1).
  destruct (Hc st1) as (r2 & st2 & Hrun2 & Hc2 & Hpre2 & Hlo2 & Hhi2).
  exists r1, st1, r2, st2. repeat split; try done.
  - congruence.
  - unfold contents, read. do 2 f_equal.
    destruct (lookup_lt_is_Some_2 (arrays st1) (errors r1) Hhi1) as [errs Herrs].
    rewrite Herrs. by rewrite (prefix_lookup_Some _ _ _ _ Herrs Hpre2).
  - lia.
  - intros st0. destruct (Hc st0) as (r0 & st0' & Hrun0 & Hc0 & _).
    exists r0, st0'. split; [done | congruence].
Qed.

(** The arrays of entities that the validation of a document [d] of kind
    [k] walks: for the listed kinds the named top-level array, and for the
    timeline document the arrays of each era that is an object. *)
Definition topArrays : list (string * string * string) :=
  [ ("historical_events", "heroStats", "heroStats");
    ("companies", "companies", "companies");
    ("social_media", "platforms", "socialMediaPlatforms");
    ("policies", "policies", "policies");
    ("infrastructure", "infrastructure", "infrastructure") ].

Definition eraArrays : list (string * string * string) :=
  [ ("foundationEra", "events", "historicalEvents");
    ("foundationEra", "yearlyStats", "yearlyStats");
    ("mobileEra", "events", "historicalEvents");
    ("mobileEra", "socialMediaGrowth", "socialMediaPlatforms");
    ("fintechEra", "events", "historicalEvents") ].

Inductive validated (d : value) (k : string) (items : list value) : Prop :=
| validated_top field itemType :
    (k, field, itemType) ∈ topArrays ->
    get d field = Return (VArr items) ->
    validated d k items
| validated_era eraField field itemType era :
    k = "historical_events" ->
    (eraField, field, itemType) ∈ eraArrays ->
    get d eraField = Return era ->
    is_object era ->
    get era field = Return (VArr items) ->
    validated d k items.

Lemma get_array_is_object d field items :
  get d field = Return (VArr items) -> is_object d.
Proof.
  destruct d; simpl; try discriminate; try done.
  destruct (String.eqb field "length"); [discriminate |].
  destruct (index_of _ _); discriminate.
Qed.

Lemma raises_dispatch d k items :
  validated d k items -> VNull ∈ items -> raises in_null (dispatch d k).
Proof.
  intros Hsite Hnull. destruct Hsite as [field itemType Hin Hget | eraField field itemType era -> Hin Hget Hera Hitems].
  - pose proof (get_array_is_object _ _ _ Hget) as Hd.
    repeat (apply elem_of_cons in Hin as [[= -> -> ->] | Hin]);
      [.. | by apply elem_of_nil in Hin];
      unfold dispatch; cbn [String.eqb Ascii.eqb Bool.eqb];
      unfold validateHistoricalEvents, validateCompanies, validateSocialMedia,
        validatePolicies, validateInfrastructure;
      apply raises_bind_l;
      (eapply raises_checkArray; [exact Hget | reflexivity | exact Hnull]).
  - assert (is_object d) as Hd.
    { destruct Hera as [Ht Ho].
      destruct d; simpl in Hget; try done;
        try destruct (String.eqb eraField "length");
        try destruct (index_of _ _);
        injection Hget as <-; done. }
    unfold dispatch. cbn [String.eqb Ascii.eqb Bool.eqb].
    unfold validateHistoricalEvents.
    repeat (apply elem_of_cons in Hin as [[= -> -> ->] | Hin]);
      [.. | by apply elem_of_nil in Hin].
    + apply raises_bind_r; [auto with validator | intros _].
      apply raises_bind_l. eapply raises_checkEra; [exact Hget | done |].
      apply raises_bind_l.
      eapply raises_checkArray; [exact Hitems | reflexivity | exact Hnull].
    + apply raises_bind_r; [auto with validator | intros _].
      apply raises_bind_l. eapply raises_checkEra; [exact Hget | done |].
      apply raises_bind_r; [auto with validator | intros _].
      eapply raises_checkArray; [exact Hitems | reflexivity | exact Hnull].
    + do 2 (apply raises_bind_r; [auto with validator | intros _]).
      apply raises_bind_l. eapply raises_checkEra; [exact Hget | done |].
      apply raises_bind_l.
      eapply raises_checkArray; [exact Hitems | reflexivity | exact Hnull].
    + do 2 (apply raises_bind_r; [auto with validator | intros _]).
      apply raises_bind_l. eapply raises_checkEra; [exact Hget | done |].
      apply raises_bind_r; [auto with validator | intros _].
      eapply raises_checkArray; [exact Hitems | reflexivity | exact Hnull].
    + do 3 (apply raises_bind_r; [auto with validator | intros _]).
      apply raises_bind_l. eapply raises_checkEra; [exact Hget | done |].
      apply raises_bind_l.
      eapply raises_checkArray; [exact Hitems | reflexivity | exact Hnull].
Qed.

(** What a call holds in its result can be computed on a new validator:
    it is the same from every state. *)
Definition contentsOnNew (jsonData : value) (dataType : string)
    : option (bool * list string * value) :=
  match validateJSONData jsonData dataType new with
  | (Return r, st) => Some (contents st r)
  | (Throw _, _) => None
  end.

Lemma contents_from_new jsonData dataType c :
  contentsOnNew jsonData dataType = Some c ->
  forall st, exists r st',
    validateJSONData jsonData dataType st = (Return r, st') /\ contents st' r = c.
Proof.
  intros Hnew st.
  destruct (validateJSONData_outcome jsonData dataType) as [c' Hc].
  destruct (Hc new) as (r0 & st0 & Hrun0 & Hc0 & _).
  unfold contentsOnNew in Hnew. rewrite Hrun0 in Hnew.
  destruct (Hc st) as (r & st' & Hrun & Hcr & _).
  exists r, st'. split; [done | congruence].
Qed.

(** C10.  When one of the arrays of entities that the validation of [d]
    walks holds the value [null], [validateJSONData] returns the single
    wrapped result: failure, exactly one message, built from the TypeError
    of the [in] operator, and a null data marker.  No per-element
    "must be an object" error is reported and nothing accumulated before
    the exception is in the result. *)
Theorem null_element_discards_errors (d : value) (k : string)
    (items : list value) (st : validator) :
  validated d k items ->
  VNull ∈ items ->
  exists r st' field,
    validateJSONData d k st = (Return r, st')
    /\ contents st' r
       = (false,
          ["Validation error: Cannot use 'in' operator to search for '"
           +:+ field +:+ "' in null"],
          VNull).
Proof.
  intros Hsite Hnull.
  destruct (raises_dispatch d k items Hsite Hnull) as (e & added & [field ->] & Hrun).
  assert (is_object d) as [Ht Ho].
  { destruct Hsite as [f t _ Hget | eraField f t era _ _ Hget [Ht Ho] _].
    - by eapply get_array_is_object.
    - destruct d; simpl in Hget; try done;
        try destruct (String.eqb eraField "length");
        try destruct (index_of _ _);
        injection Hget as <-; done. }
  unfold validateJSONData, bind, try_catch.
  rewrite resetErrors_during, Ht, Ho. cbn [negb]. rewrite Hrun.
  rewrite validationFailed_during. eexists _, _, field. split; [done |].
  unfold contents, read. cbn [success errors data arrays message TypeError].
  rewrite lookup_app_r; rewrite length_app; simpl; [| lia].
  by replace (S _ - _) with 0 by lia.
Qed.

(** An entry that is wrong on its own, followed by [null]: the two type
    errors the first entry produces when [null] does not follow ... *)
Example errors_without_null :
  contentsOnNew
    (Fixtures.companiesDocument
       [Fixtures.companyEntry (VStr "Jazz") (VBool true) (VStr "70M")])
    "companies"
  = Some (false,
          ["companies[0].marketShare must be one of: string, number, got: boolean";
           "companies[0].marketShare must be one of: string, number, got: boolean"],
          VNull).
Proof. vm_compute. reflexivity. Qed.

(** ... are gone from the result when it does. *)
Lemma null_element_discards_errors_witness :
  let entries := [Fixtures.companyEntry (VStr "Jazz") (VBool true) (VStr "70M"); VNull] in
  let d := Fixtures.companiesDocument entries in
  validated d "companies" entries
  /\ VNull ∈ entries
  /\ exists r st' field,
       validateJSONData d "companies" new = (Return r, st')
       /\ contents st' r
          = (false,
             ["Validation error: Cannot use 'in' operator to search for '"
              +:+ field +:+ "' in null"],
             VNull).
Proof.
  intros entries d.
  assert (validated d "companies" entries) as Hsite.
  { apply validated_top with (field := "companies") (itemType := "companies").
    - unfold topArrays. apply list_elem_of_further, list_elem_of_here.
    - reflexivity. }
  assert (VNull ∈ entries) as Hnull.
  { unfold entries. apply list_elem_of_further, list_elem_of_here. }
  split; [exact Hsite |]. split; [exact Hnull |].
  exact (null_element_discards_errors d "companies" entries new Hsite Hnull).
Defined.

(** C8.  The registry declares [marketShare] of the companies kind as
    string or number.  Against that declaration a string passes the type
    check and a number passes it (no error is added), and a boolean adds
    the error that lists the accepted types.  Accordingly a companies
    document with one otherwise well-formed entry validates when its
    [marketShare] is a string or a number, and fails with that message
    (reported by both passes over the entry) when it is a boolean. *)
Theorem marketShare_accepts_string_and_number :
  (requirements ← assoc "companies" getRequiredFields;
   assoc "marketShare" (types requirements))
  = Some (OneOf ["string"; "number"])
  /\ (forall s fieldPath st,
        validateFieldType (VStr s) (Some (OneOf ["string"; "number"])) fieldPath st
        = (Return tt, st))
  /\ (forall n fieldPath st,
        validateFieldType (VNum n) (Some (OneOf ["string"; "number"])) fieldPath st
        = (Return tt, st))
  /\ (forall b fieldPath st,
        validateFieldType (VBool b) (Some (OneOf ["string"; "number"])) fieldPath st
        = addError (fieldPath +:+ " must be one of: string, number, got: boolean") st)
  /\ (forall name subscribers s st, exists r st',
        validateJSONData
          (Fixtures.companiesDocument
             [Fixtures.companyEntry (VStr name) (VStr s) (VStr subscribers)])
          "companies" st = (Return r, st')
        /\ contents st' r = (true, [], VStr "Valid"))
  /\ (forall name subscribers n st, exists r st',
        validateJSONData
          (Fixtures.companiesDocument
             [Fixtures.companyEntry (VStr name) (VNum n) (VStr subscribers)])
          "companies" st = (Return r, st')
        /\ contents st' r = (true, [], VStr "Valid"))
  /\ (forall name subscribers b st, exists r st',
        validateJSONData
          (Fixtures.companiesDocument
             [Fixtures.companyEntry (VStr name) (VBool b) (VStr subscribers)])
          "companies" st = (Return r, st')
        /\ contents st' r
           = (false,
              ["companies[0].marketShare must be one of: string, number, got: boolean";
               "companies[0].marketShare must be one of: string, number, got: boolean"],
              VNull)).
Proof.
  repeat split; try done.
  - intros. by apply contents_from_new.
  - intros. by apply contents_from_new.
  - intros. by apply contents_from_new.
Qed.

End JSONValidatorFacts.

(** ** The renderer *)

Module TemplateRendererFacts.
Import TemplateRenderer.

(** Whether a recorded call returned [true]. *)
Definition succeeded (c : call) : bool :=
  match call_outcome c with
  | Return true => true
  | _ => false
  end.

(** [m] issues the [renderTemplate] calls [issued], in this order and on
    top of the history it starts from, and when it returns [a] then
    [Q a issued]. *)
Definition issues {A} (m : M world A) (Q : A -> list call -> Prop) : Prop :=
  forall w, exists issued,
    calls (m w).2 = calls w ++ issued
    /\ forall a, (m w).1 = Return a -> Q a issued.

(** The renderer without two of its compiled templates. *)
Definition without (names : list string) (r : renderer) : renderer :=
  {| compiledTemplates := foldr delete (compiledTemplates r) names;
     templateElements := templateElements r |}.

Section Rules.
Variable h : host.

Lemma issues_ret {A} (a : A) (Q : A -> list call -> Prop) :
  Q a [] -> issues (ret a) Q.
Proof.
  intros HQ w. exists []. simpl. split; [by rewrite app_nil_r |].
  by intros a' [= <-].
Qed.

Lemma issues_lift {A} (c : completion A) :
  issues (lift c) (fun a issued => issued = [] /\ c = Return a).
Proof. intros w. exists []. simpl. split; [by rewrite app_nil_r | done]. Qed.

Lemma issues_bind {A B} (m : M world A) (k : A -> M world B)
    (P : A -> list call -> Prop) (Q : B -> list call -> Prop) :
  issues m P ->
  (forall a before, P a before -> issues (k a) (fun b after => Q b (before ++ after))) ->
  issues (bind m k) Q.
Proof.
  intros Hm Hk w. destruct (Hm w) as (before & Hcalls & HP).
  unfold bind. destruct (m w) as [[a | e] w1]; simpl in *.
  - destruct (Hk a before (HP a eq_refl) w1) as (after & Hcalls' & HQ).
    exists (before ++ after). split; [| done].
    by rewrite Hcalls', Hcalls, app_assoc.
  - exists before. split; [done | discriminate].
Qed.

Lemma issues_weaken {A} (m : M world A) (P Q : A -> list call -> Prop) :
  issues m P -> (forall a issued, P a issued -> Q a issued) -> issues m Q.
Proof.
  intros Hm HPQ w. destruct (Hm w) as (issued & Hcalls & HP).
  exists issued. split; [done |]. intros a Ha. by apply HPQ, HP.
Qed.


(** The body of [renderTemplate] does not touch the history. *)
Lemma renderTemplate_body_calls templateName data targetSelector w :
  calls (renderTemplate_body h templateName data targetSelector w).2 = calls w.
Proof.
  unfold renderTemplate_body, handleRenderError, try_catch, bind, gets, lift, ret.
  destruct (templateAt (compiledTemplates (this w)) templateName) as [render |]; [| done].
  destruct (truthy data); cbn [negb]; [| done].
  destruct targetSelector as [s | el].
  - destruct (querySelector h s) as [[el |] | e] eqn:Hq; simpl.
    + destruct (render data) as [html | e]; simpl; [done |].
      rewrite Hq. done.
    + done.
    + rewrite Hq. done.
  - simpl. destruct (render data) as [html | e]; simpl; [done |].
    destruct (querySelector h (elementToString h el)) as [[el' |] | e']; done.
Qed.

Lemma issues_renderTemplate templateName data targetSelector :
  issues (renderTemplate h templateName data targetSelector)
         (fun ok issued => exists c, issued = [c] /\ succeeded c = ok).
Proof.
  intros w. unfold renderTemplate.
  pose proof (renderTemplate_body_calls templateName data targetSelector w) as Hcalls.
  destruct (renderTemplate_body h templateName data targetSelector w) as [outcome w'].
  simpl in *. eexists [_]. rewrite Hcalls. split; [done |].
  intros ok ->. eexists. split; [done |]. unfold succeeded. simpl. by destruct ok.
Qed.

Lemma issues_renderEvent found targetSelector success :
  issues (renderEvent h found targetSelector success)
         (fun success' issued => success' = success ++ (succeeded <$> issued)).
Proof.
  unfold renderEvent. destruct (truthy found).
  - eapply issues_bind; [apply issues_renderTemplate |].
    intros ok before (c & -> & <-). apply issues_ret. by rewrite app_nil_r.
  - apply issues_ret. by rewrite app_nil_r.
Qed.

End Rules.

(** One step of a composite operation: a pure step, a [renderTemplate]
    call, or a keyword-selected event. *)
Ltac issue_step h :=
  first
    [ eapply issues_bind; [apply issues_lift | intros ? ? [-> ?]; cbn beta]
    | eapply issues_bind; [apply (issues_renderTemplate h) | intros ? ? (? & -> & <-); cbn beta]
    | eapply issues_bind; [apply (issues_renderEvent h) | intros ? ? ->; cbn beta] ].

Lemma every_true_succeeded (issued : list call) :
  every_true (succeeded <$> issued) = VBool (forallb succeeded issued).
Proof.
  unfold every_true. f_equal.
  induction issued as [|c issued IH]; [done |].
  cbn [fmap list_fmap forallb]. f_equal. exact IH.
Qed.

Lemma issues_renderFoundationEra h foundationData :
  issues (renderFoundationEra h foundationData)
         (fun v issued => v = VBool (forallb succeeded issued)).
Proof.
  unfold renderFoundationEra.
  issue_step h.
  eapply issues_bind with (P := fun _ issued => issued = []).
  { destruct (truthy _); [| by apply issues_ret].
    issue_step h. by apply issues_ret. }
  intros nonEmpty ? ->. cbn beta.
  eapply issues_bind with (P := fun success issued => success = succeeded <$> issued).
  { destruct nonEmpty; [| by apply issues_ret].
    issue_step h. eapply issues_weaken; [apply issues_renderEvent |].
    by intros ? ? ->. }
  intros success before ->. cbn beta.
  do 2 issue_step h. issue_step h. issue_step h.
  apply issues_ret. rewrite <- every_true_succeeded. f_equal.
  rewrite !app_nil_l, !app_nil_r, !fmap_app, <- ?app_assoc. done.
Qed.

Lemma issues_renderMobileEra h mobileData :
  issues (renderMobileEra h mobileData)
         (fun v issued => v = VBool (forallb succeeded issued)).
Proof.
  unfold renderMobileEra.
  do 2 issue_step h. issue_step h. do 2 issue_step h. issue_step h.
  issue_step h. issue_step h.
  apply issues_ret. rewrite <- every_true_succeeded. f_equal.
  rewrite !app_nil_l, !app_nil_r, !fmap_app, <- ?app_assoc. done.
Qed.

Lemma issues_renderFintechEra h fintechData :
  issues (renderFintechEra h fintechData)
         (fun v issued => v = VBool (forallb succeeded issued)).
Proof.
  unfold renderFintechEra.
  do 2 issue_step h. issue_step h. do 2 issue_step h. issue_step h.
  do 2 issue_step h. issue_step h.
  apply issues_ret. rewrite <- every_true_succeeded. f_equal.
  rewrite !app_nil_l, !app_nil_r, !fmap_app, <- ?app_assoc. done.
Qed.


Lemma issues_renderSidebarContent h allData :
  issues (renderSidebarContent h allData) (fun v _ => v = VUndefined).
Proof.
  unfold renderSidebarContent.
  issue_step h.
  eapply issues_bind with (P := fun _ _ => True).
  { destruct (truthy _); [| by apply issues_ret].
    do 2 issue_step h. destruct (truthy _); [| by apply issues_ret].
    issue_step h. by apply issues_ret. }
  intros _ ? _. cbn beta. issue_step h.
  eapply issues_bind with (P := fun _ _ => True).
  { destruct (truthy _); [| by apply issues_ret].
    do 3 issue_step h. issue_step h. by apply issues_ret. }
  intros _ ? _. cbn beta. issue_step h.
  eapply issues_bind with (P := fun _ _ => True).
  { destruct (truthy _); [| by apply issues_ret].
    do 7 issue_step h. issue_step h. by apply issues_ret. }
  intros _ ? _. cbn beta. by apply issues_ret.
Qed.

(** [m], run from [w], issues some [renderTemplate] calls and, if it
    returns, returns the conjunction of their outcomes. *)
Definition returns_conjunction (m : M world value) (w : world) : Prop :=
  exists issued,
    calls (m w).2 = calls w ++ issued
    /\ forall v, (m w).1 = Return v -> v = VBool (forallb succeeded issued).

(** [m], run from [w], issues some [renderTemplate] calls and, if it
    returns, returns [undefined]. *)
Definition returns_undefined (m : M world value) (w : world) : Prop :=
  exists issued,
    calls (m w).2 = calls w ++ issued
    /\ forall v, (m w).1 = Return v -> v = VUndefined.

(** C2, as the code has it.  Each of the three era operations issues some
    [renderTemplate] calls and, whenever it returns, returns the boolean
    that is the conjunction of the outcomes of exactly the calls it issued.
    [renderSidebarContent] issues its calls as well, but whenever it
    returns it returns [undefined], whatever their outcomes. *)
Theorem composite_render_results (h : host) (section : value) (w : world) :
  returns_conjunction (renderFoundationEra h section) w
  /\ returns_conjunction (renderMobileEra h section) w
  /\ returns_conjunction (renderFintechEra h section) w
  /\ returns_undefined (renderSidebarContent h section) w.
Proof.
  repeat split.
  - apply issues_renderFoundationEra.
  - apply issues_renderMobileEra.
  - apply issues_renderFintechEra.
  - apply issues_renderSidebarContent.
Qed.

(** The era operations do return: a foundation era with a privatization
    event on the full page issues four calls, all successful ... *)
Example renderFoundationEra_all_succeed :
  let w := Fixtures.worldWith [("historicalEvents", Fixtures.okTemplate);
                               ("statistics", Fixtures.okTemplate)] in
  let era := VObj [("events", VArr [VObj [("title", VStr "PTCL Privatization")]]);
                   ("yearlyStats", VArr [])] in
  let '(r, w') := renderFoundationEra Fixtures.timelinePage era w in
  r = Return (VBool true) /\ (succeeded <$> calls w') = [true; true; true; true].
Proof. vm_compute. done. Qed.

(** ... and returns [false] when one of them fails, here for want of the
    statistics template; the other three targets keep their content. *)
Example renderFoundationEra_one_fails :
  let w := Fixtures.worldWith [("historicalEvents", Fixtures.okTemplate)] in
  let era := VObj [("events", VArr [VObj [("title", VStr "PTCL Privatization")]]);
                   ("yearlyStats", VArr [])] in
  let '(r, w') := renderFoundationEra Fixtures.timelinePage era w in
  r = Return (VBool false)
  /\ (succeeded <$> calls w') = [true; true; false; true]
  /\ innerHTML w' !! "foundationMilestones" = Some "<p>ok</p>"
  /\ innerHTML w' !! "foundationStats" = None.
Proof. vm_compute. done. Qed.

(** C2, counterexample to the specification for [renderSidebarContent]: on a
    document with a [fiveGFuture] section it issues one call, which
    succeeds, and returns [undefined], not the boolean [true]. *)
Lemma renderSidebarContent_returns_no_boolean :
  let w := Fixtures.worldWith [("infrastructure", Fixtures.okTemplate)] in
  exists w' c,
    renderSidebarContent Fixtures.timelinePage (VObj [("fiveGFuture", VObj [])]) w
    = (Return VUndefined, w')
    /\ calls w' = [c]
    /\ call_outcome c = Return true
    /\ VUndefined <> VBool (forallb succeeded [c]).
Proof.
  intros w. eexists _, _. split; [vm_compute; reflexivity |].
  split; [reflexivity |]. split; [reflexivity | discriminate].
Qed.

(** The entry [renderTemplate] makes in the history. *)
Definition entry (templateName : string) (targetSelector : target)
    (outcome : completion bool) : call :=
  {| call_template := templateName;
     call_target := targetSelector;
     call_outcome := outcome |}.

(** The lookup finds nothing exactly under the names that are neither
    compiled nor inherited, and a compiled template shadows the inherited
    member of its name. *)
Lemma inheritedTemplate_None own name :
  inheritedTemplate own name = None <-> name ∉ prototypeNames.
Proof.
  unfold inheritedTemplate, prototypeNames. rewrite !not_elem_of_cons.
  repeat match goal with
         | |- context [String.eqb name ?member] =>
             destruct (String.eqb_spec name member) as [-> | ?]
         end; cbn [orb]; split; try done; try tauto.
  intros _. repeat split; try done. apply not_elem_of_nil.
Qed.

Lemma templateAt_None own name :
  templateAt own name = None <-> own !! name = None /\ name ∉ prototypeNames.
Proof.
  unfold templateAt. destruct (own !! name) as [render |].
  - split; [done | by intros [? _]].
  - rewrite inheritedTemplate_None. tauto.
Qed.

Lemma templateAt_own own name render :
  own !! name = Some render -> templateAt own name = Some render.
Proof. unfold templateAt. by intros ->. Qed.

(** A call under a name at which the lookup finds nothing returns
    [false] and changes nothing but the history, whatever the data and the
    target. *)
Lemma renderTemplate_not_compiled h templateName data targetSelector w :
  templateAt (compiledTemplates (this w)) templateName = None ->
  renderTemplate h templateName data targetSelector w
  = (Return false, record_call (entry templateName targetSelector (Return false)) w).
Proof.
  intros Hnone.
  unfold renderTemplate, renderTemplate_body, try_catch, bind, gets, ret.
  by rewrite Hnone.
Qed.

(** C1, as the code has it, for a target given as a selector that the
    page resolves to [resolved] without raising.  The first check reads
    [this.compiledTemplates[templateName]], which is undefined exactly when
    the name is neither compiled nor the name of a member inherited from
    [Object.prototype].  When this lookup finds nothing, or the data is
    absent, or the selector denotes no element, the call returns [false],
    does not raise, and leaves the page as it was: no placeholder is
    written, whether or not the target exists.  When all three checks
    pass, what the lookup found is called with the data: the call writes
    the result and returns [true], or, when the function raises, writes the
    placeholder naming the template and the message into the target and
    returns [false].  So a call for [toString], never compiled, writes
    the text of a plain object and returns [true], and a call for
    [__proto__] ends in the placeholder. *)
Theorem renderTemplate_outcomes (h : host) (w : world) (templateName : string)
    (data : value) (selector : string) (resolved : option element) :
  querySelector h selector = Return resolved ->
  let own := compiledTemplates (this w) in
  let result name := renderTemplate h name data (Selector selector) w in
  let logged name outcome w' :=
    (outcome, record_call (entry name (Selector selector) outcome) w') in
  (templateAt own templateName = None
   <-> own !! templateName = None /\ templateName ∉ prototypeNames)
  /\ (forall render, own !! templateName = Some render ->
                     templateAt own templateName = Some render)
  /\ (templateAt own templateName = None
      \/ truthy data = false \/ resolved = None ->
      result templateName = logged templateName (Return false) w)
  /\ (forall render el,
        templateAt own templateName = Some render ->
        truthy data = true ->
        resolved = Some el ->
        match render data with
        | Return renderedHTML =>
            result templateName
            = logged templateName (Return true) (set_innerHTML el renderedHTML w).2
        | Throw error =>
            result templateName
            = logged templateName (Return false)
                (set_innerHTML el (placeholder templateName (message error)) w).2
        end)
  /\ (forall el,
        truthy data = true ->
        resolved = Some el ->
        (own !! "toString" = None ->
         result "toString"
         = logged "toString" (Return true) (set_innerHTML el "[object Object]" w).2)
        /\ (own !! "__proto__" = None ->
            result "__proto__"
            = logged "__proto__" (Return false)
                (set_innerHTML el
                   (placeholder "__proto__"
                      "this.compiledTemplates[templateName] is not a function") w).2)).
Proof.
  intros Hq own result logged.
  assert (forall name render el,
            templateAt own name = Some render ->
            truthy data = true ->
            resolved = Some el ->
            match render data with
            | Return renderedHTML =>
                result name = logged name (Return true) (set_innerHTML el renderedHTML w).2
            | Throw error =>
                result name
                = logged name (Return false)
                    (set_innerHTML el (placeholder name (message error)) w).2
            end) as Hcalled.
  { intros name render el Hfound Hdata ->. subst own result logged. cbv beta.
    unfold renderTemplate, renderTemplate_body, handleRenderError, try_catch,
      bind, gets, ret, lift.
    rewrite Hfound, Hdata. cbn [negb selector_of]. cbv beta. rewrite Hq.
    destruct (render data) as [html | e]; cbn; done. }
  split; [apply templateAt_None |].
  split; [apply templateAt_own |].
  split; [| split; [apply Hcalled |]].
  - intros Hguard. subst own result logged. cbv beta.
    unfold renderTemplate, renderTemplate_body, try_catch, bind, gets, ret, lift.
    destruct (templateAt (compiledTemplates (this w)) templateName) as [render |];
      [| done].
    destruct (truthy data) eqn:Hdata; cbn [negb]; [| done].
    destruct Hguard as [? | [? | ->]]; [done.. |].
    cbv beta. by rewrite Hq.
  - intros el Hdata Hel. split; intros Hown.
    + refine (Hcalled "toString" (fun _ => Return "[object Object]") el _ Hdata Hel).
      unfold templateAt. by rewrite Hown.
    + refine (Hcalled "__proto__"
                (fun _ => Throw (TypeError "this.compiledTemplates[templateName] is not a function"))
                el _ Hdata Hel).
      unfold templateAt. by rewrite Hown.
Qed.

(** A template that raises, on a target that exists: the placeholder. *)
Lemma renderTemplate_outcomes_witness :
  let w := Fixtures.worldWith [("heroStats", Fixtures.failingTemplate)] in
  querySelector Fixtures.timelinePage "#heroStats" = Return (Some "heroStats")
  /\ renderTemplate Fixtures.timelinePage "heroStats" (VObj []) (Selector "#heroStats") w
     = (Return false,
        record_call (entry "heroStats" (Selector "#heroStats") (Return false))
          (set_innerHTML "heroStats" (placeholder "heroStats" "boom") w).2).
Proof.
  intros w. split; [reflexivity |].
  exact (proj1 (proj2 (proj2 (proj2
           (renderTemplate_outcomes Fixtures.timelinePage w "heroStats" (VObj [])
              "#heroStats" (Some "heroStats") eq_refl))))
           Fixtures.failingTemplate "heroStats" eq_refl eq_refl eq_refl).
Defined.

(** The inherited members, called in place of a template on the example
    page with no template compiled: [hasOwnProperty] answers for the key
    the data converts to, [constructor] hands the data back, and what
    [__defineGetter__] raises ends in the placeholder. *)
Example renderTemplate_inherited_members :
  let w := Fixtures.worldWith [] in
  let run name :=
    let '(r, w') := renderTemplate Fixtures.timelinePage name (VObj [])
                      (Selector "#heroStats") w in
    (r, innerHTML w' !! "heroStats") in
  run "hasOwnProperty" = (Return true, Some "false")
  /\ run "constructor" = (Return true, Some "[object Object]")
  /\ run "valueOf" = (Return true, Some "[object Object]")
  /\ run "__lookupGetter__" = (Return true, Some "undefined")
  /\ run "__defineGetter__"
     = (Return false,
        Some (placeholder "__defineGetter__"
                "Object.prototype.__defineGetter__: Expecting function"))
  /\ run "heroStats" = (Return false, None).
Proof. vm_compute. repeat split; reflexivity. Qed.

(** C1, counterexample to the specification: the template was never compiled, the
    target exists on the page, the call returns [false], and the target is
    not overwritten with a placeholder (it is not written at all). *)
Lemma renderTemplate_no_placeholder_for_missing_template :
  let w := Fixtures.worldWith [] in
  querySelector Fixtures.timelinePage "#heroStats" = Return (Some "heroStats")
  /\ compiledTemplates (this w) !! "heroStats" = None
  /\ exists w',
       renderTemplate Fixtures.timelinePage "heroStats" (VObj []) (Selector "#heroStats") w
       = (Return false, w')
       /\ innerHTML w' = innerHTML w
       /\ ~ exists errorMessage,
             innerHTML w' !! "heroStats" = Some (placeholder "heroStats" errorMessage).
Proof.
  intros w. split; [reflexivity |]. split; [reflexivity |].
  eexists. split; [apply renderTemplate_not_compiled; reflexivity |].
  split; [reflexivity |]. intros [errorMessage Hwritten]. discriminate.
Qed.

(** A target passed as an element is never resolved again with success:
    [handleRenderError] hands the element itself to [querySelector], and
    the text of an element is not a selector.  On the example page the
    call then raises instead of returning [false]. *)
Example renderTemplate_element_target_raises :
  let w := Fixtures.worldWith [("heroStats", Fixtures.failingTemplate)] in
  exists e w',
    renderTemplate Fixtures.timelinePage "heroStats" (VObj []) (Element "heroStats") w
    = (Throw e, w')
    /\ innerHTML w' = innerHTML w.
Proof. intros w. eexists _, _. split; [vm_compute; reflexivity | reflexivity]. Qed.

(** The templates [isReady] asks for. *)
Definition firstPaintTemplates : list string :=
  ["heroStats"; "historicalEvents"; "statistics"; "companies"; "socialMedia"].

(** C9.  [isReady] holds exactly when the five first-paint templates are
    compiled.  Whether [policies] and [infrastructure] are compiled makes
    no difference to it, and a [renderTemplate] call for a template that is
    not compiled returns [false] without raising and without touching the
    page. *)
Theorem isReady_five_templates (r : renderer) :
  (isReady r = true
   <-> forall template, template ∈ firstPaintTemplates ->
                        is_Some (compiledTemplates r !! template))
  /\ isReady (without ["policies"; "infrastructure"] r) = isReady r
  /\ forall h w templateName data targetSelector,
       this w = without ["policies"; "infrastructure"] r ->
       templateName ∈ ["policies"; "infrastructure"] ->
       renderTemplate h templateName data targetSelector w
       = (Return false,
          record_call (entry templateName targetSelector (Return false)) w).
Proof.
  split; [| split].
  - unfold isReady. rewrite forallb_forall. split.
    + intros Hall template Hin. apply list_elem_of_In in Hin.
      apply Hall in Hin. by apply bool_decide_eq_true in Hin.
    + intros Hall template Hin. apply bool_decide_eq_true.
      by apply Hall, list_elem_of_In.
  - unfold isReady, without. cbn [foldr compiledTemplates forallb].
    by rewrite !lookup_delete_ne by done.
  - intros h w templateName data targetSelector Hthis Hin.
    apply renderTemplate_not_compiled. rewrite Hthis.
    unfold without, templateAt. cbn [foldr compiledTemplates].
    repeat (apply elem_of_cons in Hin as [-> | Hin]).
    + by rewrite lookup_delete_eq.
    + by rewrite lookup_delete_ne, lookup_delete_eq by done.
    + by apply elem_of_nil in Hin.
Qed.

(** On a page that has the five first-paint templates and lacks the other
    two, construction compiles five templates, the renderer is ready, and
    the sidebar call that needs [infrastructure] fails on its own. *)
Example ready_without_policies_and_infrastructure :
  let ids := ["hero-stats-template"; "historical-events-template";
              "statistics-template"; "company-template";
              "social-media-template"] in
  let page := Fixtures.pageOf (ids ++ Fixtures.contentIds) in
  let content : gmap element string :=
    list_to_map ((fun id => (id, "<div>{{this}}</div>")) <$> ids) in
  let '(r, w) := TemplateRenderer.new page complete
                   {| this := {| compiledTemplates := ∅; templateElements := ∅ |};
                      innerHTML := content; calls := [] |} in
  (exists listeners, r = Return listeners /\ length listeners = 0)
  /\ isReady (this w) = true
  /\ compiledTemplates (this w) !! "policies" = None
  /\ compiledTemplates (this w) !! "infrastructure" = None
  /\ (succeeded <$> calls (renderSidebarContent page (VObj [("fiveGFuture", VObj [])]) w).2)
     = [false].
Proof. vm_compute. split; [by eexists | done]. Qed.

End TemplateRendererFacts.

(** ** The application *)

Module PakistanTimelineAppFacts.
Import PakistanTimelineApp.

(** The attempts and the waits of one [loadJSONFile] call in which each
    of the [limit] attempts fails, starting with attempt [first] and with
    [remaining] attempts to go: attempt [i] is followed by a wait of
    [step * i] unless it is the last one. *)
Definition schedule (filePath : string) (step limit first remaining : nat)
    : list event :=
  concat ((fun i => Fetched filePath i
                    :: (if (i <? limit)%nat then [Delayed (step * i)] else []))
          <$> seq first remaining).

(** The attempt numbers, and the waits, of a timeline, in order. *)
Definition attemptsOf (t : list event) : list nat :=
  omap (fun ev => match ev with Fetched _ i => Some i | Delayed _ => None end) t.

(** The attempt numbers of the requests made for [filePath]. *)
Definition attemptsFor (filePath : string) (t : list event) : list nat :=
  omap (fun ev => match ev with
                  | Fetched p i => if String.eqb p filePath then Some i else None
                  | Delayed _ => None
                  end) t.

Definition delaysOf (t : list event) : list nat :=
  omap (fun ev => match ev with Delayed ms => Some ms | Fetched _ _ => None end) t.

Lemma attemptsOf_schedule filePath step limit first remaining :
  attemptsOf (schedule filePath step limit first remaining) = seq first remaining.
Proof.
  unfold schedule, attemptsOf.
  revert first. induction remaining as [|remaining IH]; intros first; [done |].
  cbn [seq fmap list_fmap concat]. rewrite omap_app. fold (@fmap list _).
  rewrite IH. by destruct (first <? limit)%nat.
Qed.

Lemma delaysOf_schedule filePath step limit first remaining :
  first + remaining = S limit ->
  delaysOf (schedule filePath step limit first remaining)
  = (fun i => step * i) <$> seq first (pred remaining).
Proof.
  unfold schedule, delaysOf.
  revert first. induction remaining as [|remaining IH]; intros first Hsum; [done |].
  cbn [seq fmap list_fmap concat]. rewrite omap_app. fold (@fmap list _).
  rewrite IH by lia. destruct remaining as [|remaining].
  - replace (first <? limit)%nat with false by (symmetry; apply Nat.ltb_ge; lia).
    done.
  - replace (first <? limit)%nat with true by (symmetry; apply Nat.ltb_lt; lia).
    done.
Qed.

Lemma scaled_seq_sorted step first count :
  Sorted le ((fun i => step * i) <$> seq first count).
Proof.
  revert first. induction count as [|count IH]; intros first; [constructor |].
  cbn [seq fmap list_fmap]. constructor; [apply IH |].
  destruct count; constructor. nia.
Qed.

Section Loading.
Variable h : host.

(** Loading changes nothing but the world's counters. *)
Lemma fetchAndParse_run filePath attempt a :
  fetchAndParse h filePath attempt a
  = (responseOutcome h (fetch h (fetches a) filePath),
     with_world (S (fetches a)) (timeline a ++ [Fetched filePath attempt]) a).
Proof. done. Qed.

Lemma attemptLoop_world remaining attempt filePath lastError a :
  exists n t,
    fetches a <= n
    /\ (attemptLoop h remaining attempt filePath lastError a).2 = with_world n t a.
Proof.
  revert attempt lastError a.
  induction remaining as [|remaining IH]; intros attempt lastError a.
  - exists (fetches a), (timeline a). split; [done |]. by destruct a.
  - cbn [attemptLoop]. unfold try_catch, bind. rewrite fetchAndParse_run.
    destruct (responseOutcome h _) as [parsed | e]; cbn -[Nat.ltb Nat.mul].
    + eexists _, _. split; [| done]. lia.
    + destruct (attempt <? retryAttempts (cfg a))%nat; cbn -[Nat.ltb Nat.mul];
        match goal with
        | |- context [attemptLoop h remaining ?n filePath ?l ?b] =>
            destruct (IH n l b) as (n' & t' & Hle & ->)
        end; cbn in Hle; eexists _, _; (split; [| done]); lia.
Qed.

Lemma loadJSONFile_world filePath a :
  exists n t,
    fetches a <= n /\ (loadJSONFile h filePath a).2 = with_world n t a.
Proof.
  unfold loadJSONFile, bind, gets.
  destruct (attemptLoop_world (retryAttempts (cfg a)) 1 filePath None a)
    as (n & t & Hle & Hw).
  destruct (attemptLoop h _ 1 filePath None a) as [[[parsed | [lastError |]] | e] a'];
    cbn in *; subst a'; try (eexists _, _; split; [exact Hle | done]).
  destruct (includes filePath "historical_events.json");
    eexists _, _; (split; [exact Hle | done]).
Qed.

Lemma with_world_id a : with_world (fetches a) (timeline a) a = a.
Proof. by destruct a. Qed.

(** The loop when every attempt from now on fails, the [k]-th [fetch]
    of the session with the error [err k]. *)
Lemma attemptLoop_all_fail filePath err remaining attempt lastError a :
  attempt + remaining = S (retryAttempts (cfg a)) ->
  (forall k, fetches a <= k ->
             responseOutcome h (fetch h k filePath) = Throw (err k)) ->
  attemptLoop h remaining attempt filePath lastError a
  = (Return (inr (match remaining with
                  | 0 => lastError
                  | S _ => Some (err (fetches a + remaining - 1))
                  end)),
     with_world (fetches a + remaining)
       (timeline a ++ schedule filePath (retryDelay (cfg a))
                               (retryAttempts (cfg a)) attempt remaining) a).
Proof.
  revert attempt lastError a.
  induction remaining as [|remaining IH]; intros attempt lastError a Hsum Hfail.
  - unfold schedule. cbn [attemptLoop seq fmap list_fmap concat].
    by rewrite Nat.add_0_r, app_nil_r, with_world_id.
  - cbn [attemptLoop]. unfold try_catch, bind. rewrite fetchAndParse_run.
    rewrite Hfail by done. cbn -[Nat.ltb Nat.mul].
    unfold schedule. cbn [seq fmap list_fmap concat]. fold (@fmap list _).
    fold (schedule filePath (retryDelay (cfg a)) (retryAttempts (cfg a))
                   (S attempt) remaining).
    destruct (attempt <? retryAttempts (cfg a))%nat; cbn -[Nat.ltb Nat.mul];
      rewrite IH by (cbn; first [lia | intros; apply Hfail; lia]);
      cbn -[Nat.ltb Nat.mul schedule]; unfold with_world;
      cbn -[Nat.ltb Nat.mul schedule];
      (f_equal;
       [ destruct remaining; do 4 f_equal; lia
       | f_equal; [lia | unfold schedule; by rewrite <- ?app_assoc] ]).
Qed.

(** C4.  When every attempt for the mandatory file fails, [loadJSONFile]
    makes exactly [retryAttempts] attempts, numbered from 1, waits
    [retryDelay * i] after attempt [i] for every attempt but the last (so
    the waits never decrease), and then raises the error that names the
    file path and the message of the last failure. *)
Theorem mandatory_load_exhausts_retries (filePath : string) (err : nat -> error)
    (a : app) :
  includes filePath "historical_events.json" = true ->
  1 <= retryAttempts (cfg a) ->
  (forall k, fetches a <= k ->
             responseOutcome h (fetch h k filePath) = Throw (err k)) ->
  let limit := retryAttempts (cfg a) in
  let step := retryDelay (cfg a) in
  exists a' added,
    loadJSONFile h filePath a
    = (Throw (Error ("Failed to load critical data file: " +:+ filePath
                     +:+ ". Last error: "
                     +:+ message (err (fetches a + limit - 1)))), a')
    /\ timeline a' = timeline a ++ added
    /\ fetches a' = fetches a + limit
    /\ added = schedule filePath step limit 1 limit
    /\ attemptsOf added = seq 1 limit
    /\ delaysOf added = (fun i => step * i) <$> seq 1 (limit - 1)
    /\ Sorted le (delaysOf added).
Proof.
  intros Hmandatory Hlimit Hfail limit step.
  exists (with_world (fetches a + limit)
            (timeline a ++ schedule filePath step limit 1 limit) a),
         (schedule filePath step limit 1 limit).
  split; [| split; [| split; [| split; [reflexivity | split; [| split]]]]].
  - unfold loadJSONFile, bind, gets.
    rewrite (attemptLoop_all_fail filePath err (retryAttempts (cfg a)) 1 None a)
      by done.
    subst limit step. destruct (retryAttempts (cfg a)); [lia |].
    unfold throw. by rewrite Hmandatory.
  - done.
  - done.
  - apply attemptsOf_schedule.
  - rewrite delaysOf_schedule by done. f_equal. f_equal. lia.
  - rewrite delaysOf_schedule by done. apply scaled_seq_sorted.
Qed.

(** One iteration of the loop of [loadOptionalDataFiles]. *)
Definition loadOptional (file : string) : M app unit :=
  try_catch
    (loaded <- loadJSONFile h file;;
     if truthy loaded
     then fileName <- lift (fileNameOf file);;
          modify (fun a => with_data (<[fileName := loaded]> (data a)) a)
     else ret tt)
    (fun error => ret tt).

Lemma loadOptionalDataFiles_unfold :
  loadOptionalDataFiles h = forEach loadOptional optionalFiles.
Proof. done. Qed.

(** An iteration never raises; it either stores what it loaded under the
    file's key or leaves the state as [loadJSONFile] left it. *)
Lemma loadOptional_run file a :
  (loadOptional file a).1 = Return tt
  /\ ((loadOptional file a).2 = (loadJSONFile h file a).2
      \/ exists loaded fileName,
           (loadJSONFile h file a).1 = Return loaded
           /\ truthy loaded = true
           /\ fileNameOf file = Return fileName
           /\ (loadOptional file a).2
              = with_data (<[fileName := loaded]> (data (loadJSONFile h file a).2))
                          (loadJSONFile h file a).2).
Proof.
  unfold loadOptional, try_catch, bind.
  destruct (loadJSONFile h file a) as [[loaded | e] a']; cbn [fst snd]; [| auto].
  destruct (truthy loaded) eqn:Htruthy; cbn; [| auto].
  destruct (fileNameOf file) as [fileName | e] eqn:Hname; cbn; [| auto].
  split; [done |]. right. by exists loaded, fileName.
Qed.

Lemma forEach_returns {S T} (f : T -> M S unit) (l : list T) (s : S) :
  (forall x s', (f x s').1 = Return tt) -> (forEach f l s).1 = Return tt.
Proof.
  intros Hf. revert s. induction l as [|x l IH]; intros s; [done |].
  cbn [forEach]. unfold bind. specialize (Hf x s).
  destruct (f x s) as [[[] | e] s']; cbn in *; [apply IH | done].
Qed.

(** [loadOptionalDataFiles] never raises. *)
Lemma loadOptionalDataFiles_returns a : (loadOptionalDataFiles h a).1 = Return tt.
Proof.
  rewrite loadOptionalDataFiles_unfold. apply forEach_returns.
  intros file a'. apply loadOptional_run.
Qed.

(** [loadAllData] returns whenever the load of the mandatory document
    does: neither validation nor the optional files can make it raise. *)
Lemma loadAllData_returns a primaryData :
  (loadJSONFile h "data/historical_events.json" a).1 = Return primaryData ->
  (loadAllData h a).1 = Return tt.
Proof.
  intros Hprimary. unfold loadAllData, try_catch, bind at 1 2.
  destruct (loadJSONFile h "data/historical_events.json" a) as [r a1].
  cbn in Hprimary. subst r.
  assert (forall a2, exists a3,
            (if truthy primaryData
             then validationResult <-
                    onValidator (JSONValidator.validateJSONData primaryData
                                   "historical_events");;
                  if JSONValidator.success validationResult
                  then modify (fun a => with_data (<["historical_events" := primaryData]> (data a)) a)
                  else modify (fun a => with_data (<["historical_events" := primaryData]> (data a)) a)
             else ret tt) a2 = (Return tt, a3)) as Hstored.
  { intros a2. destruct (truthy primaryData); [| by eexists].
    unfold bind, onValidator, zoom.
    destruct (JSONValidatorFacts.validateJSONData_outcome primaryData
                "historical_events") as [c Hc].
    destruct (Hc (validator a2)) as (r & st' & -> & _).
    destruct (JSONValidator.success r); by eexists. }
  destruct (Hstored a1) as [a3 ->].
  pose proof (loadOptionalDataFiles_returns a3) as Hoptional.
  destruct (loadOptionalDataFiles h a3) as [r a4]. cbn in *. by subst r.
Qed.

(** *** What a pass does to the application state

    [R] relates the state before a step to the state after it.  The
    hypotheses say that [R] is a preorder, that it holds across every
    elementary update the pipeline makes outside the data object, and
    across the two places that write the data object. *)
Section Relation.
Variable R : app -> app -> Prop.
Hypothesis R_refl : forall a, R a a.
Hypothesis R_trans : forall a b c, R a b -> R b c -> R a c.
Hypothesis R_validator : forall a v, R a (with_validator v a).
Hypothesis R_renderer : forall a r, R a (with_renderer r a).
Hypothesis R_overlay : forall a hidden loading, R a (with_overlay hidden loading a).
Hypothesis R_modal : forall a display message errors,
  R a (with_modal display message errors a).
Hypothesis R_world : forall a n t, fetches a <= n -> R a (with_world n t a).
Hypothesis R_main : forall a v,
  R a (with_data (<["historical_events" := v]> (data a)) a).
Hypothesis R_store : forall file a loaded fileName,
  file ∈ optionalFiles ->
  (loadJSONFile h file a).1 = Return loaded ->
  truthy loaded = true ->
  fileNameOf file = Return fileName ->
  R a (with_data (<[fileName := loaded]> (data (loadJSONFile h file a).2))
                 (loadJSONFile h file a).2).

Definition relates {A} (m : M app A) : Prop := forall a, R a (m a).2.

Lemma relates_ret {A} (x : A) : relates (ret x).
Proof. intros a. apply R_refl. Qed.

Lemma relates_throw {A} e : relates (throw (A := A) e).
Proof. intros a. apply R_refl. Qed.

Lemma relates_lift {A} (c : completion A) : relates (lift c).
Proof. intros a. apply R_refl. Qed.

Lemma relates_gets {A} (f : app -> A) : relates (gets f).
Proof. intros a. apply R_refl. Qed.

Lemma relates_modify (f : app -> app) : (forall a, R a (f a)) -> relates (modify f).
Proof. intros Hf a. apply Hf. Qed.

Lemma relates_bind {A B} (m : M app A) (k : A -> M app B) :
  relates m -> (forall x, relates (k x)) -> relates (bind m k).
Proof.
  intros Hm Hk a. unfold bind. specialize (Hm a).
  destruct (m a) as [[x | e] a']; cbn in *; [| done].
  eapply R_trans; [exact Hm | apply Hk].
Qed.

Lemma relates_try_catch {A} (m : M app A) (handler : error -> M app A) :
  relates m -> (forall e, relates (handler e)) -> relates (try_catch m handler).
Proof.
  intros Hm Hh a. unfold try_catch. specialize (Hm a).
  destruct (m a) as [[x | e] a']; cbn in *; [done |].
  eapply R_trans; [exact Hm | apply Hh].
Qed.

Lemma relates_forEach {A} (f : A -> M app unit) (l : list A) :
  (forall x, x ∈ l -> relates (f x)) -> relates (forEach f l).
Proof.
  induction l as [|x l IH]; intros Hf; [apply relates_ret |].
  cbn [forEach]. apply relates_bind.
  - apply Hf, list_elem_of_here.
  - intros _. apply IH. intros y Hy. by apply Hf, list_elem_of_further.
Qed.

Lemma relates_onValidator {A} (m : M JSONValidator.validator A) :
  relates (onValidator m).
Proof.
  intros a. unfold onValidator, zoom.
  destruct (m (validator a)) as [r v]. apply R_validator.
Qed.

Lemma relates_onRenderer {A} (m : M TemplateRenderer.world A) :
  relates (onRenderer m).
Proof.
  intros a. unfold onRenderer, zoom.
  destruct (m (renderer a)) as [r w]. apply R_renderer.
Qed.

Lemma relates_delay ms : relates (delay ms).
Proof. intros a. by apply R_world. Qed.

Lemma relates_loadJSONFile filePath : relates (loadJSONFile h filePath).
Proof.
  intros a. destruct (loadJSONFile_world filePath a) as (n & t & Hle & ->).
  by apply R_world.
Qed.

Lemma relates_loadOptionalDataFiles : relates (loadOptionalDataFiles h).
Proof.
  rewrite loadOptionalDataFiles_unfold. apply relates_forEach.
  intros file Hfile a.
  destruct (loadOptional_run file a) as [_ [-> | (loaded & fileName & Hl & Ht & Hn & ->)]].
  - apply relates_loadJSONFile.
  - by apply R_store.
Qed.

Lemma relates_loadAllData : relates (loadAllData h).
Proof.
  unfold loadAllData. apply relates_try_catch; [| intros; apply relates_throw].
  apply relates_bind; [apply relates_loadJSONFile |]. intros primaryData.
  apply relates_bind; [| intros; apply relates_loadOptionalDataFiles].
  destruct (truthy primaryData); [| apply relates_ret].
  apply relates_bind; [apply relates_onValidator |]. intros validationResult.
  destruct (JSONValidator.success validationResult);
    apply relates_modify; intros a; apply R_main.
Qed.

Lemma relates_waitLoop ticks waited : relates (waitLoop ticks waited).
Proof.
  revert waited. induction ticks as [|ticks IH]; intros waited; [apply relates_ret |].
  cbn [waitLoop]. apply relates_bind; [apply relates_gets |]. intros ready.
  destruct (_ && _); [| apply relates_ret].
  apply relates_bind; [apply relates_delay | intros; apply IH].
Qed.

Lemma relates_renderSection {A} historicalData field
    (render : value -> M TemplateRenderer.world A) :
  relates (renderSection historicalData field render).
Proof.
  unfold renderSection. apply relates_bind; [apply relates_lift |]. intros part.
  destruct (truthy part); [| apply relates_ret].
  apply relates_bind; [apply relates_onRenderer | intros; apply relates_ret].
Qed.

Lemma relates_renderAllContent : relates (renderAllContent h).
Proof.
  unfold renderAllContent, waitForTemplatesReady.
  apply relates_try_catch; [| intros; apply relates_throw].
  apply relates_bind.
  { apply relates_bind; [apply relates_waitLoop |]. intros _.
    apply relates_bind; [apply relates_gets |]. intros ready.
    destruct (negb ready); [apply relates_throw | apply relates_ret]. }
  intros _. apply relates_bind; [apply relates_gets |]. intros historicalData.
  destruct (negb _); [apply relates_throw |].
  repeat (apply relates_bind; [apply relates_renderSection | intros _]).
  apply relates_bind; [apply relates_onRenderer | intros; apply relates_ret].
Qed.

Lemma relates_showLoadingOverlay : relates (showLoadingOverlay h).
Proof.
  unfold showLoadingOverlay. destruct (TemplateRenderer.getElementById _ _);
    [apply relates_modify; intros; apply R_overlay | apply relates_ret].
Qed.

Lemma relates_hideLoadingOverlay : relates (hideLoadingOverlay h).
Proof.
  unfold hideLoadingOverlay. destruct (TemplateRenderer.getElementById _ _);
    [apply relates_modify; intros; apply R_overlay | apply relates_ret].
Qed.

Lemma relates_handleAppError e : relates (handleAppError h e).
Proof.
  unfold handleAppError, showErrorModal.
  apply relates_bind; [apply relates_hideLoadingOverlay |]. intros _.
  repeat destruct (TemplateRenderer.getElementById _ _);
    first [apply relates_modify; intros; apply R_modal | apply relates_ret].
Qed.

Lemma relates_closeErrorModal : relates (closeErrorModal h).
Proof.
  unfold closeErrorModal. destruct (TemplateRenderer.getElementById _ _);
    [apply relates_modify; intros; apply R_modal | apply relates_ret].
Qed.

Lemma relates_startApp : relates (startApp h).
Proof.
  unfold startApp. apply relates_try_catch; [| apply relates_handleAppError].
  apply relates_bind; [apply relates_modify; intros; apply R_validator | intros _].
  apply relates_bind; [apply relates_onRenderer | intros _].
  apply relates_bind; [apply relates_showLoadingOverlay | intros _].
  apply relates_bind; [apply relates_loadAllData | intros _].
  apply relates_bind; [apply relates_renderAllContent | intros _].
  apply relates_hideLoadingOverlay.
Qed.

Lemma relates_retryDataLoad : relates (retryDataLoad h).
Proof.
  unfold retryDataLoad.
  apply relates_bind; [apply relates_closeErrorModal | intros _].
  apply relates_bind; [apply relates_showLoadingOverlay | intros _].
  apply relates_try_catch; [| apply relates_handleAppError].
  apply relates_bind; [apply relates_loadAllData | intros _].
  apply relates_bind; [apply relates_renderAllContent | intros _].
  apply relates_hideLoadingOverlay.
Qed.

End Relation.

(** The outcome of [loadJSONFile] when every attempt from now on fails. *)
Lemma loadJSONFile_all_fail filePath err a :
  (forall k, fetches a <= k ->
             responseOutcome h (fetch h k filePath) = Throw (err k)) ->
  (loadJSONFile h filePath a).1
  = match retryAttempts (cfg a) with
    | 0 => Throw (TypeError "Cannot read properties of null (reading 'message')")
    | S _ =>
        if includes filePath "historical_events.json"
        then Throw (Error ("Failed to load critical data file: " +:+ filePath
                           +:+ ". Last error: "
                           +:+ message (err (fetches a + retryAttempts (cfg a) - 1))))
        else Return VNull
    end.
Proof.
  intros Hfail. unfold loadJSONFile, bind, gets.
  rewrite (attemptLoop_all_fail filePath err (retryAttempts (cfg a)) 1 None a)
    by done.
  destruct (retryAttempts (cfg a)); [done |].
  by destruct (includes filePath "historical_events.json").
Qed.

(** The keys of the optional files differ from each other and from the
    key of the mandatory document. *)
Lemma optional_key_of file key :
  file ∈ optionalFiles ->
  fileNameOf file = Return key ->
  key <> "historical_events"
  /\ includes file "historical_events.json" = false
  /\ forall file', file' ∈ optionalFiles -> fileNameOf file' = Return key -> file' = file.
Proof.
  intros Hfile Hkey. unfold optionalFiles in *.
  repeat (apply elem_of_cons in Hfile as [-> | Hfile]);
    [.. | by apply elem_of_nil in Hfile];
    vm_compute in Hkey; injection Hkey as <-;
    (split; [done |]); (split; [done |]);
    intros file' Hfile' Hkey';
    repeat (apply elem_of_cons in Hfile' as [-> | Hfile']);
    try done; by apply elem_of_nil in Hfile'.
Qed.

(** [startApp] up to the end of loading, and from there on. *)
Definition startLoading : M app unit :=
  modify (with_validator JSONValidator.new);;;
  onRenderer (TemplateRenderer.new (page h) TemplateRenderer.interactive);;;
  showLoadingOverlay h;;;
  loadAllData h.

Definition finishStart : M app unit :=
  renderAllContent h;;; hideLoadingOverlay h.

Lemma startApp_stages a :
  startApp h a = try_catch (startLoading;;; finishStart) (handleAppError h) a.
Proof.
  unfold startApp, startLoading, finishStart, try_catch, bind, modify.
  destruct (onRenderer _ _) as [[listeners | e] a1]; [| done].
  destruct (showLoadingOverlay h a1) as [[[] | e] a2]; [| done].
  by destruct (loadAllData h a2) as [[[] | e] a3].
Qed.

(** The components are created and the overlay is shown without a
    request, and without a change to the data or to the error flag. *)
Lemma startLoading_run a listeners :
  (TemplateRenderer.new (page h) TemplateRenderer.interactive (renderer a)).1
  = Return listeners ->
  exists a1,
    startLoading a = loadAllData h a1
    /\ fetches a1 = fetches a
    /\ cfg a1 = cfg a
    /\ data a1 = data a
    /\ hasErrors a1 = hasErrors a.
Proof.
  intros Hnew. unfold startLoading, bind at 1, modify. cbv beta.
  unfold bind at 1, onRenderer, zoom. cbn [renderer with_validator].
  destruct (TemplateRenderer.new _ _ (renderer a)) as [r w]. cbn [fst] in Hnew.
  subst r. unfold bind at 1, showLoadingOverlay.
  destruct (TemplateRenderer.getElementById (page h) "loadingOverlay");
    unfold modify, ret; eexists; (split; [reflexivity | done]).
Qed.

Lemma loadJSONFile_first_response filePath a document :
  1 <= retryAttempts (cfg a) ->
  responseOutcome h (fetch h (fetches a) filePath) = Return document ->
  (loadJSONFile h filePath a).1 = Return document.
Proof.
  intros Hlimit Hresponse. unfold loadJSONFile, bind, gets. cbv beta.
  destruct (retryAttempts (cfg a)) as [|limit]; [lia |].
  cbn [attemptLoop]. unfold try_catch, bind. rewrite fetchAndParse_run.
  by rewrite Hresponse.
Qed.

(** A truthy timeline document that loads is in the data object when
    [loadAllData] is over. *)
Lemma loadAllData_stores a primaryData :
  (loadJSONFile h "data/historical_events.json" a).1 = Return primaryData ->
  truthy primaryData = true ->
  data (loadAllData h a).2 !! "historical_events" = Some primaryData.
Proof.
  intros Hload Htruthy.
  set (R := fun a1 a2 : app =>
              data a2 !! "historical_events" = data a1 !! "historical_events").
  assert (forall a1, R a1 (loadOptionalDataFiles h a1).2) as Hoptional.
  { apply (relates_loadOptionalDataFiles R); unfold R; try done.
    - intros ? ? ? -> ->. done.
    - intros file a1 loaded fileName Hfile _ _ Hname.
      destruct (loadJSONFile_world file a1) as (n & t & _ & ->).
      cbn [data with_data with_world].
      destruct (optional_key_of file fileName Hfile Hname) as (Hne & _).
      by rewrite lookup_insert_ne. }
  unfold loadAllData, try_catch, bind at 1.
  destruct (loadJSONFile h "data/historical_events.json" a) as [r a1].
  cbn [fst] in Hload. subst r. unfold bind at 1. rewrite Htruthy.
  unfold bind at 1, onValidator, zoom.
  destruct (JSONValidatorFacts.validateJSONData_outcome primaryData
              "historical_events") as [c Hc].
  destruct (Hc (validator a1)) as (r & st' & -> & _).
  assert (forall a2 : app,
            data a2 !! "historical_events" = Some primaryData ->
            data (match loadOptionalDataFiles h a2 with
                  | (Return x, a3) => (Return x, a3)
                  | (Throw e, a3) => throw e a3
                  end).2 !! "historical_events" = Some primaryData) as Hkept.
  { intros a2 Ha2. pose proof (Hoptional a2) as Hsame. unfold R in Hsame.
    destruct (loadOptionalDataFiles h a2) as [[[] | e] a3]; cbn in *; congruence. }
  destruct (JSONValidator.success r); unfold modify; apply Hkept;
    cbn [data with_data]; by rewrite lookup_insert_eq.
Qed.

(** Rendering and hiding the overlay touch neither the data object nor
    the error flag. *)
Lemma finishStart_keeps a :
  data (finishStart a).2 = data a /\ hasErrors (finishStart a).2 = hasErrors a.
Proof.
  set (R := fun a1 a2 : app => data a2 = data a1 /\ hasErrors a2 = hasErrors a1).
  assert (forall a1 a2 a3, R a1 a2 -> R a2 a3 -> R a1 a3) as R_trans
    by (intros a1 a2 a3 [? ?] [? ?]; split; congruence).
  unfold finishStart.
  apply (relates_bind R); [done | ..].
  - apply (relates_renderAllContent R); unfold R; done.
  - intros _. apply (relates_hideLoadingOverlay R); unfold R; done.
Qed.

(** C6.  For an optional file all of whose attempts fail (the [k]-th
    [fetch] of the session with the error [err k]): [loadJSONFile] returns
    [null] and does not raise; [loadOptionalDataFiles] runs to its end
    without raising and leaves the file's key as it was; [loadAllData]
    returns whenever the mandatory document loads; after [startApp] on a
    newly constructed application, and after a retry that follows it, the
    key is not in the data object at all.  And the pipeline goes on to its
    end: when the renderer can be constructed and the first response for
    the timeline is accepted with a truthy document, loading ends without
    an error, with the timeline stored and the key as it was, and
    [startApp] continues with rendering from there; when rendering
    returns, [startApp] ends with the error flag as it was, the data as
    loaded and the overlay hidden. *)
Theorem optional_load_degrades (file key : string) (err : nat -> error) :
  file ∈ optionalFiles ->
  fileNameOf file = Return key ->
  (forall k, responseOutcome h (fetch h k file) = Throw (err k)) ->
  (forall a, 1 <= retryAttempts (cfg a) ->
             (loadJSONFile h file a).1 = Return VNull)
  /\ (forall a,
        (loadOptionalDataFiles h a).1 = Return tt
        /\ data (loadOptionalDataFiles h a).2 !! key = data a !! key)
  /\ (forall a primaryData,
        (loadJSONFile h "data/historical_events.json" a).1 = Return primaryData ->
        (loadAllData h a).1 = Return tt)
  /\ (forall content,
        data (startApp h (new content)).2 !! key = None
        /\ data (retryDataLoad h (startApp h (new content)).2).2 !! key = None)
  /\ (forall a primaryData listeners,
        1 <= retryAttempts (cfg a) ->
        (TemplateRenderer.new (page h) TemplateRenderer.interactive (renderer a)).1
        = Return listeners ->
        responseOutcome h (fetch h (fetches a) "data/historical_events.json")
        = Return primaryData ->
        truthy primaryData = true ->
        let loaded := (startLoading a).2 in
        let final := (startApp h a).2 in
        (startLoading a).1 = Return tt
        /\ data loaded !! "historical_events" = Some primaryData
        /\ data loaded !! key = data a !! key
        /\ hasErrors loaded = hasErrors a
        /\ startApp h a = try_catch finishStart (handleAppError h) loaded
        /\ ((renderAllContent h loaded).1 = Return tt ->
            (startApp h a).1 = Return tt
            /\ hasErrors final = hasErrors a
            /\ data final = data loaded
            /\ (is_Some (TemplateRenderer.getElementById (page h) "loadingOverlay") ->
                isLoading final = false /\ overlayHidden final = true))).
Proof.
  intros Hfile Hkey Hfail.
  destruct (optional_key_of file key Hfile Hkey) as (Hmain & Hoptional & Hinj).
  set (R := fun a a' : app => data a' !! key = data a !! key).
  assert (forall file' a loaded fileName,
            file' ∈ optionalFiles ->
            (loadJSONFile h file' a).1 = Return loaded ->
            truthy loaded = true ->
            fileNameOf file' = Return fileName ->
            R a (with_data (<[fileName := loaded]> (data (loadJSONFile h file' a).2))
                           (loadJSONFile h file' a).2)) as R_store.
  { intros file' a loaded fileName Hfile' Hloaded Htruthy Hname. unfold R.
    destruct (loadJSONFile_world file' a) as (n & t & _ & Hworld).
    rewrite Hworld. cbn [data with_data with_world].
    destruct (decide (fileName = key)) as [-> | Hne];
      [| by rewrite lookup_insert_ne].
    rewrite (Hinj file' Hfile' Hname) in Hloaded.
    rewrite (loadJSONFile_all_fail file err a) in Hloaded by (intros; apply Hfail).
    rewrite Hoptional in Hloaded.
    destruct (retryAttempts (cfg a)); [done |].
    injection Hloaded as <-. done. }
  assert (forall a v, R a (with_data (<["historical_events" := v]> (data a)) a))
    as R_main.
  { intros a v. unfold R. cbn [data with_data]. by rewrite lookup_insert_ne. }
  assert (forall a1 a2 a3, R a1 a2 -> R a2 a3 -> R a1 a3) as R_trans
    by (unfold R; intros ? ? ? -> ->; done).
  split; [| split; [| split; [| split]]].
  - intros a Hlimit.
    rewrite (loadJSONFile_all_fail file err a) by (intros; apply Hfail).
    rewrite Hoptional. destruct (retryAttempts (cfg a)); [lia | done].
  - intros a. split; [apply loadOptionalDataFiles_returns |].
    apply (relates_loadOptionalDataFiles R); unfold R in *; done.
  - apply loadAllData_returns.
  - intros content.
    assert (data (startApp h (new content)).2 !! key = None) as Hstart.
    { transitivity (data (new content) !! key); [| done].
      apply (relates_startApp R); unfold R in *; done. }
    split; [exact Hstart |]. rewrite <- Hstart.
    apply (relates_retryDataLoad R); unfold R in *; done.
  - intros a primaryData listeners Hlimit Hnew Hresponse Htruthy loaded final.
    destruct (startLoading_run a listeners Hnew)
      as (a1 & Hrun & Hfetches & Hcfg & Hdata & Herrors).
    assert ((loadJSONFile h "data/historical_events.json" a1).1 = Return primaryData)
      as Hload.
    { apply loadJSONFile_first_response; [by rewrite Hcfg | by rewrite Hfetches]. }
    assert ((startLoading a).1 = Return tt) as Hreturns.
    { rewrite Hrun. by apply (loadAllData_returns a1 primaryData). }
    assert (startApp h a = try_catch finishStart (handleAppError h) loaded)
      as Hcontinues.
    { rewrite startApp_stages. subst loaded. unfold try_catch, bind.
      by destruct (startLoading a) as [[[] | e] a2]. }
    split; [exact Hreturns |]. subst loaded. rewrite Hrun.
    split; [by apply loadAllData_stores |].
    split.
    { rewrite <- Hdata. apply (relates_loadAllData R); unfold R in *; done. }
    split.
    { rewrite <- Herrors.
      set (R' := fun a2 a3 : app => hasErrors a3 = hasErrors a2).
      apply (relates_loadAllData R'); unfold R'; try done.
      - intros ? ? ? -> ->. done.
      - intros file' a2 loaded fileName _ _ _ _.
        by destruct (loadJSONFile_world file' a2) as (n & t & _ & ->). }
    split; [by rewrite <- Hrun |].
    intros Hrendered. subst final. rewrite Hcontinues, <- Hrun.
    destruct (finishStart_keeps (startLoading a).2) as [Hkept Hflag].
    assert (hasErrors (startLoading a).2 = hasErrors a) as Hloaded.
    { rewrite Hrun, <- Herrors.
      set (R' := fun a2 a3 : app => hasErrors a3 = hasErrors a2).
      apply (relates_loadAllData R'); unfold R'; try done.
      - intros ? ? ? -> ->. done.
      - intros file' a2 loaded fileName _ _ _ _.
        by destruct (loadJSONFile_world file' a2) as (n & t & _ & ->). }
    assert (try_catch finishStart (handleAppError h) (startLoading a).2
            = finishStart (startLoading a).2
            /\ (finishStart (startLoading a).2).1 = Return tt
            /\ (is_Some (TemplateRenderer.getElementById (page h) "loadingOverlay") ->
                isLoading (finishStart (startLoading a).2).2 = false
                /\ overlayHidden (finishStart (startLoading a).2).2 = true))
      as (-> & Hdone & Hoverlay).
    { rewrite Hrun. unfold try_catch, finishStart, bind.
      destruct (renderAllContent h (loadAllData h a1).2) as [r a2].
      cbn [fst] in Hrendered. subst r. unfold hideLoadingOverlay.
      destruct (TemplateRenderer.getElementById (page h) "loadingOverlay");
        unfold modify, ret; cbn.
      - split; [done |]. split; [done |]. done.
      - split; [done |]. split; [done |]. by intros [? [=]]. }
    split; [exact Hdone |]. split; [congruence |]. split; [exact Hkept |].
    exact Hoverlay.
Qed.

(** Loading neither reads nor writes the data object. *)
Lemma attemptLoop_with_data remaining attempt filePath lastError d a :
  attemptLoop h remaining attempt filePath lastError (with_data d a)
  = let '(r, a') := attemptLoop h remaining attempt filePath lastError a in
    (r, with_data d a').
Proof.
  revert attempt lastError a.
  induction remaining as [|remaining IH]; intros attempt lastError a; [done |].
  cbn [attemptLoop]. unfold try_catch, bind. rewrite !fetchAndParse_run.
  cbn [fetches with_data].
  destruct (responseOutcome h _) as [parsed | e]; cbn -[Nat.ltb Nat.mul]; [done |].
  destruct (attempt <? retryAttempts (cfg a))%nat; cbn -[Nat.ltb Nat.mul];
    match goal with
    | |- _ = (let '(r, a') := attemptLoop _ _ _ _ _ ?x in _) => exact (IH _ _ x)
    end.
Qed.

Lemma loadJSONFile_with_data filePath d a :
  loadJSONFile h filePath (with_data d a)
  = let '(r, a') := loadJSONFile h filePath a in (r, with_data d a').
Proof.
  unfold loadJSONFile, bind, gets. cbn [cfg with_data].
  rewrite attemptLoop_with_data.
  destruct (attemptLoop h _ 1 filePath None a) as [[[parsed | [lastError |]] | e] a'];
    try done.
  by destruct (includes filePath "historical_events.json").
Qed.

(** C5, as the code has it.  A retry loads without a cache:
    [loadJSONFile] neither consults nor changes the data object, so the
    outcome of a load never depends on what an earlier pass stored.  But
    the pass writes into the data object of the earlier pass, which is
    never cleared: a retry removes no key, and the key of an optional file
    whose re-load fails (every attempt from the retry on fails, the [k]-th
    [fetch] of the session with the error [err k]) has after the retry
    exactly the value it had before: it is absent only if it was absent
    before, and present with its earlier value otherwise. *)
Theorem retry_keeps_earlier_keys (a : app) :
  (forall filePath d,
     loadJSONFile h filePath (with_data d a)
     = let '(r, a') := loadJSONFile h filePath a in (r, with_data d a'))
  /\ (forall k, is_Some (data a !! k) ->
                is_Some (data (retryDataLoad h a).2 !! k))
  /\ (forall file key err,
        file ∈ optionalFiles ->
        fileNameOf file = Return key ->
        (forall k, fetches a <= k ->
                   responseOutcome h (fetch h k file) = Throw (err k)) ->
        data (retryDataLoad h a).2 !! key = data a !! key).
Proof.
  split; [| split].
  - intros. apply loadJSONFile_with_data.
  - set (R := fun a1 a2 : app =>
                forall k, is_Some (data a1 !! k) -> is_Some (data a2 !! k)).
    apply (relates_retryDataLoad R); unfold R; try done.
    + auto.
    + intros a1 v k. cbn [data with_data]. rewrite lookup_insert_is_Some'. tauto.
    + intros file a1 loaded fileName _ _ _ _ k.
      destruct (loadJSONFile_world file a1) as (n & t & _ & ->).
      cbn [data with_data with_world]. rewrite lookup_insert_is_Some'. tauto.
  - intros file key err Hfile Hkey Hfail.
    destruct (optional_key_of file key Hfile Hkey) as (Hmain & Hoptional & Hinj).
    set (R := fun a1 a2 : app =>
                fetches a <= fetches a1 ->
                fetches a <= fetches a2 /\ data a2 !! key = data a1 !! key).
    enough (R a (retryDataLoad h a).2) as HR by (by apply HR).
    apply (relates_retryDataLoad R); unfold R; try done.
    + intros a1 a2 a3 H12 H23 Hle. destruct (H12 Hle) as [Hle2 Heq2].
      destruct (H23 Hle2) as [Hle3 Heq3]. split; [done | congruence].
    + intros a1 n t Hn Hle. cbn [fetches data with_world]. split; [lia | done].
    + intros a1 v Hle. cbn [fetches data with_data]. split; [done |].
      by rewrite lookup_insert_ne.
    + intros file' a1 loaded fileName Hfile' Hloaded Htruthy Hname Hle.
      destruct (loadJSONFile_world file' a1) as (n & t & Hn & Hworld).
      rewrite Hworld. cbn [fetches data with_data with_world]. split; [lia |].
      destruct (decide (fileName = key)) as [-> | Hne];
        [| by rewrite lookup_insert_ne].
      rewrite (Hinj file' Hfile' Hname) in Hloaded.
      rewrite (loadJSONFile_all_fail file err a1) in Hloaded
        by (intros; apply Hfail; lia).
      rewrite Hoptional in Hloaded.
      destruct (retryAttempts (cfg a1)); [done |].
      injection Hloaded as <-. done.
Qed.

End Loading.

(** C5, counterexample to the specification.  The first pass loads the statistics
    file and then fails while rendering; during the retry every attempt
    for the statistics file fails, the retry renders without error, and
    the data object it rendered from still has the [statistics] key, with
    the value of the first pass. *)
Lemma retry_keeps_stale_statistics :
  let h := Fixtures.statisticsOnceHost in
  let a1 := (startApp h (new Fixtures.timelineContent)).2 in
  let a2 := (retryDataLoad h a1).2 in
  hasErrors a1 = true
  /\ data a1 !! "statistics" = Some (VObj [])
  /\ (forall k, fetches a1 <= k ->
                responseOutcome h (fetch h k "data/statistics.json")
                = Throw (Error "HTTP 404: Not Found"))
  /\ attemptsFor "data/statistics.json"
                  (drop (length (timeline a1)) (timeline a2))
     = [1; 2; 3]
  /\ hasErrors a2 = false
  /\ overlayHidden a2 = true
  /\ data a2 !! "statistics" = Some (VObj []).
Proof.
  intros h a1 a2.
  assert (fetches a1 = 14) as Hfetches by (vm_compute; reflexivity).
  split; [vm_compute; reflexivity |]. split; [vm_compute; reflexivity |].
  split.
  { intros k Hk. rewrite Hfetches in Hk.
    destruct k as [|[|k]]; [lia | lia |]. reflexivity. }
  split; [vm_compute; reflexivity |].
  split; [vm_compute; reflexivity |].
  split; vm_compute; reflexivity.
Qed.

(** A server that has the timeline and none of the optional files, on
    the timeline page: the load of the statistics file fails three times,
    and the first pass goes on to render the timeline and ends without an
    error, the overlay hidden, the key [statistics] absent. *)
Lemma optional_load_degrades_witness :
  let h := Fixtures.serving Fixtures.emptyTimeline in
  let file := "data/statistics.json" in
  let a := new Fixtures.timelineContent in
  file ∈ optionalFiles
  /\ fileNameOf file = Return "statistics"
  /\ (forall k, responseOutcome h (fetch h k file) = Throw (Error "HTTP 404: Not Found"))
  /\ (loadJSONFile h file a).1 = Return VNull
  /\ attemptsFor file (timeline (startApp h a).2) = [1; 2; 3]
  /\ (startApp h a).1 = Return tt
  /\ hasErrors (startApp h a).2 = false
  /\ isLoading (startApp h a).2 = false
  /\ overlayHidden (startApp h a).2 = true
  /\ data (startApp h a).2 !! "historical_events" = Some Fixtures.emptyTimeline
  /\ data (startApp h a).2 !! "statistics" = None
  /\ data (retryDataLoad h (startApp h a).2).2 !! "statistics" = None
  /\ length (TemplateRenderer.calls (renderer (startApp h a).2)) = 7.
Proof.
  intros h file a.
  assert (file ∈ optionalFiles) as Hfile by apply list_elem_of_here.
  assert (forall k, responseOutcome h (fetch h k file)
                    = Throw (Error "HTTP 404: Not Found")) as Hfail
    by (intros k; reflexivity).
  destruct (optional_load_degrades h file "statistics"
              (fun _ => Error "HTTP 404: Not Found") Hfile eq_refl Hfail)
    as (Hnull & _ & _ & Habsent & Hcompletes).
  assert (1 <= retryAttempts (cfg a)) as Hlimit by (cbn; lia).
  destruct (Hcompletes a Fixtures.emptyTimeline []
              Hlimit ltac:(vm_compute; reflexivity) eq_refl eq_refl)
    as (_ & Hstored & _ & _ & _ & Hfinal).
  destruct (Hfinal ltac:(vm_compute; reflexivity))
    as (Hreturns & Herrors & Hdata & Hoverlay).
  destruct (Hoverlay ltac:(by eexists)) as [Hloading Hhidden].
  destruct (Habsent Fixtures.timelineContent) as [Hnone Hretry].
  split; [exact Hfile |]. split; [reflexivity |]. split; [exact Hfail |].
  split; [exact (Hnull a Hlimit) |].
  split; [vm_compute; reflexivity |].
  split; [exact Hreturns |]. split; [exact Herrors |].
  split; [exact Hloading |]. split; [exact Hhidden |].
  split; [rewrite Hdata; exact Hstored |].
  split; [exact Hnone |]. split; [exact Hretry |].
  vm_compute. reflexivity.
Defined.

(** With the configuration of the constructor and the network down:
    three attempts, waits of one and two seconds, then the fatal error. *)
Lemma mandatory_load_exhausts_retries_witness :
  let filePath := "data/historical_events.json" in
  let a := PakistanTimelineApp.new ∅ in
  includes filePath "historical_events.json" = true
  /\ 1 <= retryAttempts (cfg a)
  /\ exists a' added,
       loadJSONFile Fixtures.offlineHost filePath a
       = (Throw (Error "Failed to load critical data file: data/historical_events.json. Last error: Failed to fetch"), a')
       /\ timeline a' = timeline a ++ added
       /\ fetches a' = fetches a + 3
       /\ added = [Fetched filePath 1; Delayed 1000; Fetched filePath 2;
                   Delayed 2000; Fetched filePath 3]
       /\ attemptsOf added = [1; 2; 3]
       /\ delaysOf added = [1000; 2000]
       /\ Sorted le (delaysOf added).
Proof.
  intros filePath a. split; [reflexivity |]. split; [cbn; lia |].
  exact (mandatory_load_exhausts_retries Fixtures.offlineHost filePath
           (fun _ => TypeError "Failed to fetch") a
           eq_refl (le_n_S 0 2 (Nat.le_0_l 2)) (fun _ _ => eq_refl)).
Defined.

(** An era object without [events] makes [renderMobileEra] raise before
    it issues any call, whatever else the era holds; [renderFintechEra]
    does the same. *)
Lemma renderMobileEra_without_events h mobileData w :
  get mobileData "events" = Return VUndefined ->
  TemplateRenderer.renderMobileEra h mobileData w
  = (Throw (TypeError "Cannot read properties of undefined (reading 'find')"), w).
Proof.
  intros Hevents. unfold TemplateRenderer.renderMobileEra, bind, lift.
  by rewrite Hevents.
Qed.

Lemma renderFintechEra_without_events h fintechData w :
  get fintechData "events" = Return VUndefined ->
  TemplateRenderer.renderFintechEra h fintechData w
  = (Throw (TypeError "Cannot read properties of undefined (reading 'find')"), w).
Proof.
  intros Hevents. unfold TemplateRenderer.renderFintechEra, bind, lift.
  by rewrite Hevents.
Qed.

(** [m] raises from every state. *)
Definition aborts {A} (m : M app A) : Prop := forall a, exists e, (m a).1 = Throw e.

Lemma aborts_bind_l {A B} (m : M app A) (k : A -> M app B) :
  aborts m -> aborts (bind m k).
Proof.
  intros Hm a. destruct (Hm a) as [e He]. exists e. unfold bind.
  destruct (m a) as [[x | e'] a']; cbn in *; congruence.
Qed.

Lemma aborts_bind_r {A B} (m : M app A) (k : A -> M app B) :
  (forall x, aborts (k x)) -> aborts (bind m k).
Proof.
  intros Hk a. unfold bind. destruct (m a) as [[x | e] a']; [apply Hk | by exists e].
Qed.

(** With the templates ready there is nothing to wait for. *)
Lemma waitForTemplatesReady_ready a :
  TemplateRenderer.isReady (TemplateRenderer.this (renderer a)) = true ->
  waitForTemplatesReady a = (Return tt, a).
Proof.
  intros Hready. unfold waitForTemplatesReady.
  assert (waitLoop (maxWait / checkInterval) 0 a = (Return tt, a)) as Hloop.
  { destruct (maxWait / checkInterval) as [|ticks]; [done |].
    cbn [waitLoop]. unfold bind, gets. cbv beta. by rewrite Hready. }
  unfold bind at 1. rewrite Hloop. unfold bind, gets. cbv beta.
  by rewrite Hready.
Qed.

(** With the templates ready, [renderAllContent] raises on every stored
    timeline document whose [mobileEra] is present without [events], on
    every page and whatever the other sections hold. *)
Lemma renderAllContent_aborts_without_mobile_events h a document mobileEra :
  TemplateRenderer.isReady (TemplateRenderer.this (renderer a)) = true ->
  data a !! "historical_events" = Some document ->
  truthy document = true ->
  get document "mobileEra" = Return mobileEra ->
  truthy mobileEra = true ->
  get mobileEra "events" = Return VUndefined ->
  exists e, (renderAllContent h a).1 = Throw e.
Proof.
  intros Hready Hdata Hdocument HmobileEra Htruthy Hevents.
  unfold renderAllContent, try_catch.
  assert (aborts (renderSection document "mobileEra"
                    (TemplateRenderer.renderMobileEra (page h)))) as Hmobile.
  { intros a'. unfold renderSection, bind, lift, onRenderer, zoom.
    rewrite HmobileEra, Htruthy.
    rewrite (renderMobileEra_without_events (page h) mobileEra) by done.
    by eexists. }
  assert (forall a', exists e,
            (bind (renderSection document "heroStats"
                     (TemplateRenderer.renderHeroStats (page h)))
               (fun _ =>
                  bind (renderSection document "foundationEra"
                          (TemplateRenderer.renderFoundationEra (page h)))
                    (fun _ =>
                       bind (renderSection document "mobileEra"
                               (TemplateRenderer.renderMobileEra (page h)))
                         (fun _ =>
                            bind (renderSection document "fintechEra"
                                    (TemplateRenderer.renderFintechEra (page h)))
                              (fun _ =>
                                 bind (onRenderer
                                         (TemplateRenderer.renderSidebarContent
                                            (page h) document))
                                   (fun _ => ret tt))))) a').1 = Throw e) as Hrest.
  { apply aborts_bind_r. intros _. apply aborts_bind_r. intros _.
    by apply aborts_bind_l. }
  unfold bind at 1. rewrite waitForTemplatesReady_ready by done.
  unfold bind at 1, gets at 1. cbv beta. rewrite Hdata.
  cbn [default from_option]. unfold id. rewrite Hdocument. cbn [negb].
  destruct (Hrest a) as [e He]. exists e.
  destruct (bind _ _ a) as [[x | e'] a']; cbn in *; [congruence | done].
Qed.

(** C3, evaluated on the code.  For the timeline document whose
    [mobileEra] has no [events], validation is downgraded as the
    specification says: one error, naming [mobileEra.events].  The
    document is stored and rendering starts, but [renderMobileEra] raises
    a TypeError on the missing array: the hero and foundation sections are
    the only ones rendered, the fintech era and the sidebar never are, and
    [startApp] ends in the error modal.  [renderFoundationEra] guards the
    read of its [events] and returns on a foundation era without them. *)
Theorem missing_events_aborts_rendering :
  let document := Fixtures.timelineWithoutMobileEvents in
  let h := Fixtures.serving document in
  let a := (startApp h (new Fixtures.timelineContent)).2 in
  JSONValidatorFacts.contentsOnNew document "historical_events"
  = Some (false, ["mobileEra.events must be an array"], VNull)
  /\ data a !! "historical_events" = Some document
  /\ TemplateRenderer.isReady (TemplateRenderer.this (renderer a)) = true
  /\ (renderAllContent h a).1
     = Throw (TypeError "Cannot read properties of undefined (reading 'find')")
  /\ (TemplateRenderer.call_target <$> TemplateRenderer.calls (renderer a))
     = [ TemplateRenderer.Selector "#heroStats";
         TemplateRenderer.Selector "#foundationMilestones";
         TemplateRenderer.Selector "#foundationStats";
         TemplateRenderer.Selector "#foundationTimeline" ]
  /\ hasErrors a = true
  /\ modalDisplay a = "flex"
  /\ modalMessage a
     = "An error occurred while loading the Pakistan Internet Timeline. Please try refreshing the page or contact support if the problem persists."
  /\ (TemplateRenderer.renderFoundationEra (page h)
        (VObj [("yearlyStats", VArr [])]) (renderer a)).1
     = Return (VBool true).
Proof.
  intros document h a.
  repeat split; vm_compute; reflexivity.
Qed.

(** The same pipeline on a document that validates: every optional file
    is missing, the pass completes, the overlay is hidden and no error is
    shown. *)
Example pipeline_completes_without_optional_files :
  let document := Fixtures.emptyTimeline in
  let '(r, a) := startApp (Fixtures.serving document) (new Fixtures.timelineContent) in
  r = Return tt
  /\ JSONValidatorFacts.contentsOnNew document "historical_events"
     = Some (true, [], VStr "Valid")
  /\ (map_to_list (data a)).*1 = ["historical_events"]
  /\ hasErrors a = false
  /\ overlayHidden a = true
  /\ length (TemplateRenderer.calls (renderer a)) = 7.
Proof. vm_compute. repeat split; reflexivity. Qed.

End PakistanTimelineAppFacts.

(** * Further properties of the code *)

(** ** The validator: what a result says about the document *)

Module ValidationResults.
Import JSONValidator JSONValidatorFacts.

(** [JSONValidator.quickValidate(data, source)] *)
Definition quickValidate (data : value) : bool :=
  if negb (truthy data) then false
  else if negb (String.eqb (typeof data) "object") then false
  else true.

(** The checks a kind runs before it builds its result: the body of the
    kind's method up to [return this.getValidationResult()].  [None] is
    the [default] branch of the [switch]. *)
Definition checksOf (jsonData : value) (dataType : string) : option (M validator unit) :=
  if String.eqb dataType "historical_events"
  then Some (checkArray jsonData "heroStats" "heroStats must be an array" "heroStats";;;
             checkEra jsonData "foundationEra" validateFoundationEra;;;
             checkEra jsonData "mobileEra" validateMobileEra;;;
             checkEra jsonData "fintechEra" validateFintechEra)
  else if String.eqb dataType "statistics" then Some (ret tt)
  else if String.eqb dataType "companies"
  then Some (checkArray jsonData "companies" "companies must be an array" "companies")
  else if String.eqb dataType "social_media"
  then Some (checkArray jsonData "platforms" "platforms must be an array"
                        "socialMediaPlatforms")
  else if String.eqb dataType "policies"
  then Some (checkArray jsonData "policies" "policies must be an array" "policies")
  else if String.eqb dataType "infrastructure"
  then Some (checkArray jsonData "infrastructure" "infrastructure must be an array"
                        "infrastructure")
  else None.

(** What a check does on a validator that has accumulated nothing: its
    outcome and the errors it pushes. *)
Definition outcomeOf {T} (m : M validator T) : completion T * list string :=
  let '(r, st) := m (during [] []) in (r, read st 0).

(** A check that returns [x] and pushes nothing. *)
Definition quiet {T} (m : M validator T) (x : T) : Prop :=
  forall older current, m (during older current) = (Return x, during older current).

Lemma pushes_outcomeOf {T} P (m : M validator T) :
  pushes P m ->
  forall older current,
    m (during older current)
    = ((outcomeOf m).1, during older (current ++ (outcomeOf m).2)).
Proof.
  intros (r & added & _ & Hrun) older current. unfold outcomeOf.
  rewrite (Hrun [] []). cbn [fst snd app].
  change (read (during [] added) 0) with added. apply Hrun.
Qed.

Lemma quiet_outcomeOf {T} P (m : M validator T) x :
  pushes P m -> quiet m x <-> outcomeOf m = (Return x, []).
Proof.
  intros Hm. split.
  - intros Hq. unfold outcomeOf. by rewrite Hq.
  - intros Ho older current. rewrite (pushes_outcomeOf P m Hm), Ho.
    cbn [fst snd]. by rewrite app_nil_r.
Qed.

Lemma quiet_ret {T} (x y : T) : quiet (ret x : M validator T) y <-> x = y.
Proof.
  split; [| by intros ->]. intros Hq. specialize (Hq [] []). by injection Hq.
Qed.

Lemma quiet_lift {T} (c : completion T) x : quiet (lift c) x <-> c = Return x.
Proof.
  split; [| by intros ->]. intros Hq. specialize (Hq [] []). by injection Hq.
Qed.

Lemma quiet_addError message : ~ quiet (addError message) tt.
Proof.
  intros Hq. specialize (Hq [] []).
  unfold addError, during in Hq. cbn in Hq. discriminate.
Qed.

Lemma quiet_bind {T U} (m : M validator T) (k : T -> M validator U) x y :
  quiet m x -> quiet (k x) y -> quiet (bind m k) y.
Proof. intros Hm Hk older current. unfold bind. by rewrite Hm, Hk. Qed.

Lemma quiet_bind_inv {T U} P (m : M validator T) (k : T -> M validator U) y :
  pushes P m -> (forall x, pushes P (k x)) ->
  quiet (bind m k) y -> exists x, quiet m x /\ quiet (k x) y.
Proof.
  intros Hm Hk Hq.
  pose proof (pushes_outcomeOf P m Hm) as Hrun.
  destruct (outcomeOf m) as [[x | e] added] eqn:Ho; cbn [fst snd] in Hrun.
  - pose proof (pushes_outcomeOf P (k x) (Hk x)) as Hrun'.
    destruct (outcomeOf (k x)) as [r' added'] eqn:Ho'; cbn [fst snd] in Hrun'.
    assert (r' = Return y /\ added ++ added' = []) as [-> Hnil].
    { specialize (Hq [] []). unfold bind in Hq. rewrite Hrun, Hrun' in Hq.
      injection Hq as -> Hst. done. }
    apply app_eq_nil in Hnil as [-> ->].
    exists x. split; intros older current.
    + rewrite Hrun. by rewrite app_nil_r.
    + rewrite Hrun'. by rewrite app_nil_r.
  - specialize (Hq [] []). unfold bind in Hq. rewrite Hrun in Hq. discriminate.
Qed.

Lemma quiet_forEach {T} P (f : T -> M validator unit) (l : list T) :
  (forall x, pushes P (f x)) ->
  quiet (forEach f l) tt <-> forall x, x ∈ l -> quiet (f x) tt.
Proof.
  intros Hf. induction l as [|x l IH]; cbn [forEach].
  - split; [intros _ x Hx; by apply elem_of_nil in Hx | intros _; by apply quiet_ret].
  - split.
    + intros Hq. apply (quiet_bind_inv P) in Hq as ([] & Hx & Hrest);
        [| done | intros; by apply pushes_forEach].
      intros y [-> | Hy]%elem_of_cons; [done | by apply IH].
    + intros Hall. eapply quiet_bind.
      * apply Hall, list_elem_of_here.
      * apply IH. intros y Hy. by apply Hall, list_elem_of_further.
Qed.

Lemma dispatch_checks jsonData dataType st :
  dispatch jsonData dataType st
  = match checksOf jsonData dataType with
    | Some checks => bind checks (fun _ => getValidationResult) st
    | None => validationFailed ("Unknown data type: " +:+ dataType) st
    end.
Proof.
  unfold dispatch, checksOf.
  destruct (String.eqb dataType "historical_events").
  { unfold validateHistoricalEvents, bind.
    destruct (checkArray jsonData "heroStats" _ _ st) as [[[] | e] st1]; [| done].
    destruct (checkEra jsonData "foundationEra" _ st1) as [[[] | e] st2]; [| done].
    destruct (checkEra jsonData "mobileEra" _ st2) as [[[] | e] st3]; [| done].
    done. }
  repeat (destruct (String.eqb dataType _); [reflexivity |]). reflexivity.
Qed.

Lemma pushes_checksOf jsonData dataType checks :
  is_object jsonData ->
  checksOf jsonData dataType = Some checks ->
  pushes in_null checks.
Proof.
  intros Hdata. unfold checksOf.
  destruct (String.eqb dataType "historical_events").
  { intros [= <-].
    apply pushes_bind; [by apply pushes_checkArray | intros ?; cbv beta].
    apply pushes_bind;
      [apply pushes_checkEra; [done | apply pushes_validateFoundationEra]
      | intros ?; cbv beta].
    apply pushes_bind;
      [apply pushes_checkEra; [done | apply pushes_validateMobileEra]
      | intros ?; cbv beta].
    apply pushes_checkEra; [done | apply pushes_validateFintechEra]. }
  repeat (destruct (String.eqb dataType _);
          [intros [= <-]; first [apply pushes_ret | by apply pushes_checkArray] |]).
  discriminate.
Qed.

(** The contents of a result that reports the single error [message]. *)
Definition failure (message : string) : bool * list string * value :=
  (false, [message], VNull).

(** The contents of the result of [validateJSONData], read off the
    guards, the kind and the outcome of the kind's checks. *)
Definition expected (jsonData : value) (dataType : string)
    : bool * list string * value :=
  if negb (truthy jsonData) then failure "JSON data is null or undefined"
  else if negb (String.eqb (typeof jsonData) "object")
  then failure "JSON data must be an object"
  else match checksOf jsonData dataType with
       | None => failure ("Unknown data type: " +:+ dataType)
       | Some checks =>
           match outcomeOf checks with
           | (Return _, errs) =>
               (Nat.eqb (length errs) 0, errs,
                if Nat.eqb (length errs) 0 then VStr "Valid" else VNull)
           | (Throw e, _) => failure ("Validation error: " +:+ message e)
           end
       end.

Lemma validationFailed_contents message older current :
  exists r st',
    validationFailed message (during older current) = (Return r, st')
    /\ contents st' r = failure message.
Proof.
  eexists _, _. rewrite validationFailed_during. split; [done |].
  unfold contents, read, failure. cbn [success errors data arrays].
  rewrite lookup_app_r; rewrite length_app; simpl; [| lia].
  by replace (S _ - _) with 0 by lia.
Qed.

Lemma validateJSONData_contents jsonData dataType st :
  exists r st',
    validateJSONData jsonData dataType st = (Return r, st')
    /\ contents st' r = expected jsonData dataType.
Proof.
  unfold validateJSONData, expected, bind at 1. rewrite resetErrors_during.
  destruct (truthy jsonData) eqn:Htruthy; cbn [negb];
    [| apply validationFailed_contents].
  destruct (String.eqb (typeof jsonData) "object") eqn:Hobject; cbn [negb];
    [| apply validationFailed_contents].
  unfold try_catch. rewrite dispatch_checks.
  destruct (checksOf jsonData dataType) as [checks |] eqn:Hchecks.
  - assert (pushes in_null checks) as Hpushes by by eapply pushes_checksOf.
    unfold bind. rewrite (pushes_outcomeOf _ _ Hpushes). cbn [app].
    destruct (outcomeOf checks) as [[[] | e] errs]; cbn [fst snd].
    + eexists _, _. split; [reflexivity |].
      unfold getValidationResult, contents. cbn [success errors data validationErrors].
      by rewrite read_during.
    + apply validationFailed_contents.
  - destruct (validationFailed_contents ("Unknown data type: " +:+ dataType)
                (arrays st) []) as (r & st' & -> & Hc).
    by exists r, st'.
Qed.

(** X1.  [validateJSONData] returns a result for every document and every
    kind, whatever state the validator is in: it never raises.  In the
    result, [success] is true exactly when the error list is empty, and
    [data] is ['Valid'] exactly then and [null] otherwise. *)
Theorem validation_result_is_consistent (jsonData : value) (dataType : string)
    (st : validator) :
  exists r st',
    validateJSONData jsonData dataType st = (Return r, st')
    /\ (success r = true <-> read st' (errors r) = [])
    /\ data r = (if success r then VStr "Valid" else VNull).
Proof.
  destruct (validateJSONData_contents jsonData dataType st) as (r & st' & Hrun & Hc).
  exists r, st'. split; [done |].
  unfold contents in Hc.
  assert (forall message, expected jsonData dataType = failure message ->
            (success r = true <-> read st' (errors r) = [])
            /\ data r = (if success r then VStr "Valid" else VNull)) as Hfailure.
  { intros message Hf. rewrite Hf in Hc. injection Hc as -> -> ->. done. }
  unfold expected in *.
  destruct (negb (truthy jsonData)); [by eapply Hfailure |].
  destruct (negb (String.eqb (typeof jsonData) "object")); [by eapply Hfailure |].
  destruct (checksOf jsonData dataType) as [checks |]; [| by eapply Hfailure].
  destruct (outcomeOf checks) as [[[] | e] errs]; [| by eapply Hfailure].
  injection Hc as -> -> ->. split; [| done].
  destruct errs; simpl; split; done.
Qed.

(** X2.  A document that [quickValidate] rejects is rejected by
    [validateJSONData] before its kind is looked at, with a single error:
    "null or undefined" for a falsy document (also [false], [0] and the
    empty string), "must be an object" for any other primitive. *)
Theorem rejected_before_dispatch (jsonData : value) (dataType : string)
    (st : validator) :
  quickValidate jsonData = false ->
  exists r st',
    validateJSONData jsonData dataType st = (Return r, st')
    /\ contents st' r
       = (false,
          [if truthy jsonData then "JSON data must be an object"
           else "JSON data is null or undefined"],
          VNull).
Proof.
  intros Hquick.
  destruct (validateJSONData_contents jsonData dataType st) as (r & st' & Hrun & Hc).
  exists r, st'. split; [done |]. rewrite Hc. unfold expected, quickValidate in *.
  destruct (truthy jsonData); cbn [negb] in *; [| done].
  destruct (String.eqb (typeof jsonData) "object"); cbn [negb] in *; done.
Qed.

Lemma rejected_before_dispatch_witness :
  quickValidate (VNum 0) = false
  /\ exists r st',
       validateJSONData (VNum 0) "companies" new = (Return r, st')
       /\ contents st' r = (false, ["JSON data is null or undefined"], VNull).
Proof.
  split; [reflexivity |].
  exact (rejected_before_dispatch (VNum 0) "companies" new eq_refl).
Defined.

(** The kinds [validateJSONData] knows. *)
Definition knownKinds : list string :=
  ["historical_events"; "statistics"; "companies"; "social_media"; "policies";
   "infrastructure"].

Lemma checksOf_known jsonData dataType :
  dataType ∈ knownKinds <-> is_Some (checksOf jsonData dataType).
Proof.
  unfold knownKinds. split.
  - intros Hin.
    repeat (apply elem_of_cons in Hin as [-> | Hin]);
      [cbv [checksOf String.eqb Ascii.eqb Bool.eqb]; eexists; reflexivity..
      | by apply elem_of_nil in Hin].
  - unfold checksOf.
    do 6 (match goal with
          | |- context [String.eqb dataType ?kind] =>
              destruct (String.eqb_spec dataType kind) as [-> | _]
          end;
          [intros _;
           repeat first [apply list_elem_of_here | apply list_elem_of_further] |]).
    intros [? [=]].
Qed.

(** X3.  For a document that passes the guards (an object or an array),
    a kind other than the six known ones yields a result with exactly one
    error, which names the kind; the document is not looked at. *)
Theorem unknown_kind_is_one_error (jsonData : value) (dataType : string)
    (st : validator) :
  quickValidate jsonData = true ->
  dataType ∉ knownKinds ->
  exists r st',
    validateJSONData jsonData dataType st = (Return r, st')
    /\ contents st' r = (false, ["Unknown data type: " +:+ dataType], VNull).
Proof.
  intros Hquick Hkind.
  destruct (validateJSONData_contents jsonData dataType st) as (r & st' & Hrun & Hc).
  exists r, st'. split; [done |]. rewrite Hc. unfold expected, quickValidate in *.
  destruct (truthy jsonData); cbn [negb] in *; [| done].
  destruct (String.eqb (typeof jsonData) "object"); cbn [negb] in *; [| done].
  destruct (checksOf jsonData dataType) as [checks |] eqn:Hchecks; [| done].
  exfalso. apply Hkind. apply (checksOf_known jsonData). by rewrite Hchecks.
Qed.

Lemma unknown_kind_is_one_error_witness :
  quickValidate (VObj []) = true
  /\ ("events" ∉ knownKinds)
  /\ exists r st',
       validateJSONData (VObj []) "events" new = (Return r, st')
       /\ contents st' r = (false, ["Unknown data type: events"], VNull).
Proof.
  assert ("events" ∉ knownKinds) as Hkind.
  { unfold knownKinds. intros Hin.
    repeat (apply elem_of_cons in Hin as [Heq | Hin]; [discriminate Heq |]).
    by apply elem_of_nil in Hin. }
  split; [reflexivity |]. split; [exact Hkind |].
  exact (unknown_kind_is_one_error (VObj []) "events" new eq_refl Hkind).
Defined.

(** X4.  The statistics kind has no checks: every document that passes
    the guards, whatever it holds, validates as statistics. *)
Theorem statistics_always_valid (jsonData : value) (st : validator) :
  quickValidate jsonData = true ->
  exists r st',
    validateJSONData jsonData "statistics" st = (Return r, st')
    /\ contents st' r = (true, [], VStr "Valid").
Proof.
  intros Hquick.
  destruct (validateJSONData_contents jsonData "statistics" st) as (r & st' & Hrun & Hc).
  exists r, st'. split; [done |]. rewrite Hc. unfold expected, quickValidate in *.
  destruct (truthy jsonData); cbn [negb] in *; [| done].
  destruct (String.eqb (typeof jsonData) "object"); cbn [negb] in *; done.
Qed.

Lemma statistics_always_valid_witness :
  quickValidate (VArr [VNull; VStr "not statistics"]) = true
  /\ exists r st',
       validateJSONData (VArr [VNull; VStr "not statistics"]) "statistics" new
       = (Return r, st')
       /\ contents st' r = (true, [], VStr "Valid").
Proof.
  split; [reflexivity |].
  exact (statistics_always_valid (VArr [VNull; VStr "not statistics"]) new eq_refl).
Defined.

(** Whether a value has the declared type: the test of
    [validateFieldType]. *)
Definition accepts (expectedType : option typeSpec) (v : value) : bool :=
  let actualType := if isArray v then "array" else typeof v in
  match expectedType with
  | Some (One t) => String.eqb actualType t
  | Some (OneOf ts) => existsb (String.eqb actualType) ts
  | None => false
  end.

(** An item that meets [requirements]: it is an object (not [null]),
    every required field is in it with a value of the declared type, and
    every field in it that has a declared type has a value of that type. *)
Definition conforms (requirements : requirements) (item : value) : Prop :=
  is_object item
  /\ (forall field, field ∈ required requirements ->
        has_property field item = Return true
        /\ exists v, get item field = Return v
                     /\ accepts (assoc field (types requirements)) v = true)
  /\ (forall fields field t,
        keys item = Return fields -> field ∈ fields ->
        assoc field (types requirements) = Some t ->
        exists v, get item field = Return v /\ accepts (Some t) v = true).

(** For an object literal, in terms of its properties. *)
Lemma conforms_object requirements props :
  conforms requirements (VObj props)
  <-> (forall field, field ∈ required requirements ->
         exists v, assoc field props = Some v
                   /\ accepts (assoc field (types requirements)) v = true)
      /\ (forall field t, field ∈ props.*1 ->
            assoc field (types requirements) = Some t ->
            accepts (Some t) (default VUndefined (assoc field props)) = true).
Proof.
  unfold conforms. cbn [has_property get keys]. split.
  - intros (_ & Hrequired & Hpresent). split.
    + intros field Hfield. destruct (Hrequired field Hfield) as ([= Hin] & v & [= <-] & Hv).
      apply bool_decide_eq_true in Hin as [v Hv'].
      rewrite Hv' in *. by exists v.
    + intros field t Hfield Ht.
      destruct (Hpresent _ field t eq_refl Hfield Ht) as (v & [= <-] & Hv). done.
  - intros [Hrequired Hpresent]. split; [done |]. split.
    + intros field Hfield. destruct (Hrequired field Hfield) as (v & Hv & Hok).
      rewrite Hv. split; [f_equal; by apply bool_decide_eq_true | by exists v].
    + intros fields field t [= <-] Hfield Ht. eexists. split; [done |].
      by apply Hpresent.
Qed.

Lemma quiet_validateFieldType v t fieldPath :
  quiet (validateFieldType v t fieldPath) tt <-> accepts t v = true.
Proof.
  unfold validateFieldType, accepts.
  destruct t as [[t | ts] |].
  - destruct (String.eqb _ t); cbn [negb].
    + by rewrite quiet_ret.
    + split; [intros Hq; by apply quiet_addError in Hq | done].
  - destruct (existsb _ ts); cbn [negb].
    + by rewrite quiet_ret.
    + split; [intros Hq; by apply quiet_addError in Hq | done].
  - split; [intros Hq; by apply quiet_addError in Hq | done].
Qed.

Lemma quiet_validateItemStructure item itemType itemPath requirements :
  assoc itemType getRequiredFields = Some requirements ->
  quiet (validateItemStructure item itemType itemPath) tt
  <-> conforms requirements item.
Proof.
  intros Hreq. unfold validateItemStructure.
  destruct (String.eqb (typeof item) "object") eqn:Hobject; cbn [negb];
    [| split; [intros Hq; by apply quiet_addError in Hq
              | intros [[_ Ho] _]; congruence]].
  rewrite Hreq.
  destruct (truthy item) eqn:Htruthy.
  2:{ assert (item = VNull) as -> by (destruct item; simpl in *; congruence).
      split; [| intros [[Ht _] _]; discriminate].
      intros Hq. exfalso.
      destruct (raises_validateItemStructure_null itemType itemPath _ Hreq)
        as (e & added & _ & Hrun).
      unfold validateItemStructure in Hrun. cbn -[getRequiredFields] in Hrun.
      rewrite Hreq in Hrun. specialize (Hq [] []). rewrite Hrun in Hq.
      discriminate. }
  assert (is_object item) as Hitem by done.
  set (checkRequired := fun field : string =>
         present <- lift (has_property field item);;
         if negb present
         then addError (itemPath +:+ " missing required field: " +:+ field)
         else v <- lift (get item field);;
              validateFieldType v (assoc field (types requirements))
                                (itemPath +:+ "." +:+ field)).
  set (checkPresent := fun field : string =>
         match assoc field (types requirements) with
         | Some t => v <- lift (get item field);;
                     validateFieldType v (Some t) (itemPath +:+ "." +:+ field)
         | None => ret tt
         end).
  assert (forall field, pushes in_null (checkRequired field)) as HpushR.
  { intros field. apply pushes_bind; [by apply pushes_returning, is_object_has_property |].
    intros present. destruct (negb present); [apply pushes_addError |].
    apply pushes_bind; [by apply pushes_returning, is_object_get |].
    intros v. apply pushes_validateFieldType. }
  assert (forall field, pushes in_null (checkPresent field)) as HpushP.
  { intros field. unfold checkPresent.
    destruct (assoc field (types requirements)); [| apply pushes_ret].
    apply pushes_bind; [by apply pushes_returning, is_object_get |].
    intros v. apply pushes_validateFieldType. }
  assert (forall field,
            quiet (checkRequired field) tt
            <-> has_property field item = Return true
                /\ exists v, get item field = Return v
                   /\ accepts (assoc field (types requirements)) v = true) as HquietR.
  { intros field. split.
    - intros Hq. apply (quiet_bind_inv in_null) in Hq as (present & Hp & Hq);
        [| by apply pushes_returning, is_object_has_property
         | intros present; destruct (negb present); [apply pushes_addError |];
           apply pushes_bind; [by apply pushes_returning, is_object_get |];
           intros v; apply pushes_validateFieldType].
      apply quiet_lift in Hp. destruct present; cbn [negb] in Hq;
        [| by apply quiet_addError in Hq].
      split; [done |].
      apply (quiet_bind_inv in_null) in Hq as (v & Hv & Hq);
        [| by apply pushes_returning, is_object_get
         | intros; apply pushes_validateFieldType].
      apply quiet_lift in Hv. apply quiet_validateFieldType in Hq. by exists v.
    - intros (Hp & v & Hv & Hok). unfold checkRequired.
      eapply quiet_bind; [by apply quiet_lift |]. cbn [negb].
      eapply quiet_bind; [by apply quiet_lift |].
      by apply quiet_validateFieldType. }
  assert (forall field,
            quiet (checkPresent field) tt
            <-> forall t, assoc field (types requirements) = Some t ->
                  exists v, get item field = Return v /\ accepts (Some t) v = true)
    as HquietP.
  { intros field. unfold checkPresent.
    destruct (assoc field (types requirements)) as [t |].
    - split.
      + intros Hq t' [= <-].
        apply (quiet_bind_inv in_null) in Hq as (v & Hv & Hq);
          [| by apply pushes_returning, is_object_get
           | intros; apply pushes_validateFieldType].
        apply quiet_lift in Hv. apply quiet_validateFieldType in Hq. by exists v.
      + intros Hall. destruct (Hall t eq_refl) as (v & Hv & Hok).
        eapply quiet_bind; [by apply quiet_lift |].
        by apply quiet_validateFieldType.
    - split; [intros _ t [=] | intros _; by apply quiet_ret]. }
  destruct (is_object_keys item Hitem) as [fields Hkeys].
  change (quiet (bind (forEach checkRequired (required requirements))
                   (fun _ => fields <- lift (keys item);;
                             forEach checkPresent fields)) tt
          <-> conforms requirements item).
  unfold conforms. split.
  - intros Hq. apply (quiet_bind_inv in_null) in Hq as ([] & HqR & Hq);
      [| by apply pushes_forEach
       | intros _; apply pushes_bind;
         [by apply pushes_returning, is_object_keys
         | intros; by apply pushes_forEach]].
    apply (quiet_bind_inv in_null) in Hq as (fields' & Hf & HqP);
      [| by apply pushes_returning, is_object_keys | intros; by apply pushes_forEach].
    apply quiet_lift in Hf.
    pose proof (proj1 (quiet_forEach in_null _ _ HpushR) HqR) as HallR.
    pose proof (proj1 (quiet_forEach in_null _ _ HpushP) HqP) as HallP.
    split; [done |]. split.
    + intros field Hfield. by apply HquietR, HallR.
    + intros fields'' field t Hf' Hfield Ht.
      rewrite Hf in Hf'. injection Hf' as <-.
      exact (proj1 (HquietP field) (HallP field Hfield) t Ht).
  - intros (_ & Hrequired & Hpresent).
    eapply quiet_bind.
    + apply (proj2 (quiet_forEach in_null _ _ HpushR)).
      intros field Hfield. by apply HquietR, Hrequired.
    + eapply quiet_bind; [by apply quiet_lift |].
      apply (proj2 (quiet_forEach in_null _ _ HpushP)).
      intros field Hfield. apply HquietP. intros t Ht. by eapply Hpresent.
Qed.

Lemma quiet_validateArrayItems items itemType requirements :
  assoc itemType getRequiredFields = Some requirements ->
  quiet (validateArrayItems (VArr items) itemType) tt
  <-> Forall (conforms requirements) items.
Proof.
  intros Hreq. unfold validateArrayItems.
  rewrite (quiet_forEach in_null);
    [| intros [index item]; apply pushes_validateItemStructure].
  rewrite Forall_forall. split.
  - intros Hall item [index Hindex]%list_elem_of_lookup.
    apply (quiet_validateItemStructure item itemType
             (itemType +:+ "[" +:+ pretty index +:+ "]")); [done |].
    apply (Hall (index, item)). apply list_elem_of_lookup. exists index.
    by rewrite list_lookup_imap, Hindex.
  - intros Hall [index item] [i Hi]%list_elem_of_lookup.
    rewrite list_lookup_imap in Hi.
    destruct (items !! i) as [item' |] eqn:Hitem; [| done].
    injection Hi as <- <-.
    apply (quiet_validateItemStructure item' itemType _ requirements); [done |].
    apply Hall. apply list_elem_of_lookup. by exists i.
Qed.

Lemma quiet_checkArray owner field message itemType requirements :
  is_object owner ->
  assoc itemType getRequiredFields = Some requirements ->
  quiet (checkArray owner field message itemType) tt
  <-> exists items, get owner field = Return (VArr items)
                    /\ Forall (conforms requirements) items.
Proof.
  intros Howner Hreq. unfold checkArray.
  destruct (is_object_get owner field Howner) as [v Hv]. split.
  - intros Hq. apply (quiet_bind_inv in_null) in Hq as (v' & Hv' & Hq);
      [| by apply pushes_returning, is_object_get
       | intros v'; destruct (_ || _);
         [apply pushes_addError | apply pushes_validateArrayItems]].
    apply quiet_lift in Hv'.
    destruct (negb (truthy v') || negb (isArray v')) eqn:Hguard;
      [by apply quiet_addError in Hq |].
    destruct v' as [| | | | | items |]; cbn [isArray negb] in Hguard;
      rewrite ?orb_true_r in Hguard; try discriminate Hguard.
    exists items. split; [done |]. by apply (quiet_validateArrayItems items itemType).
  - intros (items & Hget & Hall).
    eapply quiet_bind; [by apply quiet_lift |]. cbn [truthy isArray negb orb].
    exact (proj2 (quiet_validateArrayItems items itemType requirements Hreq) Hall).
Qed.

(** The property names every object inherits from [Object.prototype].
    The validator looks a field's declared type up with
    [requirements.types[field]], which finds these names too; the registry
    is embedded with its own entries only, so the statements below are
    about items none of whose keys is one of these names. *)
Definition inheritedNames : list string :=
  [ "constructor"; "hasOwnProperty"; "isPrototypeOf"; "propertyIsEnumerable";
    "toLocaleString"; "toString"; "valueOf"; "__proto__";
    "__defineGetter__"; "__defineSetter__"; "__lookupGetter__"; "__lookupSetter__" ].

Definition plainKeys (item : value) : bool :=
  match keys item with
  | Return fields =>
      forallb (fun field => negb (existsb (String.eqb field) inheritedNames)) fields
  | Throw _ => true
  end.

(** The items of the array [owner.field], if it is one, have plain keys. *)
Definition plainItems (owner : value) (field : string) : bool :=
  match get owner field with
  | Return (VArr items) => forallb plainKeys items
  | _ => true
  end.

(** The kinds whose document is one array of entities: the kind, the
    field that holds the array, the type of its items. *)
Definition arrayKinds : list (string * string * string) :=
  [ ("companies", "companies", "companies");
    ("social_media", "platforms", "socialMediaPlatforms");
    ("policies", "policies", "policies");
    ("infrastructure", "infrastructure", "infrastructure") ].

(** X5.  For each of the four kinds whose document is one array of
    entities, and a document whose items have plain keys, validation
    succeeds exactly when the named field of the document is an array and
    every element of it conforms to the requirements the registry has for
    its item type. *)
Theorem array_kind_valid_iff_conforming (dataType field itemType : string)
    (requirements : requirements) (jsonData : value) (st : validator) :
  (dataType, field, itemType) ∈ arrayKinds ->
  assoc itemType getRequiredFields = Some requirements ->
  plainItems jsonData field = true ->
  exists r st',
    validateJSONData jsonData dataType st = (Return r, st')
    /\ (success r = true
        <-> exists items, get jsonData field = Return (VArr items)
                          /\ Forall (conforms requirements) items).
Proof.
  intros Hkind Hreq _.
  destruct (validateJSONData_contents jsonData dataType st) as (r & st' & Hrun & Hc).
  exists r, st'. split; [done |].
  assert (success r = (expected jsonData dataType).1.1) as -> by by rewrite <- Hc.
  unfold expected.
  destruct (truthy jsonData) eqn:Htruthy; cbn [negb].
  2:{ split; [done |]. intros (items & Hget & _).
      apply get_array_is_object in Hget as [? _]. congruence. }
  destruct (String.eqb (typeof jsonData) "object") eqn:Hobject; cbn [negb].
  2:{ split; [done |]. intros (items & Hget & _).
      apply get_array_is_object in Hget as [_ ?]. congruence. }
  assert (is_object jsonData) as Hdata by done.
  assert (checksOf jsonData dataType
          = Some (checkArray jsonData field (field +:+ " must be an array") itemType))
    as ->.
  { unfold arrayKinds in Hkind.
    repeat (apply elem_of_cons in Hkind as [[= -> -> ->] | Hkind]); try done.
    by apply elem_of_nil in Hkind. }
  rewrite <- (quiet_checkArray jsonData field (field +:+ " must be an array")
                itemType requirements Hdata Hreq).
  rewrite (quiet_outcomeOf in_null) by by apply pushes_checkArray.
  destruct (outcomeOf _) as [[[] | e] errs]; cbn [fst]; [| done].
  destruct errs; cbn; split; (done || congruence).
Qed.

Lemma array_kind_valid_iff_conforming_witness :
  let entry := VObj [("name", VStr "Jazz"); ("marketShare", VNum 38);
                     ("subscribers", VStr "70M"); ("logo", VBool true)] in
  let document := VObj [("companies", VArr [entry])] in
  ("companies", "companies", "companies") ∈ arrayKinds
  /\ plainItems document "companies" = true
  /\ exists requirements,
       assoc "companies" getRequiredFields = Some requirements
       /\ conforms requirements entry
       /\ exists r st',
            validateJSONData document "companies" new = (Return r, st')
            /\ (success r = true
                <-> exists items, get document "companies" = Return (VArr items)
                                  /\ Forall (conforms requirements) items).
Proof.
  intros entry document.
  assert (("companies", "companies", "companies") ∈ arrayKinds) as Hkind
    by apply list_elem_of_here.
  split; [exact Hkind |]. split; [reflexivity |].
  eexists. split; [reflexivity |]. split.
  - apply conforms_object. split.
    + intros field Hfield. cbn in Hfield.
      repeat (apply elem_of_cons in Hfield as [-> | Hfield]);
        try (by apply elem_of_nil in Hfield); by eexists.
    + intros field t Hfield Ht. cbn in Hfield.
      repeat (apply elem_of_cons in Hfield as [-> | Hfield]);
        try (by apply elem_of_nil in Hfield); cbn in Ht; by simplify_eq.
  - exact (array_kind_valid_iff_conforming "companies" "companies" "companies" _
             document new Hkind eq_refl eq_refl).
Defined.

(** The items of an array conform to what the registry requires of
    [itemType]. *)
Definition itemsConform (itemType : string) (items : list value) : Prop :=
  exists requirements,
    assoc itemType getRequiredFields = Some requirements
    /\ Forall (conforms requirements) items.

(** [owner.field] is an array whose items conform to [itemType]. *)
Definition holdsArrayOf (owner : value) (field itemType : string) : Prop :=
  exists items, get owner field = Return (VArr items) /\ itemsConform itemType items.

(** [owner.field] is an array, of anything. *)
Definition holdsArray (owner : value) (field : string) : Prop :=
  exists items, get owner field = Return (VArr items).

(** [data.field] is an object (not [null]) that satisfies [P]. *)
Definition holdsEra (data : value) (field : string) (P : value -> Prop) : Prop :=
  exists era, get data field = Return era /\ is_object era /\ P era.

(** The items of the arrays whose items [validateHistoricalEvents] looks
    at have plain keys. *)
Definition plainEra (data : value) (field : string) (arrays : list string) : bool :=
  match get data field with
  | Return era => forallb (plainItems era) arrays
  | Throw _ => true
  end.

Definition plainTimeline (data : value) : bool :=
  plainItems data "heroStats"
  && plainEra data "foundationEra" ["events"; "yearlyStats"]
  && plainEra data "mobileEra" ["events"; "socialMediaGrowth"]
  && plainEra data "fintechEra" ["events"].

(** A timeline document as [validateHistoricalEvents] wants it. *)
Definition wellFormedTimeline (data : value) : Prop :=
  holdsArrayOf data "heroStats" "heroStats"
  /\ holdsEra data "foundationEra" (fun era =>
        holdsArrayOf era "events" "historicalEvents"
        /\ holdsArrayOf era "yearlyStats" "yearlyStats")
  /\ holdsEra data "mobileEra" (fun era =>
        holdsArrayOf era "events" "historicalEvents"
        /\ holdsArrayOf era "socialMediaGrowth" "socialMediaPlatforms")
  /\ holdsEra data "fintechEra" (fun era =>
        holdsArrayOf era "events" "historicalEvents"
        /\ holdsArray era "mobileBanking"
        /\ holdsArray era "investmentBoom").

Lemma quiet_checkArray_known owner field message itemType requirements :
  is_object owner ->
  assoc itemType getRequiredFields = Some requirements ->
  quiet (checkArray owner field message itemType) tt
  <-> holdsArrayOf owner field itemType.
Proof.
  intros Howner Hreq. rewrite (quiet_checkArray _ _ _ _ requirements) by done.
  unfold holdsArrayOf, itemsConform. split.
  - intros (items & Hget & Hall). exists items. split; [done |]. by exists requirements.
  - intros (items & Hget & requirements' & Hreq' & Hall).
    exists items. split; [done |]. congruence.
Qed.

Lemma quiet_requireArray owner field message :
  is_object owner ->
  quiet (requireArray owner field message) tt <-> holdsArray owner field.
Proof.
  intros Howner. unfold requireArray, holdsArray. split.
  - intros Hq. apply (quiet_bind_inv in_null) in Hq as (v & Hv & Hq);
      [| by apply pushes_returning, is_object_get
       | intros v; destruct (_ || _); [apply pushes_addError | apply pushes_ret]].
    apply quiet_lift in Hv.
    destruct (negb (truthy v) || negb (isArray v)) eqn:Hguard;
      [by apply quiet_addError in Hq |].
    destruct v as [| | | | | items |]; cbn [isArray negb] in Hguard;
      rewrite ?orb_true_r in Hguard; try discriminate Hguard.
    by exists items.
  - intros (items & Hget).
    eapply quiet_bind; [by apply quiet_lift |]. by apply quiet_ret.
Qed.

Lemma quiet_checkEra data field validateEra (P : value -> Prop) :
  is_object data ->
  (forall era, is_object era -> pushes in_null (validateEra era)) ->
  (forall era, is_object era -> quiet (validateEra era) tt <-> P era) ->
  quiet (checkEra data field validateEra) tt <-> holdsEra data field P.
Proof.
  intros Hdata Hpushes HP. unfold checkEra, holdsEra. split.
  - intros Hq. apply (quiet_bind_inv in_null) in Hq as (era & Hera & Hq);
      [| by apply pushes_returning, is_object_get
       | intros era; destruct (truthy era) eqn:Ht; [| apply pushes_addError];
         destruct (String.eqb (typeof era) "object") eqn:Ho; [| apply pushes_addError];
         by apply Hpushes].
    apply quiet_lift in Hera.
    destruct (truthy era) eqn:Ht; [| by apply quiet_addError in Hq].
    destruct (String.eqb (typeof era) "object") eqn:Ho;
      [| by apply quiet_addError in Hq].
    exists era. split; [done |]. split; [done |]. by apply HP.
  - intros (era & Hget & [Ht Ho] & HPera).
    eapply quiet_bind; [by apply quiet_lift |]. rewrite Ht, Ho. by apply HP.
Qed.

Lemma quiet_seq (m k : M validator unit) (A B : Prop) :
  pushes in_null m -> pushes in_null k ->
  (quiet m tt <-> A) -> (quiet k tt <-> B) ->
  quiet (bind m (fun _ => k)) tt <-> A /\ B.
Proof.
  intros Hm Hk HA HB. split.
  - intros Hq. apply (quiet_bind_inv in_null) in Hq as ([] & Hqm & Hqk); [| done..].
    split; [by apply HA | by apply HB].
  - intros [Ha Hb]. eapply quiet_bind; [by apply HA | by apply HB].
Qed.

(** X6.  A timeline document whose items have plain keys validates
    exactly when [heroStats] is an
    array of conforming stat cards, each of the three eras is an object
    whose [events] is an array of conforming events, [yearlyStats] and
    [socialMediaGrowth] are arrays of conforming items, and the two
    fintech collections are arrays; what the two fintech collections hold
    is not checked. *)
Theorem timeline_valid_iff_well_formed (jsonData : value) (st : validator) :
  plainTimeline jsonData = true ->
  exists r st',
    validateJSONData jsonData "historical_events" st = (Return r, st')
    /\ (success r = true <-> wellFormedTimeline jsonData).
Proof.
  intros _.
  destruct (validateJSONData_contents jsonData "historical_events" st)
    as (r & st' & Hrun & Hc).
  exists r, st'. split; [done |].
  assert (success r = (expected jsonData "historical_events").1.1) as ->
    by by rewrite <- Hc.
  unfold expected.
  destruct (truthy jsonData) eqn:Htruthy; cbn [negb].
  2:{ split; [done |]. intros [(items & Hget & _) _].
      apply get_array_is_object in Hget as [? _]. congruence. }
  destruct (String.eqb (typeof jsonData) "object") eqn:Hobject; cbn [negb].
  2:{ split; [done |]. intros [(items & Hget & _) _].
      apply get_array_is_object in Hget as [_ ?]. congruence. }
  assert (is_object jsonData) as Hdata by done.
  change (checksOf jsonData "historical_events")
    with (Some (checkArray jsonData "heroStats" "heroStats must be an array" "heroStats";;;
                checkEra jsonData "foundationEra" validateFoundationEra;;;
                checkEra jsonData "mobileEra" validateMobileEra;;;
                checkEra jsonData "fintechEra" validateFintechEra)).
  cbv iota.
  assert (forall era, is_object era ->
            quiet (validateFoundationEra era) tt
            <-> holdsArrayOf era "events" "historicalEvents"
                /\ holdsArrayOf era "yearlyStats" "yearlyStats") as Hfoundation.
  { intros era Hera. apply quiet_seq; try by apply pushes_checkArray.
    - by eapply quiet_checkArray_known.
    - by eapply quiet_checkArray_known. }
  assert (forall era, is_object era ->
            quiet (validateMobileEra era) tt
            <-> holdsArrayOf era "events" "historicalEvents"
                /\ holdsArrayOf era "socialMediaGrowth" "socialMediaPlatforms")
    as Hmobile.
  { intros era Hera. apply quiet_seq; try by apply pushes_checkArray.
    - by eapply quiet_checkArray_known.
    - by eapply quiet_checkArray_known. }
  assert (forall era, is_object era ->
            quiet (validateFintechEra era) tt
            <-> holdsArrayOf era "events" "historicalEvents"
                /\ holdsArray era "mobileBanking"
                /\ holdsArray era "investmentBoom") as Hfintech.
  { intros era Hera. apply quiet_seq.
    - by apply pushes_checkArray.
    - apply pushes_bind; intros; by apply pushes_requireArray.
    - by eapply quiet_checkArray_known.
    - apply quiet_seq; try by apply pushes_requireArray.
      + by apply quiet_requireArray.
      + by apply quiet_requireArray. }
  assert (pushes in_null
            (checkArray jsonData "heroStats" "heroStats must be an array" "heroStats";;;
             checkEra jsonData "foundationEra" validateFoundationEra;;;
             checkEra jsonData "mobileEra" validateMobileEra;;;
             checkEra jsonData "fintechEra" validateFintechEra)) as Hpushes.
  { by apply (pushes_checksOf jsonData "historical_events"). }
  assert (quiet
            (checkArray jsonData "heroStats" "heroStats must be an array" "heroStats";;;
             checkEra jsonData "foundationEra" validateFoundationEra;;;
             checkEra jsonData "mobileEra" validateMobileEra;;;
             checkEra jsonData "fintechEra" validateFintechEra) tt
          <-> wellFormedTimeline jsonData) as <-.
  { unfold wellFormedTimeline.
    apply quiet_seq; [by apply pushes_checkArray | | by eapply quiet_checkArray_known |].
    { apply pushes_bind;
        [apply pushes_checkEra; [done | apply pushes_validateFoundationEra] | intros ?].
      apply pushes_bind;
        [apply pushes_checkEra; [done | apply pushes_validateMobileEra] | intros ?].
      apply pushes_checkEra; [done | apply pushes_validateFintechEra]. }
    apply quiet_seq;
      [apply pushes_checkEra; [done | apply pushes_validateFoundationEra] |
      | apply quiet_checkEra; [done | apply pushes_validateFoundationEra | done] |].
    { apply pushes_bind;
        [apply pushes_checkEra; [done | apply pushes_validateMobileEra] | intros ?].
      apply pushes_checkEra; [done | apply pushes_validateFintechEra]. }
    apply quiet_seq;
      [apply pushes_checkEra; [done | apply pushes_validateMobileEra]
      | apply pushes_checkEra; [done | apply pushes_validateFintechEra]
      | apply quiet_checkEra; [done | apply pushes_validateMobileEra | done]
      | apply quiet_checkEra; [done | apply pushes_validateFintechEra | done]]. }
  rewrite (quiet_outcomeOf in_null) by done.
  destruct (outcomeOf _) as [[[] | e] errs]; cbn [fst]; [| done].
  destruct errs; cbn; split; (done || congruence).
Qed.

(** A timeline with one stat card and one event in each era. *)
Lemma timeline_valid_iff_well_formed_witness :
  let card := VObj [("icon", VStr "📶"); ("title", VStr "Users");
                    ("value", VStr "116M"); ("description", VStr "online")] in
  let event := VObj [("date", VStr "2006"); ("title", VStr "PTCL Privatization");
                     ("description", VStr "Etisalat takes over")] in
  let document :=
    VObj [ ("heroStats", VArr [card]);
           ("foundationEra", VObj [("events", VArr [event]); ("yearlyStats", VArr [])]);
           ("mobileEra", VObj [("events", VArr [event]);
                               ("socialMediaGrowth", VArr [])]);
           ("fintechEra", VObj [("events", VArr [event]); ("mobileBanking", VArr []);
                                ("investmentBoom", VArr [])]) ] in
  plainTimeline document = true
  /\ contentsOnNew document "historical_events" = Some (true, [], VStr "Valid")
  /\ exists r st',
       validateJSONData document "historical_events" new = (Return r, st')
       /\ (success r = true <-> wellFormedTimeline document).
Proof.
  intros card event document. split; [reflexivity |].
  split; [vm_compute; reflexivity |].
  exact (timeline_valid_iff_well_formed document new eq_refl).
Defined.

End ValidationResults.

(** ** The loader: one response, and the retry loop *)

Module RetryLoop.
Import PakistanTimelineApp PakistanTimelineAppFacts.

(** A network that drops the first request of the session and serves an
    empty object from then on. *)
Definition dropsFirst : nat -> string -> fetchResult :=
  fun n _ => if (n =? 0)%nat then Rejected (TypeError "Failed to fetch")
             else Response 200 "OK" "{}".

Definition dropsFirstHost : host :=
  {| page := Fixtures.timelinePage;
     JSON_parse := Fixtures.parseStub;
     fetch := dropsFirst |}.

(** The events of [failed] failed attempts, the first of them numbered
    [first], each followed by its wait, and then of one more attempt. *)
Definition retried (filePath : string) (step first failed : nat) : list event :=
  concat ((fun i => [Fetched filePath i; Delayed (step * i)]) <$> seq first failed)
  ++ [Fetched filePath (first + failed)].

(** What one [loadJSONFile] call may add to the timeline: requests for
    its own file, and waits no longer than the wait before the last
    attempt. *)
Definition withinBudget (filePath : string) (c : config) (ev : event) : Prop :=
  match ev with
  | Fetched p _ => p = filePath
  | Delayed ms => ms <= retryDelay c * (retryAttempts c - 1)
  end.

Section Loader.
Variable h : host.

(** X7.  A response is accepted exactly when its status is in 200..299,
    its body is not empty and [JSON.parse] returns on the body; the value
    is what [JSON.parse] returned.  Every other response, and a rejected
    request, is a failed attempt, with the error of the rejection, or the
    status line, or the fixed text for an empty body, or the message of the
    parser after 'JSON parse error: '. *)
Theorem response_accepted_iff (r : fetchResult) :
  (forall v,
     responseOutcome h r = Return v
     <-> exists status statusText body,
           r = Response status statusText body
           /\ 200 <= status <= 299
           /\ body <> EmptyString
           /\ JSON_parse h body = Return v)
  /\ (forall e,
        responseOutcome h r = Throw e ->
        match r with
        | Rejected rejection => e = rejection
        | Response status statusText body =>
            (~ 200 <= status <= 299
             /\ e = Error ("HTTP " +:+ pretty status +:+ ": " +:+ statusText))
            \/ (body = EmptyString
                /\ e = Error "JSON string is empty or not a string")
            \/ (exists parseError,
                  JSON_parse h body = Throw parseError
                  /\ e = Error ("JSON parse error: " +:+ message parseError))
        end).
Proof.
  destruct r as [rejection | status statusText body].
  - split; [| by intros e [= <-]].
    intros v. split; [done |]. by intros (? & ? & ? & [=] & _).
  - unfold responseOutcome, ok, JSONValidator.validateJSONString.
    destruct (Nat.leb_spec 200 status) as [Hlow | Hlow];
      [destruct (Nat.leb_spec status 299) as [Hhigh | Hhigh] |];
      cbn [andb negb].
    2,3: split;
      [intros v; split; [done |];
       intros (? & ? & ? & [= <- <- <-] & [? ?] & _); lia
      |intros e [= <-]; left; split; [lia | done]].
    destruct (String.eqb_spec body EmptyString) as [-> | Hbody];
      cbn [JSONValidator.parse_success JSONValidator.parse_error
           JSONValidator.parse_data negb default from_option].
    { split; [| intros e [= <-]; right; by left].
      intros v. split; [done |]. by intros (? & ? & ? & [= <- <- <-] & _ & ? & _). }
    destruct (JSON_parse h body) as [parsed | parseError] eqn:Hparse;
      cbn [JSONValidator.parse_success JSONValidator.parse_error
           JSONValidator.parse_data negb default from_option].
    + split; [| done]. intros v. split.
      * intros [= <-]. by exists status, statusText, body.
      * intros (? & ? & ? & [= <- <- <-] & _ & _ & Hv). congruence.
    + split.
      * intros v. split; [done |].
        intros (? & ? & ? & [= <- <- <-] & _ & _ & Hv). congruence.
      * intros e [= <-]. right. right. by exists parseError.
Qed.

(** The loop when the next [failed] attempts fail and the one after them
    succeeds within the budget. *)
Lemma attemptLoop_first_success filePath parsed failed :
  forall err remaining attempt lastError a,
    attempt + remaining = S (retryAttempts (cfg a)) ->
    failed < remaining ->
    (forall k, k < failed ->
               responseOutcome h (fetch h (fetches a + k) filePath) = Throw (err k)) ->
    responseOutcome h (fetch h (fetches a + failed) filePath) = Return parsed ->
    attemptLoop h remaining attempt filePath lastError a
    = (Return (inl parsed),
       with_world (fetches a + S failed)
         (timeline a ++ retried filePath (retryDelay (cfg a)) attempt failed) a).
Proof.
  induction failed as [|failed IH];
    intros err remaining attempt lastError a Hsum Hfailed Hfail Hok;
    (destruct remaining as [|remaining]; [lia |]);
    cbn [attemptLoop]; unfold try_catch, bind; rewrite fetchAndParse_run.
  - rewrite Nat.add_0_r in Hok. rewrite Hok. unfold ret, retried.
    cbn [seq fmap list_fmap concat]. rewrite app_nil_l, Nat.add_0_r.
    do 2 f_equal. lia.
  - pose proof (Hfail 0 ltac:(lia)) as Hfirst. rewrite Nat.add_0_r in Hfirst.
    rewrite Hfirst. unfold gets. cbv beta.
    cbn [cfg with_world].
    replace (attempt <? retryAttempts (cfg a))%nat with true
      by (symmetry; apply Nat.ltb_lt; lia).
    unfold delay, modify. cbv beta.
    match goal with
    | |- attemptLoop h ?r ?n filePath ?l ?b = _ =>
        rewrite (IH (fun k => err (S k)) r n l b)
    end.
    + unfold with_world, retried. cbn -[Nat.mul].
      do 2 f_equal; [lia |].
      rewrite <- !app_assoc. cbn -[Nat.mul].
      by replace (attempt + S failed) with (S (attempt + failed)) by lia.
    + cbn. lia.
    + lia.
    + intros k Hk. cbn [fetches with_world].
      replace (S (fetches a) + k) with (fetches a + S k) by lia.
      apply Hfail. lia.
    + cbn [fetches with_world].
      replace (S (fetches a) + failed) with (fetches a + S failed) by lia. done.
Qed.

(** X8.  When the first [failed] attempts of a call fail and the next
    one, still within the budget, is accepted, [loadJSONFile] returns the
    document of that response, for a mandatory and an optional file alike.
    It has made [failed + 1] requests, has waited [retryDelay * i] after
    the failed attempt [i], and does not wait after the accepted one. *)
Theorem load_returns_first_success (filePath : string) (err : nat -> error)
    (parsed : value) (failed : nat) (a : app) :
  failed < retryAttempts (cfg a) ->
  (forall k, k < failed ->
             responseOutcome h (fetch h (fetches a + k) filePath) = Throw (err k)) ->
  responseOutcome h (fetch h (fetches a + failed) filePath) = Return parsed ->
  loadJSONFile h filePath a
  = (Return parsed,
     with_world (fetches a + S failed)
       (timeline a ++ retried filePath (retryDelay (cfg a)) 1 failed) a).
Proof.
  intros Hfailed Hfail Hok. unfold loadJSONFile, bind at 1, gets at 1.
  unfold bind.
  by rewrite (attemptLoop_first_success filePath parsed failed err
                (retryAttempts (cfg a)) 1 None a).
Qed.

(** What the loop adds to the world: [added] holds as many requests as
    the counter has advanced by, numbered consecutively from [attempt], at
    most [remaining] of them. *)
Lemma attemptLoop_budget filePath :
  forall remaining attempt lastError a,
    exists added,
      (attemptLoop h remaining attempt filePath lastError a).2
      = with_world (fetches a + length (attemptsOf added)) (timeline a ++ added) a
      /\ attemptsOf added = seq attempt (length (attemptsOf added))
      /\ length (attemptsOf added) <= remaining
      /\ Forall (withinBudget filePath (cfg a)) added.
Proof.
  induction remaining as [|remaining IH]; intros attempt lastError a.
  - exists []. cbn. rewrite Nat.add_0_r, app_nil_r, with_world_id.
    split; [done |]. split; [done |]. split; [done | constructor].
  - cbn [attemptLoop]. unfold try_catch, bind. rewrite fetchAndParse_run.
    destruct (responseOutcome h _) as [parsed | e].
    + exists [Fetched filePath attempt]. cbn.
      split; [unfold with_world; cbn; do 2 f_equal; lia |].
      split; [done |]. split; [lia |]. by repeat constructor.
    + unfold gets. cbv beta. cbn [cfg with_world].
      destruct (attempt <? retryAttempts (cfg a))%nat eqn:Hlast.
      * apply Nat.ltb_lt in Hlast. unfold delay, modify. cbv beta.
        match goal with
        | |- context [attemptLoop h remaining ?n filePath ?l ?b] =>
            destruct (IH n l b) as (added & -> & Hseq & Hlen & Hall)
        end.
        exists (Fetched filePath attempt
                :: Delayed (retryDelay (cfg a) * attempt) :: added).
        change (attemptsOf (Fetched filePath attempt
                            :: Delayed (retryDelay (cfg a) * attempt) :: added))
          with (attempt :: attemptsOf added).
        cbn [length seq].
        split; [unfold with_world; cbn -[Nat.mul]; f_equal;
                [lia | by rewrite <- !app_assoc] |].
        split; [by f_equal |]. split; [lia |].
        constructor; [done |]. constructor; [| done].
        cbn. apply Nat.mul_le_mono_l. lia.
      * unfold ret. cbv beta.
        match goal with
        | |- context [attemptLoop h remaining ?n filePath ?l ?b] =>
            destruct (IH n l b) as (added & -> & Hseq & Hlen & Hall)
        end.
        exists (Fetched filePath attempt :: added).
        change (attemptsOf (Fetched filePath attempt :: added))
          with (attempt :: attemptsOf added).
        cbn [length seq].
        split; [unfold with_world; cbn -[Nat.mul]; f_equal;
                [lia | by rewrite <- !app_assoc] |].
        split; [by f_equal |]. split; [lia |].
        constructor; [done | done].
Qed.

(** X9.  Whatever the network does, one [loadJSONFile] call makes at most
    [retryAttempts] requests, all of them for its own file and numbered
    1, 2, ... in order; no wait is longer than [retryDelay] times
    [retryAttempts - 1]; and the call changes nothing of the application
    but the request counter and the timeline, which it only extends. *)
Theorem load_stays_within_budget (filePath : string) (a : app) :
  exists added,
    (loadJSONFile h filePath a).2
    = with_world (fetches a + length (attemptsOf added)) (timeline a ++ added) a
    /\ attemptsOf added = seq 1 (length (attemptsOf added))
    /\ length (attemptsOf added) <= retryAttempts (cfg a)
    /\ Forall (withinBudget filePath (cfg a)) added.
Proof.
  destruct (attemptLoop_budget filePath (retryAttempts (cfg a)) 1 None a)
    as (added & Hworld & Hrest).
  exists added. split; [| done]. rewrite <- Hworld.
  unfold loadJSONFile, bind, gets.
  destruct (attemptLoop h _ 1 filePath None a) as [[[parsed | [lastError |]] | e] a'];
    try done.
  by destruct (includes filePath "historical_events.json").
Qed.

(** The loop never raises: it returns a document some response within
    the budget was accepted with, or the last error, which is there as soon
    as one attempt was made. *)
Lemma attemptLoop_outcome filePath :
  forall remaining attempt lastError a,
    (exists parsed k,
       (attemptLoop h remaining attempt filePath lastError a).1 = Return (inl parsed)
       /\ fetches a <= k < fetches a + remaining
       /\ responseOutcome h (fetch h k filePath) = Return parsed)
    \/ (exists last,
          (attemptLoop h remaining attempt filePath lastError a).1 = Return (inr last)
          /\ (0 < remaining \/ is_Some lastError -> is_Some last)).
Proof.
  induction remaining as [|remaining IH]; intros attempt lastError a.
  - right. exists lastError. split; [done |]. intros [? | ?]; [lia | done].
  - cbn [attemptLoop]. unfold try_catch, bind. rewrite fetchAndParse_run.
    destruct (responseOutcome h _) as [parsed | e] eqn:Hresponse.
    + left. exists parsed, (fetches a). split; [done |]. split; [lia | done].
    + unfold gets. cbv beta.
      assert (forall b, fetches b = S (fetches a) ->
                (exists parsed k,
                   (attemptLoop h remaining (S attempt) filePath (Some e) b).1
                   = Return (inl parsed)
                   /\ fetches a <= k < fetches a + S remaining
                   /\ responseOutcome h (fetch h k filePath) = Return parsed)
                \/ (exists last,
                      (attemptLoop h remaining (S attempt) filePath (Some e) b).1
                      = Return (inr last)
                      /\ (0 < S remaining \/ is_Some lastError -> is_Some last)))
        as Hnext.
      { intros b Hb.
        destruct (IH (S attempt) (Some e) b)
          as [(parsed & k & Hrun & Hk & Hparsed) | (last & Hrun & Hlast)].
        - left. exists parsed, k. split; [done |]. split; [lia | done].
        - right. exists last. split; [done |]. intros _. apply Hlast. by right. }
      destruct (attempt <? _)%nat; by apply Hnext.
Qed.

(** X10.  For a file that is not the mandatory one, and a budget of at
    least one attempt, [loadJSONFile] never raises, whatever the network
    does: it returns [null], or the document of a response of this call
    that was accepted. *)
Theorem optional_load_never_raises (filePath : string) (a : app) :
  includes filePath "historical_events.json" = false ->
  1 <= retryAttempts (cfg a) ->
  exists loaded,
    (loadJSONFile h filePath a).1 = Return loaded
    /\ (loaded = VNull
        \/ exists k,
             fetches a <= k < fetches a + retryAttempts (cfg a)
             /\ responseOutcome h (fetch h k filePath) = Return loaded).
Proof.
  intros Hoptional Hlimit. unfold loadJSONFile, bind at 1, gets at 1. unfold bind.
  destruct (attemptLoop_outcome filePath (retryAttempts (cfg a)) 1 None a)
    as [(parsed & k & Hrun & Hk & Hparsed) | (last & Hrun & Hlast)];
    destruct (attemptLoop h _ 1 filePath None a) as [r a']; cbn [fst] in Hrun;
    subst r.
  - exists parsed. split; [done |]. right. by exists k.
  - destruct Hlast as [e ->]; [left; lia |].
    rewrite Hoptional. exists VNull. split; [done | by left].
Qed.

End Loader.

(** The first request is dropped, the second is served. *)
Lemma load_returns_first_success_witness :
  let file := "data/statistics.json" in
  let a := PakistanTimelineApp.new ∅ in
  1 < retryAttempts (cfg a)
  /\ (forall k, k < 1 ->
                responseOutcome dropsFirstHost (fetch dropsFirstHost (fetches a + k) file)
                = Throw (TypeError "Failed to fetch"))
  /\ responseOutcome dropsFirstHost (fetch dropsFirstHost (fetches a + 1) file)
     = Return (VObj [])
  /\ loadJSONFile dropsFirstHost file a
     = (Return (VObj []),
        with_world 2 [Fetched file 1; Delayed 1000; Fetched file 2] a).
Proof.
  intros file a.
  assert (1 < retryAttempts (cfg a)) as Hbudget by (cbn; lia).
  assert (forall k, k < 1 ->
            responseOutcome dropsFirstHost (fetch dropsFirstHost (fetches a + k) file)
            = Throw (TypeError "Failed to fetch")) as Hfail.
  { intros k Hk. destruct k; [reflexivity | lia]. }
  split; [exact Hbudget |]. split; [exact Hfail |]. split; [reflexivity |].
  exact (load_returns_first_success dropsFirstHost file
           (fun _ => TypeError "Failed to fetch") (VObj []) 1 a
           Hbudget Hfail eq_refl).
Defined.

(** An optional file on a network that is down. *)
Lemma optional_load_never_raises_witness :
  let file := "data/companies.json" in
  let a := PakistanTimelineApp.new ∅ in
  includes file "historical_events.json" = false
  /\ 1 <= retryAttempts (cfg a)
  /\ exists loaded,
       (loadJSONFile Fixtures.offlineHost file a).1 = Return loaded
       /\ (loaded = VNull
           \/ exists k,
                fetches a <= k < fetches a + retryAttempts (cfg a)
                /\ responseOutcome Fixtures.offlineHost
                     (fetch Fixtures.offlineHost k file) = Return loaded).
Proof.
  intros file a.
  assert (1 <= retryAttempts (cfg a)) as Hbudget by (cbn; lia).
  split; [reflexivity |]. split; [exact Hbudget |].
  exact (optional_load_never_raises Fixtures.offlineHost file a eq_refl Hbudget).
Defined.

End RetryLoop.


(** ** The pipeline: what a pass leaves behind *)

Module Pipeline.
Import PakistanTimelineApp PakistanTimelineAppFacts.

(** The keys the data object can get. *)
Definition dataKeys : list string :=
  ["historical_events"; "statistics"; "companies"; "social_media"; "policies";
   "infrastructure"].

(** The three messages of [handleAppError]. *)
Definition dataMessage : string :=
  "An error occurred while loading the Pakistan Internet Timeline. Unable to load timeline data. Please check your internet connection and ensure the data files are available.".

Definition templatesMessage : string :=
  "An error occurred while loading the Pakistan Internet Timeline. There was a problem with the page templates. Please refresh the page to try again.".

Definition genericMessage : string :=
  "An error occurred while loading the Pakistan Internet Timeline. Please try refreshing the page or contact support if the problem persists.".

(** The page has the loading overlay and the two elements of the error
    modal. *)
Definition hasChrome (p : TemplateRenderer.host) : Prop :=
  is_Some (TemplateRenderer.getElementById p "loadingOverlay")
  /\ is_Some (TemplateRenderer.getElementById p "errorModal")
  /\ is_Some (TemplateRenderer.getElementById p "errorMessage").

Section Passes.
Variable h : host.

Lemma hideLoadingOverlay_returns a : (hideLoadingOverlay h a).1 = Return tt.
Proof.
  unfold hideLoadingOverlay. by destruct (TemplateRenderer.getElementById _ _).
Qed.

Lemma showLoadingOverlay_returns a : (showLoadingOverlay h a).1 = Return tt.
Proof.
  unfold showLoadingOverlay. by destruct (TemplateRenderer.getElementById _ _).
Qed.

Lemma closeErrorModal_returns a : (closeErrorModal h a).1 = Return tt.
Proof.
  unfold closeErrorModal. by destruct (TemplateRenderer.getElementById _ _).
Qed.

Lemma handleAppError_returns e a : (handleAppError h e a).1 = Return tt.
Proof.
  unfold handleAppError, bind. pose proof (hideLoadingOverlay_returns a) as Hhide.
  destruct (hideLoadingOverlay h a) as [r a']. cbn [fst] in Hhide. subst r.
  unfold showErrorModal. by repeat destruct (TemplateRenderer.getElementById _ _).
Qed.

Lemma try_catch_returns {A} (m : M app A) (handler : error -> M app A) (x : A) a :
  (forall y : A, y = x) ->
  (forall e a', (handler e a').1 = Return x) ->
  (try_catch m handler a).1 = Return x.
Proof.
  intros Hone Hhandler. unfold try_catch.
  destruct (m a) as [[y | e] a']; [cbn; f_equal; apply Hone | apply Hhandler].
Qed.

(** X11.  No error escapes the two entry points: [startApp] and
    [retryDataLoad] return from every state, on every page and whatever
    the network, the parser and the templates do.  Whatever is raised on
    the way ends in [handleAppError], which does not raise. *)
Theorem entry_points_never_raise (a : app) :
  (startApp h a).1 = Return tt /\ (retryDataLoad h a).1 = Return tt.
Proof.
  split.
  - unfold startApp. apply try_catch_returns; [by intros [] |].
    apply handleAppError_returns.
  - unfold retryDataLoad, bind at 1.
    pose proof (closeErrorModal_returns a) as Hclose.
    destruct (closeErrorModal h a) as [r a1]. cbn [fst] in Hclose. subst r.
    unfold bind at 1.
    pose proof (showLoadingOverlay_returns a1) as Hshow.
    destruct (showLoadingOverlay h a1) as [r a2]. cbn [fst] in Hshow. subst r.
    apply try_catch_returns; [by intros [] |]. apply handleAppError_returns.
Qed.

Lemma optional_key_known file fileName :
  file ∈ optionalFiles -> fileNameOf file = Return fileName -> fileName ∈ dataKeys.
Proof.
  intros Hfile Hname. unfold optionalFiles in Hfile.
  repeat (apply elem_of_cons in Hfile as [-> | Hfile]);
    try (by apply elem_of_nil in Hfile);
    vm_compute in Hname; injection Hname as <-; unfold dataKeys;
    repeat first [apply list_elem_of_here | apply list_elem_of_further].
Qed.

(** X12.  A pass writes the data object under six keys only: a key that
    is in the data object after [startApp] or [retryDataLoad] was there
    before or is one of [historical_events], [statistics], [companies],
    [social_media], [policies] and [infrastructure], whatever the server
    sends. *)
Theorem pass_adds_only_known_keys (a : app) (k : string) :
  (is_Some (data (startApp h a).2 !! k) -> is_Some (data a !! k) \/ k ∈ dataKeys)
  /\ (is_Some (data (retryDataLoad h a).2 !! k) ->
      is_Some (data a !! k) \/ k ∈ dataKeys).
Proof.
  set (R := fun a1 a2 : app =>
              forall k, is_Some (data a2 !! k) -> is_Some (data a1 !! k) \/ k ∈ dataKeys).
  assert (forall a1, R a1 a1) as R_refl by (intros a1 k' ?; by left).
  assert (forall a1 a2 a3, R a1 a2 -> R a2 a3 -> R a1 a3) as R_trans.
  { intros a1 a2 a3 H12 H23 k' H3.
    destruct (H23 k' H3) as [H2 | ?]; [by apply H12 | by right]. }
  assert (forall a1 v, R a1 (with_data (<["historical_events" := v]> (data a1)) a1))
    as R_main.
  { intros a1 v k'. cbn [data with_data]. rewrite lookup_insert_is_Some'.
    intros [<- | ?]; [right; apply list_elem_of_here | by left]. }
  assert (forall file a1 loaded fileName,
            file ∈ optionalFiles ->
            (loadJSONFile h file a1).1 = Return loaded ->
            truthy loaded = true ->
            fileNameOf file = Return fileName ->
            R a1 (with_data (<[fileName := loaded]> (data (loadJSONFile h file a1).2))
                            (loadJSONFile h file a1).2)) as R_store.
  { intros file a1 loaded fileName Hfile _ _ Hname k'.
    destruct (loadJSONFile_world h file a1) as (n & t & _ & ->).
    cbn [data with_data with_world]. rewrite lookup_insert_is_Some'.
    intros [<- | ?]; [right; by eapply optional_key_known | by left]. }
  split.
  - apply (relates_startApp h R); unfold R; try done; intros; by left.
  - apply (relates_retryDataLoad h R); unfold R; try done; intros; by left.
Qed.

(** X13.  Validation of the timeline document is advisory: whenever the
    mandatory file loads, [loadAllData] returns, and a document that is
    truthy is in the data object under [historical_events] afterwards,
    whether the validator accepted it or not.  A falsy document (the file
    holds [null], [false], [0] or an empty string) is not stored: the key
    is left as it was. *)
Theorem timeline_document_is_stored (a : app) (document : value) :
  (loadJSONFile h "data/historical_events.json" a).1 = Return document ->
  (loadAllData h a).1 = Return tt
  /\ data (loadAllData h a).2 !! "historical_events"
     = (if truthy document then Some document else data a !! "historical_events").
Proof.
  intros Hload. split; [by eapply loadAllData_returns |].
  set (R := fun a1 a2 : app =>
              data a2 !! "historical_events" = data a1 !! "historical_events").
  assert (forall a1, R a1 (loadOptionalDataFiles h a1).2) as Hoptional.
  { apply (relates_loadOptionalDataFiles h R); unfold R; try done.
    - intros ? ? ? -> ->. done.
    - intros file a1 loaded fileName Hfile _ _ Hname.
      destruct (loadJSONFile_world h file a1) as (n & t & _ & ->).
      cbn [data with_data with_world].
      destruct (optional_key_of file fileName Hfile Hname) as (Hne & _).
      by rewrite lookup_insert_ne. }
  unfold loadAllData, try_catch, bind at 1.
  destruct (loadJSONFile_world h "data/historical_events.json" a)
    as (n & t & _ & Hworld).
  destruct (loadJSONFile h "data/historical_events.json" a) as [r a1].
  cbn [fst snd] in *. subst r a1. unfold bind at 1.
  destruct (truthy document).
  - unfold bind at 1, onValidator, zoom.
    destruct (JSONValidatorFacts.validateJSONData_outcome document
                "historical_events") as [c Hc].
    destruct (Hc (validator (with_world n t a))) as (r & st' & -> & _).
    assert (forall a2 : app,
              data a2 !! "historical_events" = Some document ->
              data (match loadOptionalDataFiles h a2 with
                    | (Return x, a3) => (Return x, a3)
                    | (Throw e, a3) => throw e a3
                    end).2 !! "historical_events" = Some document) as Hkept.
    { intros a2 Ha2. pose proof (Hoptional a2) as Hsame. unfold R in Hsame.
      destruct (loadOptionalDataFiles h a2) as [[[] | e] a3]; cbn in *; congruence. }
    destruct (JSONValidator.success r); unfold modify; apply Hkept;
      cbn [data with_data]; by rewrite lookup_insert_eq.
  - unfold ret. pose proof (Hoptional (with_world n t a)) as Hsame. unfold R in Hsame.
    destruct (loadOptionalDataFiles h (with_world n t a)) as [[[] | e] a3];
      cbn in *; congruence.
Qed.

(** Waiting for templates that are not ready: every tick of the loop
    waits, and the renderer is as it was. *)
Lemma waitLoop_not_ready ticks :
  forall waited a,
    TemplateRenderer.isReady (TemplateRenderer.this (renderer a)) = false ->
    waited + ticks * checkInterval <= maxWait ->
    waitLoop ticks waited a
    = (Return tt,
       with_world (fetches a) (timeline a ++ replicate ticks (Delayed checkInterval)) a).
Proof.
  induction ticks as [|ticks IH]; intros waited a Hready Hbound.
  - cbn [waitLoop replicate]. by rewrite app_nil_r, with_world_id.
  - cbn [waitLoop]. unfold bind at 1, gets at 1. cbv beta. rewrite Hready.
    replace (waited <? maxWait)%nat with true
      by (symmetry; apply Nat.ltb_lt; unfold checkInterval in *; lia).
    cbn [negb andb]. unfold bind, delay, modify. cbv beta.
    rewrite IH; [| done | cbn [Nat.mul] in Hbound; lia].
    unfold with_world. cbn [fetches timeline replicate].
    by rewrite <- app_assoc.
Qed.

Lemma waitForTemplatesReady_not_ready a :
  TemplateRenderer.isReady (TemplateRenderer.this (renderer a)) = false ->
  waitForTemplatesReady a
  = (Throw (Error "Templates failed to compile within timeout period"),
     with_world (fetches a) (timeline a ++ replicate 100 (Delayed 100)) a).
Proof.
  intros Hready. unfold waitForTemplatesReady, bind at 1.
  replace (maxWait / checkInterval) with 100 by (vm_compute; reflexivity).
  rewrite waitLoop_not_ready; [| done | vm_compute; reflexivity].
  unfold bind, gets. cbv beta. cbn [renderer with_world]. rewrite Hready.
  reflexivity.
Qed.

(** X14.  When the required templates are not compiled, rendering waits
    for them one hundred times a tenth of a second, and then raises
    'Templates failed to compile within timeout period'.  Nothing has been
    rendered and nothing else has changed. *)
Theorem templates_never_ready_times_out (a : app) :
  TemplateRenderer.isReady (TemplateRenderer.this (renderer a)) = false ->
  renderAllContent h a
  = (Throw (Error "Templates failed to compile within timeout period"),
     with_world (fetches a) (timeline a ++ replicate 100 (Delayed 100)) a).
Proof.
  intros Hready. unfold renderAllContent, try_catch, bind at 1.
  by rewrite waitForTemplatesReady_not_ready.
Qed.

(** What [handleAppError] shows on a page that has the overlay and the
    modal. *)
Lemma handleAppError_run e a :
  hasChrome (page h) ->
  handleAppError h e a
  = (Return tt,
     with_modal "flex"
       (if includes (message e) "Failed to load critical data" then dataMessage
        else if includes (message e) "Templates failed to compile"
             then templatesMessage
             else genericMessage)
       true (with_overlay true false a)).
Proof.
  intros ([o Ho] & [m Hm] & [t Ht]).
  unfold handleAppError, hideLoadingOverlay, showErrorModal, bind, modify.
  rewrite Ho, Hm, Ht.
  by destruct (includes (message e) "Failed to load critical data"),
       (includes (message e) "Templates failed to compile").
Qed.

(** The mandatory file when every attempt fails. *)
Lemma loadJSONFile_mandatory_fails (a : app) (err : nat -> error) :
  1 <= retryAttempts (cfg a) ->
  (forall k, fetches a <= k ->
             responseOutcome h (fetch h k "data/historical_events.json")
             = Throw (err k)) ->
  loadJSONFile h "data/historical_events.json" a
  = (Throw (Error ("Failed to load critical data file: data/historical_events.json. Last error: "
                   +:+ message (err (fetches a + retryAttempts (cfg a) - 1)))),
     with_world (fetches a + retryAttempts (cfg a))
       (timeline a ++ schedule "data/historical_events.json" (retryDelay (cfg a))
                               (retryAttempts (cfg a)) 1 (retryAttempts (cfg a))) a).
Proof.
  intros Hlimit Hfail. unfold loadJSONFile, bind, gets.
  rewrite (attemptLoop_all_fail h "data/historical_events.json" err
             (retryAttempts (cfg a)) 1 None a) by done.
  destruct (retryAttempts (cfg a)); [lia | done].
Qed.

Lemma loadAllData_mandatory_fails (a : app) (err : nat -> error) :
  1 <= retryAttempts (cfg a) ->
  (forall k, fetches a <= k ->
             responseOutcome h (fetch h k "data/historical_events.json")
             = Throw (err k)) ->
  loadAllData h a
  = (Throw (Error ("Failed to load critical data file: data/historical_events.json. Last error: "
                   +:+ message (err (fetches a + retryAttempts (cfg a) - 1)))),
     with_world (fetches a + retryAttempts (cfg a))
       (timeline a ++ schedule "data/historical_events.json" (retryDelay (cfg a))
                               (retryAttempts (cfg a)) 1 (retryAttempts (cfg a))) a).
Proof.
  intros Hlimit Hfail. unfold loadAllData, try_catch, bind at 1.
  by rewrite (loadJSONFile_mandatory_fails a err).
Qed.

(** X15.  A retry during which every attempt for the mandatory file
    fails ends, on a page with the overlay and the modal, with the overlay
    hidden and the modal open on the message about the timeline data.  The
    budget of the mandatory file is spent and no optional file is requested;
    the data object and the rendered page are as they were before the
    retry. *)
Theorem retry_without_timeline_shows_data_message (a : app) (err : nat -> error) :
  hasChrome (page h) ->
  1 <= retryAttempts (cfg a) ->
  (forall k, fetches a <= k ->
             responseOutcome h (fetch h k "data/historical_events.json")
             = Throw (err k)) ->
  let a' := (retryDataLoad h a).2 in
  modalDisplay a' = "flex"
  /\ modalMessage a' = dataMessage
  /\ hasErrors a' = true
  /\ isLoading a' = false
  /\ overlayHidden a' = true
  /\ data a' = data a
  /\ renderer a' = renderer a
  /\ fetches a' = fetches a + retryAttempts (cfg a)
  /\ timeline a'
     = timeline a ++ schedule "data/historical_events.json" (retryDelay (cfg a))
                              (retryAttempts (cfg a)) 1 (retryAttempts (cfg a)).
Proof.
  intros Hchrome Hlimit Hfail a'.
  set (a0 := with_overlay false true (with_modal "none" (modalMessage a) false a)).
  assert (retryDataLoad h a
          = (Return tt,
             with_modal "flex" dataMessage true
               (with_overlay true false
                  (with_world (fetches a + retryAttempts (cfg a))
                     (timeline a
                      ++ schedule "data/historical_events.json" (retryDelay (cfg a))
                                  (retryAttempts (cfg a)) 1 (retryAttempts (cfg a)))
                     a0)))) as Hrun.
  { pose proof Hchrome as ([o Ho] & [m Hm] & [t Ht]).
    unfold retryDataLoad, closeErrorModal, showLoadingOverlay. rewrite Hm, Ho.
    unfold bind at 1 2, modify. cbv beta iota. fold a0.
    unfold try_catch, bind at 1. cbv beta.
    rewrite (loadAllData_mandatory_fails a0 err) by done.
    cbv beta iota. rewrite handleAppError_run by done.
    cbn [message Error].
    by replace (includes _ "Failed to load critical data") with true by reflexivity. }
  subst a'. rewrite Hrun. repeat split.
Qed.

(** Loading leaves the renderer alone. *)
Lemma loadAllData_renderer a : renderer (loadAllData h a).2 = renderer a.
Proof.
  set (R := fun a1 a2 : app => renderer a2 = renderer a1).
  apply (relates_loadAllData h R); unfold R; try done.
  - intros a1 a2 a3 H12 H23. congruence.
  - intros file a1 loaded fileName _ _ _ _.
    by destruct (loadJSONFile_world h file a1) as (n & t & _ & ->).
Qed.

(** [loadAllData] when the first response for the timeline is accepted. *)
Lemma loadAllData_first_response a document :
  1 <= retryAttempts (cfg a) ->
  responseOutcome h (fetch h (fetches a) "data/historical_events.json")
  = Return document ->
  (loadAllData h a).1 = Return tt.
Proof.
  intros Hlimit Hresponse. apply (loadAllData_returns h a document).
  unfold loadJSONFile, bind, gets. cbv beta.
  destruct (retryAttempts (cfg a)) as [|limit]; [lia |].
  cbn [attemptLoop]. unfold try_catch, bind. rewrite fetchAndParse_run.
  by rewrite Hresponse.
Qed.

(** X23.  A retry cannot make up for templates that are not ready: the
    retry loads the data again but never compiles a template, so on a page
    with the overlay and the modal it ends with the error modal open,
    whatever the network does, and the renderer is as it was.  When the
    first response for the timeline is accepted, the retry waits out the
    ten seconds for the templates and the message is the one about the page
    templates. *)
Theorem retry_cannot_fix_templates (a : app) :
  hasChrome (page h) ->
  TemplateRenderer.isReady (TemplateRenderer.this (renderer a)) = false ->
  let a' := (retryDataLoad h a).2 in
  hasErrors a' = true
  /\ modalDisplay a' = "flex"
  /\ isLoading a' = false
  /\ renderer a' = renderer a
  /\ forall document,
       1 <= retryAttempts (cfg a) ->
       responseOutcome h (fetch h (fetches a) "data/historical_events.json")
       = Return document ->
       modalMessage a' = templatesMessage.
Proof.
  intros Hchrome Hready a'.
  set (a0 := with_overlay false true (with_modal "none" (modalMessage a) false a)).
  assert (retryDataLoad h a
          = try_catch (loadAllData h;;; renderAllContent h;;; hideLoadingOverlay h)
                      (handleAppError h) a0) as Hrun.
  { pose proof Hchrome as ([o Ho] & [m Hm] & _).
    unfold retryDataLoad, closeErrorModal, showLoadingOverlay. rewrite Hm, Ho.
    by unfold bind at 1 2, modify. }
  assert (exists message failed,
            retryDataLoad h a
            = (Return tt,
               with_modal "flex" message true (with_overlay true false failed))
            /\ renderer failed = renderer a
            /\ forall document,
                 1 <= retryAttempts (cfg a) ->
                 responseOutcome h (fetch h (fetches a) "data/historical_events.json")
                 = Return document ->
                 message = templatesMessage)
    as (message & failed & Hended & Hrenderer & Hmessage).
  { rewrite Hrun. unfold try_catch, bind at 1.
    pose proof (loadAllData_renderer a0) as Hrenderer.
    pose proof (loadAllData_first_response a0) as Hfirst.
    destruct (loadAllData h a0) as [[[] | e] a1]; cbn [fst snd] in *.
    - unfold bind at 1, renderAllContent, try_catch, bind at 1.
      rewrite waitForTemplatesReady_not_ready by (by rewrite Hrenderer).
      unfold throw. rewrite handleAppError_run by done.
      eexists _, _. split; [reflexivity |]. split; [exact Hrenderer |].
      intros _ _ _. reflexivity.
    - rewrite handleAppError_run by done.
      eexists _, _. split; [reflexivity |]. split; [exact Hrenderer |].
      intros document Hlimit Hresponse.
      by specialize (Hfirst document Hlimit Hresponse). }
  subst a'. rewrite Hended. cbn [snd].
  split; [done |]. split; [done |]. split; [done |]. split; [done |].
  exact Hmessage.
Qed.

End Passes.

(** A server that sends the empty object for the timeline: the document
    fails validation and is stored. *)
Lemma timeline_document_is_stored_witness :
  let h := Fixtures.serving (VObj []) in
  let a := PakistanTimelineApp.new ∅ in
  (loadJSONFile h "data/historical_events.json" a).1 = Return (VObj [])
  /\ JSONValidatorFacts.contentsOnNew (VObj []) "historical_events"
     = Some (false,
             ["heroStats must be an array"; "foundationEra must be an object";
              "mobileEra must be an object"; "fintechEra must be an object"],
             VNull)
  /\ (loadAllData h a).1 = Return tt
  /\ data (loadAllData h a).2 !! "historical_events" = Some (VObj []).
Proof.
  intros h a. split; [reflexivity |]. split; [vm_compute; reflexivity |].
  exact (timeline_document_is_stored h a (VObj []) eq_refl).
Defined.

(** A new application on a page without templates. *)
Lemma templates_never_ready_times_out_witness :
  let h := {| page := Fixtures.barePage; JSON_parse := Fixtures.parseStub;
              fetch := Fixtures.notFound |} in
  let a := PakistanTimelineApp.new ∅ in
  TemplateRenderer.isReady (TemplateRenderer.this (renderer a)) = false
  /\ renderAllContent h a
     = (Throw (Error "Templates failed to compile within timeout period"),
        with_world 0 (replicate 100 (Delayed 100)) a).
Proof.
  intros h a. split; [reflexivity |].
  exact (templates_never_ready_times_out h a eq_refl).
Defined.

(** The network is down during the retry. *)
Lemma retry_without_timeline_shows_data_message_witness :
  let h := Fixtures.offlineHost in
  let a := PakistanTimelineApp.new ∅ in
  let a' := (retryDataLoad h a).2 in
  hasChrome (page h)
  /\ 1 <= retryAttempts (cfg a)
  /\ modalDisplay a' = "flex"
  /\ modalMessage a' = dataMessage
  /\ hasErrors a' = true
  /\ isLoading a' = false
  /\ overlayHidden a' = true
  /\ data a' = data a
  /\ renderer a' = renderer a
  /\ fetches a' = 3
  /\ timeline a'
     = [ Fetched "data/historical_events.json" 1; Delayed 1000;
         Fetched "data/historical_events.json" 2; Delayed 2000;
         Fetched "data/historical_events.json" 3 ].
Proof.
  intros h a a'.
  assert (hasChrome (page h)) as Hchrome by (repeat split; by eexists).
  assert (1 <= retryAttempts (cfg a)) as Hbudget by (cbn; lia).
  split; [exact Hchrome |]. split; [exact Hbudget |].
  exact (retry_without_timeline_shows_data_message h a
           (fun _ => TypeError "Failed to fetch") Hchrome Hbudget
           (fun _ _ => eq_refl)).
Defined.

(** A page without templates, on a server that has the timeline. *)
Lemma retry_cannot_fix_templates_witness :
  let h := {| page := Fixtures.barePage; JSON_parse := Fixtures.parseStub;
              fetch := fun _ _ => Response 200 "OK" "{}" |} in
  let a := PakistanTimelineApp.new ∅ in
  let a' := (retryDataLoad h a).2 in
  hasChrome (page h)
  /\ TemplateRenderer.isReady (TemplateRenderer.this (renderer a)) = false
  /\ hasErrors a' = true
  /\ modalDisplay a' = "flex"
  /\ isLoading a' = false
  /\ renderer a' = renderer a
  /\ modalMessage a' = templatesMessage.
Proof.
  intros h a a'.
  assert (hasChrome (page h)) as Hchrome by (repeat split; by eexists).
  assert (1 <= retryAttempts (cfg a)) as Hbudget by (cbn; lia).
  split; [exact Hchrome |]. split; [reflexivity |].
  destruct (retry_cannot_fix_templates h a Hchrome eq_refl)
    as (Herrors & Hdisplay & Hloading & Hrenderer & Hmessage).
  split; [exact Herrors |]. split; [exact Hdisplay |]. split; [exact Hloading |].
  split; [exact Hrenderer |].
  exact (Hmessage (VObj []) Hbudget eq_refl).
Defined.

End Pipeline.



(** ** The renderer: where rendering writes, and what clears it *)

Module Rendering.
Import TemplateRenderer TemplateRendererFacts.

(** [contentSelectors] of [clearAllContent]. *)
Definition contentSelectors : list string :=
  [ "#heroStats"; "#ptclPrivatization"; "#foundationMilestones";
    "#foundationStats"; "#foundationTimeline"; "#mobile3G4G";
    "#socialMediaGrowth"; "#digitalPakistanPolicy"; "#raastRevolution";
    "#mobileBanking"; "#investmentBoom"; "#covidImpact";
    "#fiveGFuture"; "#digitalDivide" ].

(** The markup [clearAllContent] puts into an insertion point. *)
Definition loadingPlaceholder : string :=
  "<div class=" +:+ quote +:+ "loading-placeholder" +:+ quote +:+ ">Loading...</div>".

Section Content.
Variable h : host.

(** The callback of [contentSelectors.forEach] in [clearAllContent]. *)
Definition clearContent (selector : string) : M world unit :=
  element <- lift (querySelector h selector);;
  match element with
  | Some el => set_innerHTML el loadingPlaceholder
  | None => ret tt
  end.

(** [clearAllContent()] *)
Definition clearAllContent : M world unit :=
  forEach clearContent contentSelectors.

(** [el] is an insertion point: one of the content selectors denotes
    it. *)
Definition insertionPoint (el : element) : Prop :=
  exists selector,
    selector ∈ contentSelectors /\ querySelector h selector = Return (Some el).

(** A call whose target is one of the content selectors. *)
Definition onContent (c : call) : Prop :=
  exists selector,
    call_target c = Selector selector /\ selector ∈ contentSelectors.

(** A step from [w] to [w'] that is confined to the insertion points: the
    compiled templates are the same, the calls made are calls on content
    selectors, and the content of every element that is not an insertion
    point is the same. *)
Definition confinedStep (w w' : world) : Prop :=
  this w' = this w
  /\ (exists issued, calls w' = calls w ++ issued /\ Forall onContent issued)
  /\ forall el, ~ insertionPoint el -> innerHTML w' !! el = innerHTML w !! el.

Definition confined {A} (m : M world A) : Prop := forall w, confinedStep w (m w).2.

Lemma confinedStep_refl w : confinedStep w w.
Proof.
  split; [done |]. split; [| done].
  exists []. by rewrite app_nil_r.
Qed.

Lemma confinedStep_trans w1 w2 w3 :
  confinedStep w1 w2 -> confinedStep w2 w3 -> confinedStep w1 w3.
Proof.
  intros (Hthis & (issued & Hcalls & Hall) & Hframe)
         (Hthis' & (issued' & Hcalls' & Hall') & Hframe').
  split; [congruence |]. split.
  - exists (issued ++ issued'). split; [by rewrite Hcalls', Hcalls, app_assoc |].
    by apply Forall_app.
  - intros el Hel. rewrite Hframe' by done. by apply Hframe.
Qed.

Lemma confined_ret {A} (x : A) : confined (ret x).
Proof. intros w. apply confinedStep_refl. Qed.

Lemma confined_lift {A} (c : completion A) : confined (lift c).
Proof. intros w. apply confinedStep_refl. Qed.

Lemma confined_bind {A B} (m : M world A) (k : A -> M world B) :
  confined m -> (forall x, confined (k x)) -> confined (bind m k).
Proof.
  intros Hm Hk w. specialize (Hm w). unfold bind.
  destruct (m w) as [[x | e] w1]; cbn [snd] in *; [| done].
  eapply confinedStep_trans; [exact Hm | apply Hk].
Qed.

(** Writing into an element one of the content selectors denotes. *)
Lemma confinedStep_write selector el html w :
  selector ∈ contentSelectors ->
  querySelector h selector = Return (Some el) ->
  this (set_innerHTML el html w).2 = this w
  /\ calls (set_innerHTML el html w).2 = calls w
  /\ forall el', ~ insertionPoint el' ->
       innerHTML (set_innerHTML el html w).2 !! el' = innerHTML w !! el'.
Proof.
  intros Hselector Hel. split; [done |]. split; [done |].
  intros el' Hel'. cbn. apply lookup_insert_ne. intros <-.
  apply Hel'. by exists selector.
Qed.

Lemma confined_renderTemplate templateName data selector :
  selector ∈ contentSelectors ->
  confined (renderTemplate h templateName data (Selector selector)).
Proof.
  intros Hselector w. unfold renderTemplate.
  assert (this (renderTemplate_body h templateName data (Selector selector) w).2
          = this w
          /\ calls (renderTemplate_body h templateName data (Selector selector) w).2
             = calls w
          /\ forall el, ~ insertionPoint el ->
               innerHTML (renderTemplate_body h templateName data
                            (Selector selector) w).2 !! el
               = innerHTML w !! el) as Hbody.
  { unfold renderTemplate_body, handleRenderError, try_catch, bind, gets, lift, ret.
    destruct (templateAt (compiledTemplates (this w)) templateName) as [render |]; [| done].
    destruct (truthy data); cbn [negb]; [| done].
    cbn [selector_of].
    destruct (querySelector h selector) as [[el |] | e] eqn:Hq; cbn; [| done |].
    - destruct (render data) as [html | e]; cbn.
      + by apply (confinedStep_write selector).
      + by apply (confinedStep_write selector).
    - done. }
  destruct (renderTemplate_body h templateName data (Selector selector) w)
    as [outcome w'].
  destruct Hbody as (Hthis & Hcalls & Hframe). cbn [snd] in *.
  split; [done |]. split; [| done].
  eexists [_]. cbn. rewrite Hcalls. split; [done |].
  constructor; [| constructor]. by exists selector.
Qed.

Lemma confined_renderEvent found selector success :
  selector ∈ contentSelectors ->
  confined (renderEvent h found selector success).
Proof.
  intros Hselector. unfold renderEvent. destruct (truthy found).
  - apply confined_bind; [by apply confined_renderTemplate |].
    intros ok. apply confined_ret.
  - apply confined_ret.
Qed.

Ltac content_target :=
  unfold contentSelectors;
  repeat first [apply list_elem_of_here | apply list_elem_of_further].

Ltac confine :=
  repeat first
    [ apply confined_ret
    | apply confined_lift
    | apply confined_renderTemplate; content_target
    | apply confined_renderEvent; content_target
    | match goal with
      | |- confined (if ?b then _ else _) => destruct b
      end
    | apply confined_bind; [| intros ?] ].

Lemma confined_renderHeroStats heroStatsData : confined (renderHeroStats h heroStatsData).
Proof. unfold renderHeroStats. confine. Qed.

Lemma confined_renderFoundationEra foundationData :
  confined (renderFoundationEra h foundationData).
Proof. unfold renderFoundationEra. confine. Qed.

Lemma confined_renderMobileEra mobileData : confined (renderMobileEra h mobileData).
Proof. unfold renderMobileEra. confine. Qed.

Lemma confined_renderFintechEra fintechData :
  confined (renderFintechEra h fintechData).
Proof. unfold renderFintechEra. confine. Qed.

Lemma confined_renderSidebarContent allData :
  confined (renderSidebarContent h allData).
Proof. unfold renderSidebarContent. confine. Qed.

(** X16.  Rendering is confined to the insertion points.  Each of the
    five render operations, on any data and whether it returns or raises,
    leaves the compiled templates as they are, calls [renderTemplate] only
    on selectors that are in the list of [clearAllContent], and changes
    the content of no element other than those these selectors denote. *)
Theorem rendering_is_confined (section : value) (w : world) :
  confinedStep w (renderHeroStats h section w).2
  /\ confinedStep w (renderFoundationEra h section w).2
  /\ confinedStep w (renderMobileEra h section w).2
  /\ confinedStep w (renderFintechEra h section w).2
  /\ confinedStep w (renderSidebarContent h section w).2.
Proof.
  split; [apply confined_renderHeroStats |].
  split; [apply confined_renderFoundationEra |].
  split; [apply confined_renderMobileEra |].
  split; [apply confined_renderFintechEra |].
  apply confined_renderSidebarContent.
Qed.

(** Clearing the elements a list of selectors denotes: each element ends
    with the loading placeholder, if one of the selectors denotes it, or
    as it was, if none does. *)
Lemma clearContent_run selectors :
  (forall selector, selector ∈ selectors ->
                    exists r, querySelector h selector = Return r) ->
  forall w, exists w',
    forEach clearContent selectors w = (Return tt, w')
    /\ this w' = this w
    /\ calls w' = calls w
    /\ forall el,
         (innerHTML w' !! el = Some loadingPlaceholder
          /\ exists selector,
               selector ∈ selectors /\ querySelector h selector = Return (Some el))
         \/ (innerHTML w' !! el = innerHTML w !! el
             /\ forall selector,
                  selector ∈ selectors -> querySelector h selector <> Return (Some el)).
Proof.
  induction selectors as [|selector selectors IH]; intros Hresolve w.
  - exists w. split; [done |]. split; [done |]. split; [done |].
    intros el. right. split; [done |]. intros selector Hin.
    by apply elem_of_nil in Hin.
  - destruct (Hresolve selector) as [r Hr]; [apply list_elem_of_here |].
    assert (forall s, s ∈ selectors -> exists r, querySelector h s = Return r)
      as Hrest by (intros s Hs; apply Hresolve; by apply list_elem_of_further).
    cbn [forEach]. unfold bind at 1, clearContent, bind, lift. rewrite Hr.
    destruct r as [cleared |].
    + destruct (IH Hrest (set_innerHTML cleared loadingPlaceholder w).2)
        as (w' & Hrun & Hthis & Hcalls & Hcontent).
      exists w'. split; [exact Hrun |]. split; [done |]. split; [done |].
      intros el. destruct (Hcontent el) as [[Hel Hsel] | [Hel Hnone]].
      * left. split; [done |]. destruct Hsel as (s & Hs & Hq).
        exists s. split; [by apply list_elem_of_further | done].
      * destruct (decide (el = cleared)) as [-> | Hne].
        -- left. split.
           ++ rewrite Hel. cbn. by rewrite lookup_insert_eq.
           ++ exists selector. split; [apply list_elem_of_here | done].
        -- right. split.
           ++ rewrite Hel. cbn. by rewrite lookup_insert_ne.
           ++ intros s [-> | Hs]%elem_of_cons; [congruence | by apply Hnone].
    + destruct (IH Hrest w) as (w' & Hrun & Hthis & Hcalls & Hcontent).
      exists w'. split; [exact Hrun |]. split; [done |]. split; [done |].
      intros el. destruct (Hcontent el) as [[Hel Hsel] | [Hel Hnone]].
      * left. split; [done |]. destruct Hsel as (s & Hs & Hq).
        exists s. split; [by apply list_elem_of_further | done].
      * right. split; [done |].
        intros s [-> | Hs]%elem_of_cons; [congruence | by apply Hnone].
Qed.

(** X17.  On a page where [querySelector] accepts the content selectors,
    [clearAllContent] returns, and afterwards every insertion point holds
    the loading placeholder, every other element holds what it held, and
    the compiled templates and the call history are as they were.  Clearing
    a second time changes nothing. *)
Theorem clearAllContent_resets_insertion_points (w : world) :
  (forall selector, selector ∈ contentSelectors ->
                    exists r, querySelector h selector = Return r) ->
  exists w',
    clearAllContent w = (Return tt, w')
    /\ this w' = this w
    /\ calls w' = calls w
    /\ (forall el, insertionPoint el -> innerHTML w' !! el = Some loadingPlaceholder)
    /\ (forall el, ~ insertionPoint el -> innerHTML w' !! el = innerHTML w !! el)
    /\ exists w'', clearAllContent w' = (Return tt, w'')
                   /\ innerHTML w'' = innerHTML w'.
Proof.
  intros Hresolve.
  destruct (clearContent_run contentSelectors Hresolve w)
    as (w' & Hrun & Hthis & Hcalls & Hcontent).
  exists w'. split; [exact Hrun |]. split; [done |]. split; [done |].
  assert (forall el, insertionPoint el ->
            innerHTML w' !! el = Some loadingPlaceholder) as Hcleared.
  { intros el (s & Hs & Hq).
    destruct (Hcontent el) as [[Hel _] | [_ Hnone]]; [done |].
    by destruct (Hnone s Hs). }
  split; [exact Hcleared |]. split.
  - intros el Hel. destruct (Hcontent el) as [[_ Hsel] | [Hsame _]]; [| done].
    by destruct Hel.
  - destruct (clearContent_run contentSelectors Hresolve w')
      as (w'' & Hrun' & _ & _ & Hcontent').
    exists w''. split; [exact Hrun' |]. apply map_eq. intros el.
    destruct (Hcontent' el) as [[Hel Hsel] | [Hsame _]]; [| done].
    rewrite Hel. symmetry. by apply Hcleared.
Qed.

(** The page after [m] followed by [clearAllContent]. *)
Definition thenCleared {A} (m : M world A) (w : world) : world :=
  (clearAllContent (m w).2).2.

(** Every element holds in [w'] what it holds in [w], or the loading
    placeholder. *)
Definition clearedOrUntouched (w w' : world) : Prop :=
  forall el,
    innerHTML w' !! el = innerHTML w !! el
    \/ innerHTML w' !! el = Some loadingPlaceholder.

Lemma clear_after_confined {A} (m : M world A) (w : world) :
  (forall selector, selector ∈ contentSelectors ->
                    exists r, querySelector h selector = Return r) ->
  confined m ->
  clearedOrUntouched w (thenCleared m w).
Proof.
  intros Hresolve Hm el. unfold thenCleared, clearAllContent.
  destruct (clearContent_run contentSelectors Hresolve (m w).2)
    as (w' & -> & _ & _ & Hcontent). cbn [snd].
  destruct (Hcontent el) as [[Hel _] | [Hel Hnone]]; [by right |].
  left. rewrite Hel. apply (Hm w). intros (s & Hs & Hq). by apply (Hnone s).
Qed.

(** X18.  Clearing undoes rendering: on a page where [querySelector]
    accepts the content selectors, after any of the five render operations
    (whether it returned or raised) followed by [clearAllContent], every
    element of the page holds what it held before the operation or the
    loading placeholder; no rendered markup and no error placeholder is
    left. *)
Theorem clearing_undoes_rendering (section : value) (w : world) :
  (forall selector, selector ∈ contentSelectors ->
                    exists r, querySelector h selector = Return r) ->
  clearedOrUntouched w (thenCleared (renderHeroStats h section) w)
  /\ clearedOrUntouched w (thenCleared (renderFoundationEra h section) w)
  /\ clearedOrUntouched w (thenCleared (renderMobileEra h section) w)
  /\ clearedOrUntouched w (thenCleared (renderFintechEra h section) w)
  /\ clearedOrUntouched w (thenCleared (renderSidebarContent h section) w).
Proof.
  intros Hresolve.
  split; [by apply clear_after_confined, confined_renderHeroStats |].
  split; [by apply clear_after_confined, confined_renderFoundationEra |].
  split; [by apply clear_after_confined, confined_renderMobileEra |].
  split; [by apply clear_after_confined, confined_renderFintechEra |].
  by apply clear_after_confined, confined_renderSidebarContent.
Qed.

End Content.

(** The timeline page accepts every content selector. *)
Lemma timelinePage_accepts_selectors selector :
  selector ∈ contentSelectors ->
  exists r, querySelector Fixtures.timelinePage selector = Return r.
Proof.
  intros Hin. unfold contentSelectors in Hin.
  repeat (apply elem_of_cons in Hin as [-> | Hin]);
    try (by apply elem_of_nil in Hin); eexists; reflexivity.
Qed.

(** The timeline page with rendered markup in one insertion point and a
    template source next to it. *)
Lemma clearAllContent_resets_insertion_points_witness :
  let h := Fixtures.timelinePage in
  let w := {| this := {| compiledTemplates := ∅; templateElements := ∅ |};
              innerHTML := {[ "heroStats" := "<p>ok</p>";
                              "hero-stats-template" := "<div>{{this}}</div>" ]};
              calls := [] |} in
  (forall selector, selector ∈ contentSelectors ->
                    exists r, querySelector h selector = Return r)
  /\ exists w',
       clearAllContent h w = (Return tt, w')
       /\ this w' = this w
       /\ calls w' = calls w
       /\ (forall el, insertionPoint h el ->
                      innerHTML w' !! el = Some loadingPlaceholder)
       /\ (forall el, ~ insertionPoint h el -> innerHTML w' !! el = innerHTML w !! el)
       /\ exists w'', clearAllContent h w' = (Return tt, w'')
                      /\ innerHTML w'' = innerHTML w'.
Proof.
  intros h w. split; [exact timelinePage_accepts_selectors |].
  exact (clearAllContent_resets_insertion_points h w timelinePage_accepts_selectors).
Defined.

(** A foundation era rendered on the timeline page, then cleared. *)
Lemma clearing_undoes_rendering_witness :
  let h := Fixtures.timelinePage in
  let w := Fixtures.worldWith [("historicalEvents", Fixtures.okTemplate);
                               ("statistics", Fixtures.failingTemplate)] in
  let era := VObj [("events", VArr []); ("yearlyStats", VArr [])] in
  (forall selector, selector ∈ contentSelectors ->
                    exists r, querySelector h selector = Return r)
  /\ innerHTML (renderFoundationEra h era w).2 !! "foundationMilestones"
     = Some "<p>ok</p>"
  /\ innerHTML (thenCleared h (renderFoundationEra h era) w) !! "foundationMilestones"
     = Some loadingPlaceholder
  /\ clearedOrUntouched w (thenCleared h (renderHeroStats h era) w)
  /\ clearedOrUntouched w (thenCleared h (renderFoundationEra h era) w)
  /\ clearedOrUntouched w (thenCleared h (renderMobileEra h era) w)
  /\ clearedOrUntouched w (thenCleared h (renderFintechEra h era) w)
  /\ clearedOrUntouched w (thenCleared h (renderSidebarContent h era) w).
Proof.
  intros h w era. split; [exact timelinePage_accepts_selectors |].
  split; [vm_compute; reflexivity |]. split; [vm_compute; reflexivity |].
  exact (clearing_undoes_rendering h era w timelinePage_accepts_selectors).
Defined.

End Rendering.



(** ** The renderer: what the constructor compiles *)

Module Compilation.
Import TemplateRenderer.

Section Constructor.
Variable h : host.

(** The source [compileTemplate] finds for a template id: the content of
    the element with this id, unless there is no such element or nothing
    but white space in it. *)
Definition sourceOf (content : gmap element string) (templateId : string)
    : option string :=
  match getElementById h templateId with
  | Some templateElement =>
      let templateSource := default "" (content !! templateElement) in
      if blank templateSource then None else Some templateSource
  | None => None
  end.

(** The page has a source for the template [templateName]. *)
Definition available (content : gmap element string) (templateName : string) : Prop :=
  exists templateId,
    (templateName, templateId) ∈ templateMappings
    /\ is_Some (sourceOf content templateId).

Hypothesis compiles : forall source, exists compiled,
  Handlebars_compile h source = Return compiled.

Lemma compileTemplate_run templateName templateId w :
  exists w',
    compileTemplate h templateName templateId w = (Return tt, w')
    /\ innerHTML w' = innerHTML w
    /\ calls w' = calls w
    /\ forall name,
         is_Some (compiledTemplates (this w') !! name)
         <-> is_Some (compiledTemplates (this w) !! name)
             \/ (name = templateName /\ is_Some (sourceOf (innerHTML w) templateId)).
Proof.
  unfold compileTemplate, sourceOf.
  destruct (getElementById h templateId) as [templateElement |].
  2:{ exists w. split; [done |]. split; [done |]. split; [done |].
      intros name. split; [by left | by intros [? | [_ [? [=]]]]]. }
  unfold bind at 1, get_innerHTML, gets. cbv beta zeta.
  destruct (blank (default "" (innerHTML w !! templateElement))).
  { exists w. split; [done |]. split; [done |]. split; [done |].
    intros name. split; [by left | by intros [? | [_ [? [=]]]]]. }
  destruct (compiles (default "" (innerHTML w !! templateElement)))
    as [compiled Hcompiled].
  unfold try_catch, bind, lift, modify. rewrite Hcompiled.
  eexists. split; [reflexivity |]. split; [done |]. split; [done |].
  intros name. cbn [this set_this compiledTemplates].
  rewrite lookup_insert_is_Some'. split.
  - intros [<- | ?]; [right; split; [done | by eexists] | by left].
  - intros [? | [-> _]]; [by right | by left].
Qed.

Lemma compileEach_run (mappings : list (string * string)) :
  forall w, exists w',
    forEach (fun '(key, templateId) => compileTemplate h key templateId) mappings w
    = (Return tt, w')
    /\ innerHTML w' = innerHTML w
    /\ calls w' = calls w
    /\ forall name,
         is_Some (compiledTemplates (this w') !! name)
         <-> is_Some (compiledTemplates (this w) !! name)
             \/ exists templateId,
                  (name, templateId) ∈ mappings
                  /\ is_Some (sourceOf (innerHTML w) templateId).
Proof.
  induction mappings as [|[key templateId] mappings IH]; intros w.
  - exists w. split; [done |]. split; [done |]. split; [done |].
    intros name. split; [by left |].
    intros [? | (? & Hin & _)]; [done | by apply elem_of_nil in Hin].
  - cbn [forEach]. unfold bind.
    destruct (compileTemplate_run key templateId w)
      as (w1 & -> & Hcontent & Hcalls & Hcompiled).
    destruct (IH w1) as (w' & -> & Hcontent' & Hcalls' & Hcompiled').
    exists w'. split; [done |]. split; [congruence |]. split; [congruence |].
    intros name. rewrite Hcompiled', Hcompiled, Hcontent. split.
    + intros [[? | [-> ?]] | (templateId' & Hin & ?)].
      * by left.
      * right. exists templateId. split; [apply list_elem_of_here | done].
      * right. exists templateId'. split; [by apply list_elem_of_further | done].
    + intros [? | (templateId' & [[= -> ->] | Hin]%elem_of_cons & ?)].
      * by left; left.
      * left. by right.
      * right. by exists templateId'.
Qed.

(** The renderer [w'] holds exactly the templates that the page content
    [content] has a source for: a template name is compiled if and only if
    it is one of the seven registered names and the element with its id
    exists and holds more than white space; so the renderer is ready
    exactly when there is a source for each of the five required
    templates. *)
Definition compiledFrom (content : gmap element string) (w' : world) : Prop :=
  (forall name,
     is_Some (compiledTemplates (this w') !! name) <-> available content name)
  /\ (isReady (this w') = true
      <-> forall name,
            name ∈ ["heroStats"; "historicalEvents"; "statistics"; "companies";
                    "socialMedia"] ->
            available content name).

Lemma compileAllTemplates_run w :
  compiledTemplates (this w) = ∅ ->
  exists w',
    compileAllTemplates h w = (Return tt, w')
    /\ innerHTML w' = innerHTML w
    /\ calls w' = calls w
    /\ compiledFrom (innerHTML w) w'.
Proof.
  intros Hempty. unfold compileAllTemplates, try_catch.
  destruct (compileEach_run templateMappings w)
    as (w' & -> & Hcontent & Hcalls & Hcompiled).
  exists w'. split; [done |]. split; [done |]. split; [done |].
  assert (forall name,
            is_Some (compiledTemplates (this w') !! name)
            <-> available (innerHTML w) name) as Havailable.
  { intros name. rewrite Hcompiled, Hempty, lookup_empty.
    unfold available. split; [| by right].
    by intros [[? [=]] | ?]. }
  split; [exact Havailable |].
  unfold isReady. rewrite forallb_forall. split.
  - intros Hready name Hname. apply Havailable.
    apply list_elem_of_In in Hname.
    by apply (bool_decide_unpack _), Is_true_true, Hready.
  - intros Hall name Hname. apply list_elem_of_In in Hname.
    apply bool_decide_eq_true, Havailable, Hall, Hname.
Qed.

(** X22.  When [Handlebars.compile] does not raise, the constructor
    returns and leaves the page as it is.  On a document that is no longer
    loading it adds no listener and has compiled exactly the templates the
    page has a source for.  On a document that is still loading it
    compiles nothing, so that the renderer is not ready, and adds one
    listener for [DOMContentLoaded]; whenever that listener runs on the
    renderer as constructed, it returns, leaves the page as it is, and
    compiles exactly the templates the page then has a source for. *)
Theorem constructor_compiles_available_templates (state : readyState) (w : world) :
  exists listeners w',
    new h state w = (Return listeners, w')
    /\ innerHTML w' = innerHTML w
    /\ calls w' = calls w
    /\ (state <> loading -> listeners = [] /\ compiledFrom (innerHTML w) w')
    /\ (state = loading ->
        compiledTemplates (this w') = ∅
        /\ isReady (this w') = false
        /\ exists listener,
             listeners = [listener]
             /\ forall later,
                  this later = this w' ->
                  exists w'',
                    listener later = (Return tt, w'')
                    /\ innerHTML w'' = innerHTML later
                    /\ calls w'' = calls later
                    /\ compiledFrom (innerHTML later) w'').
Proof.
  set (w0 := set_this (fun _ => {| compiledTemplates := ∅; templateElements := ∅ |}) w).
  assert (new h state w = initializeTemplates h state w0) as -> by done.
  destruct state; cbn [initializeTemplates].
  - exists [compileAllTemplates h], w0. unfold ret.
    split; [done |]. split; [done |]. split; [done |].
    split; [done |]. intros _. split; [done |]. split; [done |].
    exists (compileAllTemplates h). split; [done |].
    intros later Hthis. apply compileAllTemplates_run. by rewrite Hthis.
  - destruct (compileAllTemplates_run w0 eq_refl)
      as (w' & Hrun & Hcontent & Hcalls & Hcompiled).
    exists [], w'. unfold bind, ret. rewrite Hrun.
    split; [done |]. split; [done |]. split; [done |].
    split; [done | discriminate].
  - destruct (compileAllTemplates_run w0 eq_refl)
      as (w' & Hrun & Hcontent & Hcalls & Hcompiled).
    exists [], w'. unfold bind, ret. rewrite Hrun.
    split; [done |]. split; [done |]. split; [done |].
    split; [done | discriminate].
Qed.

End Constructor.

(** What [trim] leaves nothing of: the spaces of Unicode count, the
    zero-width space U+200B does not. *)
Example blank_unicode :
  let bytes := fold_right (fun n s => String (ascii_of_nat n) s) EmptyString in
  blank (bytes [32; 9; 10; 13]) = true
  /\ blank (bytes [194; 160; 226; 128; 131; 32; 239; 187; 191; 227; 128; 128]) = true
  /\ blank (bytes [226; 128; 168; 225; 154; 128; 226; 129; 159]) = true
  /\ blank (bytes [226; 128; 139]) = false
  /\ blank (bytes [194; 133]) = false
  /\ blank (bytes [32; 194]) = false
  /\ blank "  <div></div> " = false.
Proof. vm_compute. repeat split; reflexivity. Qed.

(** The timeline page, whose seven templates all have a source, after
    the document has loaded; and the same page with a template that holds
    a no-break space only, which is not a source. *)
Lemma constructor_compiles_available_templates_witness :
  let h := Fixtures.timelinePage in
  let w := {| this := {| compiledTemplates := ∅; templateElements := ∅ |};
              innerHTML := Fixtures.timelineContent;
              calls := [] |} in
  let noBreakSpace := String (ascii_of_nat 194) (String (ascii_of_nat 160) EmptyString) in
  (forall source, exists compiled, Handlebars_compile h source = Return compiled)
  /\ available h (innerHTML w) "heroStats"
  /\ ~ available h (<["hero-stats-template" := noBreakSpace]> (innerHTML w)) "heroStats"
  /\ exists listeners w',
       new h complete w = (Return listeners, w')
       /\ innerHTML w' = innerHTML w
       /\ calls w' = calls w
       /\ (complete <> loading -> listeners = [] /\ compiledFrom h (innerHTML w) w')
       /\ (complete = loading ->
           compiledTemplates (this w') = ∅
           /\ isReady (this w') = false
           /\ exists listener,
                listeners = [listener]
                /\ forall later,
                     this later = this w' ->
                     exists w'',
                       listener later = (Return tt, w'')
                       /\ innerHTML w'' = innerHTML later
                       /\ calls w'' = calls later
                       /\ compiledFrom h (innerHTML later) w'').
Proof.
  intros h w noBreakSpace.
  assert (forall source, exists compiled, Handlebars_compile h source = Return compiled)
    as Hcompiles by (intros source; eexists; reflexivity).
  split; [exact Hcompiles |]. split; [| split].
  - exists "hero-stats-template". split; [apply list_elem_of_here |].
    eexists. vm_compute. reflexivity.
  - intros (templateId & Hin & Hsource). unfold templateMappings in Hin.
    repeat (apply elem_of_cons in Hin as [[= ->] | Hin]);
      try (by apply elem_of_nil in Hin).
    vm_compute in Hsource. by destruct Hsource.
  - exact (constructor_compiles_available_templates h Hcompiles complete w).
Defined.

End Compilation.

(** ** The status the application reports after a pass *)

Module Status.
Import PakistanTimelineApp PakistanTimelineAppFacts.

(** The object [getStatus] returns. *)
Record status : Type := {
  status_isLoading : bool;
  status_hasErrors : bool;
  dataLoaded : bool;
  templatesReady : bool
}.

(** [getStatus()], once the renderer exists. *)
Definition getStatus (a : app) : status :=
  {| status_isLoading := isLoading a;
     status_hasErrors := hasErrors a;
     dataLoaded := (0 <? size (data a))%nat;
     templatesReady := TemplateRenderer.isReady (TemplateRenderer.this (renderer a)) |}.

(** [m] leaves the observation [f] of the application as it is. *)
Definition preserves {X A} (f : app -> X) (m : M app A) : Prop :=
  forall a, f (m a).2 = f a.

Section Preservation.
Context {X : Type} (f : app -> X).

Lemma preserves_ret {A} (x : A) : preserves f (ret x).
Proof. done. Qed.

Lemma preserves_throw {A} e : preserves f (throw (A := A) e).
Proof. done. Qed.

Lemma preserves_lift {A} (c : completion A) : preserves f (lift c).
Proof. done. Qed.

Lemma preserves_gets {A} (g : app -> A) : preserves f (gets g).
Proof. done. Qed.

Lemma preserves_modify (g : app -> app) :
  (forall a, f (g a) = f a) -> preserves f (modify g).
Proof. intros Hg a. apply Hg. Qed.

Lemma preserves_bind {A B} (m : M app A) (k : A -> M app B) :
  preserves f m -> (forall x, preserves f (k x)) -> preserves f (bind m k).
Proof.
  intros Hm Hk a. specialize (Hm a). unfold bind.
  destruct (m a) as [[x | e] a1]; cbn [snd] in *; [| done].
  by rewrite Hk.
Qed.

Lemma preserves_try_catch {A} (m : M app A) (handler : error -> M app A) :
  preserves f m -> (forall e, preserves f (handler e)) ->
  preserves f (try_catch m handler).
Proof.
  intros Hm Hhandler a. specialize (Hm a). unfold try_catch.
  destruct (m a) as [[x | e] a1]; cbn [snd] in *; [done |].
  by rewrite Hhandler.
Qed.

End Preservation.

Section Passes.
Variable h : host.

(** The compiled templates, which only the constructor writes. *)
Definition templates (a : app) : TemplateRenderer.renderer :=
  TemplateRenderer.this (renderer a).

Lemma preserves_waitLoop {X} (f : app -> X) ticks waited :
  (forall a n t, f (with_world n t a) = f a) ->
  preserves f (waitLoop ticks waited).
Proof.
  intros Hworld. revert waited.
  induction ticks as [|ticks IH]; intros waited; [apply preserves_ret |].
  cbn [waitLoop]. apply preserves_bind; [apply preserves_gets |]. intros ready.
  destruct (_ && _); [| apply preserves_ret].
  apply preserves_bind; [| intros; apply IH].
  apply preserves_modify. intros a. apply Hworld.
Qed.

Lemma preserves_renderSection {X A} (f : app -> X) historicalData field
    (render : value -> M TemplateRenderer.world A) :
  (forall section a, f (with_renderer (render section (renderer a)).2 a) = f a) ->
  preserves f (renderSection historicalData field render).
Proof.
  intros Hrender. unfold renderSection.
  apply preserves_bind; [apply preserves_lift |]. intros section.
  destruct (truthy section); [| apply preserves_ret].
  apply preserves_bind; [| intros; apply preserves_ret].
  intros a. unfold onRenderer, zoom.
  specialize (Hrender section a).
  by destruct (render section (renderer a)).
Qed.

Lemma preserves_waitForTemplatesReady {X} (f : app -> X) :
  (forall a n t, f (with_world n t a) = f a) ->
  preserves f waitForTemplatesReady.
Proof.
  intros Hworld. unfold waitForTemplatesReady.
  apply preserves_bind; [by apply preserves_waitLoop |]. intros _.
  apply preserves_bind; [apply preserves_gets |]. intros ready.
  destruct (negb ready); [apply preserves_throw | apply preserves_ret].
Qed.

Lemma preserves_renderAllContent {X} (f : app -> X) :
  (forall a n t, f (with_world n t a) = f a) ->
  (forall a w, Rendering.confinedStep (page h) (renderer a) w ->
               f (with_renderer w a) = f a) ->
  preserves f (renderAllContent h).
Proof.
  intros Hworld Hrender.
  assert (forall A (render : value -> M TemplateRenderer.world A),
            (forall section, Rendering.confined (page h) (render section)) ->
            forall section a, f (with_renderer (render section (renderer a)).2 a) = f a)
    as Hconfined.
  { intros A render Hr section a. apply Hrender, Hr. }
  unfold renderAllContent.
  apply preserves_try_catch; [| intros; apply preserves_throw].
  apply preserves_bind; [by apply preserves_waitForTemplatesReady |].
  intros _. apply preserves_bind; [apply preserves_gets |]. intros historicalData.
  destruct (negb _); [apply preserves_throw |].
  apply preserves_bind;
    [apply preserves_renderSection, Hconfined;
     apply Rendering.confined_renderHeroStats | intros _].
  apply preserves_bind;
    [apply preserves_renderSection, Hconfined;
     apply Rendering.confined_renderFoundationEra | intros _].
  apply preserves_bind;
    [apply preserves_renderSection, Hconfined;
     apply Rendering.confined_renderMobileEra | intros _].
  apply preserves_bind;
    [apply preserves_renderSection, Hconfined;
     apply Rendering.confined_renderFintechEra | intros _].
  apply preserves_bind; [| intros; apply preserves_ret].
  intros a1. unfold onRenderer, zoom.
  pose proof (Hconfined _ _ (Rendering.confined_renderSidebarContent (page h))
                historicalData a1) as Hsidebar.
  by destruct (TemplateRenderer.renderSidebarContent _ _ _).
Qed.

Lemma bind_returned {A B} (m : M app A) (k : A -> M app B) a y a' :
  bind m k a = (Return y, a') ->
  exists x a1, m a = (Return x, a1) /\ k x a1 = (Return y, a').
Proof.
  unfold bind. destruct (m a) as [[x | e] a1]; [| discriminate].
  intros Hk. by exists x, a1.
Qed.

(** When [renderAllContent] returns, the templates were ready and still
    are, the timeline document is in the data object, and nothing but the
    renderer and the clock has changed. *)
Lemma renderAllContent_returned a a' :
  renderAllContent h a = (Return tt, a') ->
  TemplateRenderer.isReady (templates a') = true
  /\ (exists document,
        data a' !! "historical_events" = Some document /\ truthy document = true)
  /\ isLoading a' = isLoading a
  /\ hasErrors a' = hasErrors a
  /\ overlayHidden a' = overlayHidden a
  /\ modalDisplay a' = modalDisplay a.
Proof.
  intros Hrun.
  assert (forall X (f : app -> X),
            (forall a n t, f (with_world n t a) = f a) ->
            (forall a w, f (with_renderer w a) = f a) ->
            f a' = f a) as Hkept.
  { intros X f Hworld Hrenderer.
    pose proof (preserves_renderAllContent f Hworld (fun a1 w _ => Hrenderer a1 w) a)
      as Hf.
    by rewrite Hrun in Hf. }
  assert (templates a' = templates a) as Htemplates.
  { pose proof (preserves_renderAllContent templates (fun _ _ _ => eq_refl)
                  (fun a1 w Hstep => proj1 Hstep) a) as Hf.
    by rewrite Hrun in Hf. }
  unfold renderAllContent, try_catch in Hrun.
  destruct (bind waitForTemplatesReady _ a) as [[[] | e] a2] eqn:Hbody;
    [| discriminate Hrun].
  injection Hrun as ->.
  apply bind_returned in Hbody as ([] & aw & Hwait & Hbody).
  apply bind_returned in Hbody as (historicalData & ? & [= <- <-] & Hbody).
  split; [| split].
  - rewrite Htemplates.
    pose proof (preserves_waitForTemplatesReady templates (fun _ _ _ => eq_refl) a)
      as Hsame.
    rewrite Hwait in Hsame. cbn [snd] in Hsame. rewrite <- Hsame.
    unfold waitForTemplatesReady in Hwait.
    apply bind_returned in Hwait as ([] & a1 & Hloop & Hcheck).
    apply bind_returned in Hcheck as (ready & ? & [= <- <-] & Hcheck).
    pose proof (preserves_waitLoop templates (maxWait / checkInterval) 0
                  (fun _ _ _ => eq_refl) a) as Hloop'.
    rewrite Hloop in Hloop'. cbn [snd] in Hloop'.
    fold (templates a1) in Hcheck.
    assert (templates aw = templates a1) as ->.
    { destruct (TemplateRenderer.isReady (templates a1)); cbn in Hcheck;
        [by injection Hcheck as <- | discriminate Hcheck]. }
    by destruct (TemplateRenderer.isReady (templates a1)).
  - rewrite (Hkept _ data) by done.
    pose proof (preserves_waitForTemplatesReady data (fun _ _ _ => eq_refl) a)
      as Hsame.
    rewrite Hwait in Hsame. cbn [snd] in Hsame. rewrite <- Hsame.
    destruct (data aw !! "historical_events") as [document |].
    + exists document. split; [done |].
      cbn [default from_option] in Hbody. unfold id in Hbody.
      by destruct (truthy document).
    + discriminate Hbody.
  - split; [by apply (Hkept _ isLoading) |].
    split; [by apply (Hkept _ hasErrors) |].
    split; [by apply (Hkept _ overlayHidden) | by apply (Hkept _ modalDisplay)].
Qed.

(** The three steps both entry points end with. *)
Definition pass : M app unit :=
  loadAllData h;;; renderAllContent h;;; hideLoadingOverlay h.

Lemma loadAllData_flags a :
  hasErrors (loadAllData h a).2 = hasErrors a
  /\ modalDisplay (loadAllData h a).2 = modalDisplay a.
Proof.
  set (R := fun a1 a2 : app =>
              hasErrors a2 = hasErrors a1 /\ modalDisplay a2 = modalDisplay a1).
  apply (relates_loadAllData h R); unfold R; try done.
  - intros a1 a2 a3 [? ?] [? ?]. split; congruence.
  - intros file a1 loaded fileName _ _ _ _.
    by destruct (loadJSONFile_world h file a1) as (n & t & _ & ->).
Qed.

(** A pass that returns has loaded the timeline, has found the templates
    ready and has hidden the overlay; it has not touched the modal. *)
Lemma pass_returned a a' :
  is_Some (TemplateRenderer.getElementById (page h) "loadingOverlay") ->
  pass a = (Return tt, a') ->
  getStatus a'
  = {| status_isLoading := false; status_hasErrors := hasErrors a;
       dataLoaded := true; templatesReady := true |}.
Proof.
  intros [o Ho] Hrun. unfold pass in Hrun.
  apply bind_returned in Hrun as ([] & a1 & Hload & Hrun).
  apply bind_returned in Hrun as ([] & a2 & Hrender & Hhide).
  destruct (renderAllContent_returned a1 a2 Hrender)
    as (Hready & (document & Hdocument & _) & _ & Herrors & _).
  destruct (loadAllData_flags a) as [Herrors' _]. rewrite Hload in Herrors'.
  cbn [snd] in Herrors'.
  unfold hideLoadingOverlay in Hhide. rewrite Ho in Hhide.
  injection Hhide as <-. unfold getStatus.
  cbn [isLoading hasErrors data renderer with_overlay].
  fold (templates a2). rewrite Hready. f_equal; [congruence |].
  apply Nat.ltb_lt.
  assert (size (data a2) <> 0); [| lia].
  by apply (map_size_ne_0_lookup_2 _ "historical_events").
Qed.

(** X24.  On a page with the overlay and the modal, the status after a
    pass is never 'loading', and a status without errors means that the
    pass went all the way: the data object is not empty and the templates
    are ready.  This holds after [retryDataLoad] and after [startApp], from
    any state. *)
Theorem status_after_pass (a : app) :
  Pipeline.hasChrome (page h) ->
  let complete (s : status) :=
    status_isLoading s = false
    /\ (status_hasErrors s = false -> dataLoaded s = true /\ templatesReady s = true) in
  complete (getStatus (retryDataLoad h a).2)
  /\ complete (getStatus (startApp h a).2).
Proof.
  intros Hchrome complete.
  assert (forall a0 : app,
            complete (getStatus (try_catch pass (handleAppError h) a0).2)) as Hpass.
  { intros a0. unfold try_catch.
    destruct (pass a0) as [[[] | e] a1] eqn:Hrun; cbn [snd].
    - rewrite (pass_returned a0 a1) by (done || apply Hchrome).
      by split.
    - rewrite Pipeline.handleAppError_run by done. by split. }
  pose proof Hchrome as ([o Ho] & [m Hm] & _).
  split.
  - unfold retryDataLoad, closeErrorModal, showLoadingOverlay. rewrite Hm, Ho.
    unfold bind at 1 2, modify. cbv beta iota. by apply Hpass.
  - unfold startApp, try_catch.
    destruct (bind (modify (with_validator JSONValidator.new)) _ a)
      as [[[] | e] a1] eqn:Hrun; cbn [snd].
    + apply bind_returned in Hrun as ([] & a2 & [= <-] & Hrun).
      apply bind_returned in Hrun as (listeners & a3 & Hnew & Hrun).
      apply bind_returned in Hrun as ([] & a4 & Hshow & Hrun).
      fold pass in Hrun.
      rewrite (pass_returned a4 a1) by (done || apply Hchrome).
      by split.
    + rewrite Pipeline.handleAppError_run by done. by split.
Qed.

(** An observation of the renderer that confined steps keep is kept by a
    whole retry. *)
Lemma retryDataLoad_keeps {X} (g : TemplateRenderer.world -> X) :
  (forall w w', Rendering.confinedStep (page h) w w' -> g w' = g w) ->
  forall a, g (renderer (retryDataLoad h a).2) = g (renderer a).
Proof.
  intros Hg.
  assert (preserves (fun a => g (renderer a)) (loadAllData h)) as Hload
    by (intros a; by rewrite Pipeline.loadAllData_renderer).
  assert (preserves (fun a => g (renderer a)) (renderAllContent h)) as Hrender.
  { apply preserves_renderAllContent; [done |].
    intros a w Hstep. cbn [renderer with_renderer]. by apply Hg. }
  assert (preserves (fun a => g (renderer a)) (hideLoadingOverlay h)) as Hhide.
  { unfold hideLoadingOverlay. destruct (TemplateRenderer.getElementById _ _);
      [by apply preserves_modify | apply preserves_ret]. }
  change (preserves (fun a => g (renderer a)) (retryDataLoad h)).
  unfold retryDataLoad, closeErrorModal, showLoadingOverlay.
  apply preserves_bind.
  { destruct (TemplateRenderer.getElementById _ _);
      [by apply preserves_modify | apply preserves_ret]. }
  intros _. apply preserves_bind.
  { destruct (TemplateRenderer.getElementById _ _);
      [by apply preserves_modify | apply preserves_ret]. }
  intros _. apply preserves_try_catch.
  - apply preserves_bind; [exact Hload | intros _].
    apply preserves_bind; [exact Hrender | intros _]. exact Hhide.
  - intros e. unfold handleAppError, showErrorModal.
    apply preserves_bind; [exact Hhide | intros _].
    repeat destruct (TemplateRenderer.getElementById _ _);
      first [by apply preserves_modify | apply preserves_ret].
Qed.

(** What [showErrorModal] may have done to the text of [#errorMessage]
    between [a] and [a']: nothing, or it has put one of the three user
    messages there and displayed the modal. *)
Definition messageShown (a a' : app) : Prop :=
  modalMessage a' = modalMessage a
  \/ (hasErrors a' = true
      /\ modalDisplay a' = "flex"
      /\ is_Some (TemplateRenderer.getElementById (page h) "errorModal")
      /\ is_Some (TemplateRenderer.getElementById (page h) "errorMessage")
      /\ modalMessage a'
         ∈ [Pipeline.dataMessage; Pipeline.templatesMessage; Pipeline.genericMessage]).

Lemma messageShown_bind {A B} (m : M app A) (k : A -> M app B) a :
  preserves modalMessage m ->
  (forall x a1, messageShown a1 (k x a1).2) ->
  messageShown a (bind m k a).2.
Proof.
  intros Hm Hk. specialize (Hm a). unfold bind.
  destruct (m a) as [[x | e] a1]; cbn [snd] in *; [| by left].
  unfold messageShown in *. rewrite <- Hm. apply Hk.
Qed.

Lemma messageShown_handleAppError e a : messageShown a (handleAppError h e a).2.
Proof.
  unfold handleAppError, hideLoadingOverlay, showErrorModal, bind, modify, ret.
  destruct (TemplateRenderer.getElementById (page h) "loadingOverlay");
    destruct (TemplateRenderer.getElementById (page h) "errorModal") eqn:Hmodal;
    destruct (TemplateRenderer.getElementById (page h) "errorMessage") eqn:Hmessage;
    cbn; try (by left); right;
    (split; [done |]); (split; [done |]); (split; [done |]); (split; [done |]);
    destruct (includes (message e) "Failed to load critical data");
    [ apply list_elem_of_here | | apply list_elem_of_here | ];
    destruct (includes (message e) "Templates failed to compile");
    repeat first [apply list_elem_of_here | apply list_elem_of_further].
Qed.

Lemma retryDataLoad_message a : messageShown a (retryDataLoad h a).2.
Proof.
  assert (preserves modalMessage (hideLoadingOverlay h)) as Hhide.
  { unfold hideLoadingOverlay. destruct (TemplateRenderer.getElementById _ _);
      [by apply preserves_modify | apply preserves_ret]. }
  assert (preserves modalMessage (loadAllData h)) as Hload.
  { intros a0. set (R := fun a1 a2 : app => modalMessage a2 = modalMessage a1).
    apply (relates_loadAllData h R); unfold R; try done.
    - intros a1 a2 a3 H12 H23. congruence.
    - intros file a1 loaded fileName _ _ _ _.
      by destruct (loadJSONFile_world h file a1) as (n & t & _ & ->). }
  assert (preserves modalMessage (renderAllContent h)) as Hrender
    by (by apply preserves_renderAllContent).
  unfold retryDataLoad, closeErrorModal, showLoadingOverlay.
  apply messageShown_bind.
  { destruct (TemplateRenderer.getElementById _ _);
      [by apply preserves_modify | apply preserves_ret]. }
  intros _ a1. apply messageShown_bind.
  { destruct (TemplateRenderer.getElementById _ _);
      [by apply preserves_modify | apply preserves_ret]. }
  intros _ a2. unfold try_catch.
  assert (preserves modalMessage
            (loadAllData h;;; renderAllContent h;;; hideLoadingOverlay h)) as Hbody.
  { apply preserves_bind; [exact Hload | intros _].
    apply preserves_bind; [exact Hrender | intros _]. exact Hhide. }
  specialize (Hbody a2).
  destruct ((loadAllData h;;; renderAllContent h;;; hideLoadingOverlay h) a2)
    as [[[] | e] a3]; cbn [snd] in *; [by left |].
  unfold messageShown. rewrite <- Hbody. apply messageShown_handleAppError.
Qed.

(** X29.  What a retry writes to the page, whatever the network sends and
    whether the pass ends in the error modal or not.  [retryDataLoad]
    leaves the compiled templates as they are.  It assigns the [innerHTML]
    of insertion points only: the content of every element that is neither
    an insertion point nor [#errorMessage] is as before.  The text of
    [#errorMessage] is as before too, unless the pass has failed on a page
    with the modal, and then it is one of the three user messages. *)
Theorem retry_is_confined (a : app) :
  TemplateRenderer.this (renderer (retryDataLoad h a).2)
  = TemplateRenderer.this (renderer a)
  /\ (forall el,
        ~ Rendering.insertionPoint (page h) el ->
        TemplateRenderer.getElementById (page h) "errorMessage" <> Some el ->
        TemplateRenderer.innerHTML (renderer (retryDataLoad h a).2) !! el
        = TemplateRenderer.innerHTML (renderer a) !! el)
  /\ messageShown a (retryDataLoad h a).2
  /\ (hasErrors (retryDataLoad h a).2 = false ->
      modalMessage (retryDataLoad h a).2 = modalMessage a).
Proof.
  split; [| split; [| split]].
  - apply (retryDataLoad_keeps TemplateRenderer.this). by intros w w' [Hthis _].
  - intros el Hel _.
    apply (retryDataLoad_keeps (fun w => TemplateRenderer.innerHTML w !! el)).
    intros w w' (_ & _ & Hframe). by apply Hframe.
  - apply retryDataLoad_message.
  - intros Hquiet. destruct (retryDataLoad_message a) as [? | [Herrors _]]; [done |].
    congruence.
Qed.

End Passes.

(** A server that has the timeline, on the timeline page: the status
    after the first pass. *)
Lemma status_after_pass_witness :
  let h := Fixtures.serving (VObj [("heroStats", VArr [])]) in
  let a := PakistanTimelineApp.new Fixtures.timelineContent in
  Pipeline.hasChrome (page h)
  /\ getStatus (startApp h a).2
     = {| status_isLoading := false; status_hasErrors := false;
          dataLoaded := true; templatesReady := true |}
  /\ status_isLoading (getStatus (startApp h a).2) = false
  /\ (status_hasErrors (getStatus (startApp h a).2) = false ->
      dataLoaded (getStatus (startApp h a).2) = true
      /\ templatesReady (getStatus (startApp h a).2) = true).
Proof.
  intros h a.
  assert (Pipeline.hasChrome (page h)) as Hchrome by (repeat split; by eexists).
  split; [exact Hchrome |]. split; [vm_compute; reflexivity |].
  exact (proj2 (status_after_pass h a Hchrome)).
Defined.

End Status.


(** ** What validation does not promise to rendering *)

Module UncheckedItems.
Import TemplateRenderer TemplateRendererFacts.

(** An event with a title that is a string, as the validator requires of
    the events of an era. *)
Definition titled (event : value) : Prop :=
  exists title, get event "title" = Return (VStr title).

(** A timeline document that the validator accepts, with a [null] among
    the services of its fintech era. *)
Definition timelineWithNullService : value :=
  VObj [ ("heroStats", VArr []);
         ("foundationEra", VObj [("events", VArr []); ("yearlyStats", VArr [])]);
         ("mobileEra", VObj [("events", VArr []); ("socialMediaGrowth", VArr [])]);
         ("fintechEra", VObj [("events", VArr []); ("mobileBanking", VArr [VNull]);
                              ("investmentBoom", VArr [])]) ].

Lemma find_first_titled keyword events :
  Forall titled events ->
  exists found, find_first (title_includes keyword) events = Return found.
Proof.
  induction 1 as [|event events [title Htitle] _ [found IH]]; [by eexists |].
  cbn [find_first]. unfold title_includes at 1. rewrite Htitle. cbn.
  destruct (includes (lowercase title) keyword); [by eexists |].
  by exists found.
Qed.

Lemma map_each_null (f : value -> completion value) items :
  (exists e, f VNull = Throw e) ->
  VNull ∈ items ->
  exists e, map_each f items = Throw e.
Proof.
  intros [e He] Hnull. induction items as [|item items IH];
    [by apply elem_of_nil in Hnull |].
  cbn [map_each]. apply elem_of_cons in Hnull as [<- | Hnull].
  - rewrite He. by eexists.
  - destruct (f item) as [y | e']; [| by eexists].
    destruct (IH Hnull) as [e' ->]. by eexists.
Qed.

Section Fintech.
Variable h : host.

(** X25.  The validator does not look at the elements of
    [fintechEra.mobileBanking], and the renderer does not guard them: when
    the events of the fintech era all have a string title and a [null] is
    among the services, [renderFintechEra] raises.  It has made at most one
    [renderTemplate] call before, for the RAAST event; the services and the
    investments are not rendered. *)
Theorem null_service_aborts_rendering (fintechData : value)
    (events items : list value) (w : world) :
  get fintechData "events" = Return (VArr events) ->
  Forall titled events ->
  get fintechData "mobileBanking" = Return (VArr items) ->
  VNull ∈ items ->
  exists e w' issued,
    renderFintechEra h fintechData w = (Throw e, w')
    /\ calls w' = calls w ++ issued
    /\ Forall (fun c => call_target c = Selector "#raastRevolution") issued
    /\ length issued <= 1.
Proof.
  intros Hevents Htitled Hservices Hnull.
  destruct (find_first_titled "raast" events Htitled) as [raastEvent Hfind].
  destruct (map_each_null serviceCard items) as [e Hmap]; [by eexists | done |].
  unfold renderFintechEra, bind at 1, lift at 1. rewrite Hevents.
  unfold bind at 1, lift at 1, find. cbn [array_receiver]. rewrite Hfind.
  unfold bind at 1.
  assert (exists issued,
            calls (renderEvent h raastEvent "#raastRevolution" [] w).2
            = calls w ++ issued
            /\ Forall (fun c => call_target c = Selector "#raastRevolution") issued
            /\ length issued <= 1) as (issued & Hcalls & Htargets & Hlength).
  { unfold renderEvent. destruct (truthy raastEvent).
    - unfold bind, renderTemplate.
      pose proof (renderTemplate_body_calls h "historicalEvents"
                    (VObj [("events", VArr [raastEvent])])
                    (Selector "#raastRevolution") w) as Hbody.
      destruct (renderTemplate_body h _ _ _ w) as [[ok | e'] w1];
        cbn [snd] in Hbody; unfold ret, record_call; cbn [snd calls];
        rewrite Hbody;
        eexists [_]; (split; [reflexivity |]); (split; [by repeat constructor | done]).
    - exists []. cbn. rewrite app_nil_r. split; [done |]. split; [constructor | lia]. }
  destruct (renderEvent h raastEvent "#raastRevolution" [] w) as [[success | e'] w1];
    cbn [snd] in Hcalls.
  - unfold bind at 1, lift at 1. rewrite Hservices.
    unfold bind at 1, lift at 1, map. cbn [array_receiver]. rewrite Hmap.
    by exists e, w1, issued.
  - by exists e', w1, issued.
Qed.

(** A call on a selector the page accepts returns. *)
Lemma renderTemplate_returns templateName data selector w :
  (exists r, querySelector h selector = Return r) ->
  exists ok w',
    renderTemplate h templateName data (Selector selector) w = (Return ok, w')
    /\ calls w' = calls w ++ [entry templateName (Selector selector) (Return ok)].
Proof.
  intros [r Hr]. unfold renderTemplate.
  pose proof (renderTemplate_body_calls h templateName data (Selector selector) w)
    as Hcalls.
  assert (exists ok,
            (renderTemplate_body h templateName data (Selector selector) w).1
            = Return ok) as [ok Hok].
  { unfold renderTemplate_body, handleRenderError, try_catch, bind, gets, lift, ret.
    destruct (templateAt (compiledTemplates (this w)) templateName) as [render |];
      [| by eexists].
    destruct (truthy data); cbn [negb]; [| by eexists].
    cbn [selector_of]. rewrite Hr.
    destruct r as [el |]; [| by eexists].
    destruct (render data) as [html | e]; cbn; by eexists. }
  destruct (renderTemplate_body h templateName data (Selector selector) w)
    as [outcome w1]. cbn [fst snd] in *. subst outcome.
  exists ok, (record_call (entry templateName (Selector selector) (Return ok)) w1).
  split; [done |]. cbn. by rewrite Hcalls.
Qed.

(** X30.  [renderFoundationEra] guards the search of its events: on a
    foundation era whose [events] is missing, [null] or otherwise falsy,
    and a page that accepts the three selectors, it returns a boolean
    and has made exactly the three calls for the milestones, the
    statistics and the timeline; the boolean tells whether all three
    succeeded. *)
Theorem foundation_era_tolerates_missing_events (foundationData events yearlyStats : value)
    (w : world) :
  get foundationData "events" = Return events ->
  truthy events = false ->
  get foundationData "yearlyStats" = Return yearlyStats ->
  (forall selector,
     selector ∈ ["#foundationMilestones"; "#foundationStats"; "#foundationTimeline"] ->
     exists r, querySelector h selector = Return r) ->
  exists b w' issued,
    renderFoundationEra h foundationData w = (Return (VBool b), w')
    /\ calls w' = calls w ++ issued
    /\ (call_target <$> issued)
       = [ Selector "#foundationMilestones"; Selector "#foundationStats";
           Selector "#foundationTimeline" ]
    /\ b = forallb succeeded issued.
Proof.
  intros Hevents Hfalsy Hstats Hresolve.
  unfold renderFoundationEra, bind at 1, lift at 1. rewrite Hevents.
  unfold bind at 1. rewrite Hfalsy. unfold ret at 1. cbv beta iota.
  unfold bind at 1, ret at 1. cbv beta iota.
  destruct (renderTemplate_returns "historicalEvents" (VObj [("events", events)])
              "#foundationMilestones" w) as (ok1 & w1 & Hrun1 & Hcalls1);
    [apply Hresolve, list_elem_of_here |].
  unfold bind at 1. rewrite Hrun1.
  unfold bind at 1, lift at 1. rewrite Hstats.
  destruct (renderTemplate_returns "statistics" (VObj [("yearlyStats", yearlyStats)])
              "#foundationStats" w1) as (ok2 & w2 & Hrun2 & Hcalls2);
    [apply Hresolve, list_elem_of_further, list_elem_of_here |].
  unfold bind at 1. rewrite Hrun2.
  destruct (renderTemplate_returns "historicalEvents" (VObj [("events", events)])
              "#foundationTimeline" w2) as (ok3 & w3 & Hrun3 & Hcalls3);
    [apply Hresolve; do 2 apply list_elem_of_further; apply list_elem_of_here |].
  unfold bind at 1. rewrite Hrun3. unfold ret, every_true.
  eexists _, w3, [_; _; _].
  split; [reflexivity |].
  split; [by rewrite Hcalls3, Hcalls2, Hcalls1, <- !app_assoc |].
  split; [reflexivity |].
  cbn [app forallb]. unfold succeeded, entry. cbn [call_outcome].
  by destruct ok1, ok2, ok3.
Qed.

End Fintech.

(** The document passes validation, and rendering its fintech era
    raises. *)
Lemma null_service_aborts_rendering_witness :
  let h := Fixtures.timelinePage in
  let w := Fixtures.worldWith [("historicalEvents", Fixtures.okTemplate);
                               ("companies", Fixtures.okTemplate)] in
  let fintechEra := VObj [("events", VArr []); ("mobileBanking", VArr [VNull]);
                          ("investmentBoom", VArr [])] in
  JSONValidatorFacts.contentsOnNew timelineWithNullService "historical_events"
  = Some (true, [], VStr "Valid")
  /\ get timelineWithNullService "fintechEra" = Return fintechEra
  /\ get fintechEra "events" = Return (VArr [])
  /\ Forall titled []
  /\ get fintechEra "mobileBanking" = Return (VArr [VNull])
  /\ VNull ∈ [VNull]
  /\ exists e w' issued,
       renderFintechEra h fintechEra w = (Throw e, w')
       /\ calls w' = calls w ++ issued
       /\ Forall (fun c => call_target c = Selector "#raastRevolution") issued
       /\ length issued <= 1.
Proof.
  intros h w fintechEra.
  assert (VNull ∈ [VNull]) as Hnull by apply list_elem_of_here.
  split; [vm_compute; reflexivity |]. split; [reflexivity |].
  split; [reflexivity |]. split; [constructor |]. split; [reflexivity |].
  split; [exact Hnull |].
  exact (null_service_aborts_rendering h fintechEra [] [VNull] w
           eq_refl (List.Forall_nil titled) eq_refl Hnull).
Defined.

(** A foundation era without events, with the two templates compiled. *)
Lemma foundation_era_tolerates_missing_events_witness :
  let h := Fixtures.timelinePage in
  let w := Fixtures.worldWith [("historicalEvents", Fixtures.okTemplate);
                               ("statistics", Fixtures.okTemplate)] in
  let era := VObj [("yearlyStats", VArr [])] in
  get era "events" = Return VUndefined
  /\ truthy VUndefined = false
  /\ get era "yearlyStats" = Return (VArr [])
  /\ (forall selector,
        selector ∈ ["#foundationMilestones"; "#foundationStats"; "#foundationTimeline"] ->
        exists r, querySelector h selector = Return r)
  /\ (renderFoundationEra h era w).1 = Return (VBool true)
  /\ exists b w' issued,
       renderFoundationEra h era w = (Return (VBool b), w')
       /\ calls w' = calls w ++ issued
       /\ (call_target <$> issued)
          = [ Selector "#foundationMilestones"; Selector "#foundationStats";
              Selector "#foundationTimeline" ]
       /\ b = forallb succeeded issued.
Proof.
  intros h w era.
  assert (forall selector,
            selector ∈ ["#foundationMilestones"; "#foundationStats";
                        "#foundationTimeline"] ->
            exists r, querySelector h selector = Return r) as Hresolve.
  { intros selector Hin.
    repeat (apply elem_of_cons in Hin as [-> | Hin]);
      try (by apply elem_of_nil in Hin); eexists; reflexivity. }
  split; [reflexivity |]. split; [reflexivity |]. split; [reflexivity |].
  split; [exact Hresolve |]. split; [vm_compute; reflexivity |].
  exact (foundation_era_tolerates_missing_events h era VUndefined (VArr []) w
           eq_refl eq_refl eq_refl Hresolve).
Defined.

End UncheckedItems.

(** ** The validator: every error of every item *)

Module ErrorCollection.
Import JSONValidator JSONValidatorFacts ValidationResults.

(** The errors of one item of an array, validated on its own. *)
Definition itemErrors (itemType : string) (index : nat) (item : value) : list string :=
  (outcomeOf (validateItemStructure item itemType
                (itemType +:+ "[" +:+ pretty index +:+ "]"))).2.

(** No exception at all. *)
Definition never (e : error) : Prop := False.

Lemma never_outcomeOf {T} (m : M validator T) :
  pushes never m -> exists x, (outcomeOf m).1 = Return x.
Proof.
  intros (r & added & Hr & Hrun). unfold outcomeOf.
  specialize (Hrun [] []). change (during [] []) with (during [] ([] : list string)).
  rewrite Hrun. destruct r as [x | e]; [by exists x | by destruct (Hr e)].
Qed.

(** An item other than [null] is validated without an exception. *)
Lemma never_validateItemStructure item itemType itemPath :
  item <> VNull -> pushes never (validateItemStructure item itemType itemPath).
Proof.
  intros Hitem. unfold validateItemStructure.
  destruct (String.eqb (typeof item) "object") eqn:Hobject; cbn [negb];
    [| apply pushes_addError].
  destruct (assoc itemType getRequiredFields) as [requirements |];
    [| apply pushes_addError].
  assert (is_object item) as Hobj.
  { split; [| done]. destruct item; try done. }
  apply pushes_bind.
  - apply pushes_forEach. intros field. apply pushes_bind.
    + by apply pushes_returning, is_object_has_property.
    + intros present. destruct (negb present); [apply pushes_addError |].
      apply pushes_bind; [by apply pushes_returning, is_object_get |].
      intros v. apply pushes_validateFieldType.
  - intros _. apply pushes_bind; [by apply pushes_returning, is_object_keys |].
    intros fields. apply pushes_forEach. intros field.
    destruct (assoc field (types requirements)); [| apply pushes_ret].
    apply pushes_bind; [by apply pushes_returning, is_object_get |].
    intros v. apply pushes_validateFieldType.
Qed.

(** The errors of a loop are the errors of its iterations, in order. *)
Lemma outcomeOf_forEach {T} (f : T -> M validator unit) (l : list T) :
  (forall x, x ∈ l -> pushes never (f x)) ->
  outcomeOf (forEach f l) = (Return tt, concat ((fun x => (outcomeOf (f x)).2) <$> l)).
Proof.
  induction l as [|x l IH]; intros Hf.
  - done.
  - assert (pushes never (f x)) as Hx by (apply Hf, list_elem_of_here).
    assert (forall y, y ∈ l -> pushes never (f y)) as Hl
      by (intros y Hy; by apply Hf, list_elem_of_further).
    specialize (IH Hl).
    destruct (never_outcomeOf (f x) Hx) as [[] Hreturn].
    pose proof (pushes_outcomeOf never (f x) Hx [] []) as Hrun.
    rewrite Hreturn in Hrun.
    assert (pushes never (forEach f l)) as Hrest.
    { clear IH Hf. induction l as [|y l IHl]; [apply pushes_ret |].
      cbn [forEach]. apply pushes_bind.
      - apply Hl, list_elem_of_here.
      - intros _. apply IHl. intros z Hz. by apply Hl, list_elem_of_further. }
    pose proof (pushes_outcomeOf never (forEach f l) Hrest []
                  ([] ++ (outcomeOf (f x)).2)) as Hrun'.
    rewrite IH in Hrun'. cbn [fst snd] in Hrun'.
    unfold outcomeOf at 1. cbn [forEach fmap list_fmap concat]. unfold bind.
    change (during [] []) with (during [] ([] : list string)).
    rewrite Hrun, Hrun'. by rewrite (read_during []).
Qed.

(** X26.  For the four single-array kinds, when the array holds no
    [null], no error is lost and none is out of place: the errors of the
    result are the errors of the first item validated on its own, then those
    of the second, and so on.  One bad item never hides the errors of
    another. *)
Theorem errors_are_collected_per_item (dataType field itemType : string)
    (jsonData : value) (items : list value) (st : validator) :
  (dataType, field, itemType) ∈ arrayKinds ->
  get jsonData field = Return (VArr items) ->
  VNull ∉ items ->
  exists r st',
    validateJSONData jsonData dataType st = (Return r, st')
    /\ read st' (errors r) = concat (imap (itemErrors itemType) items).
Proof.
  intros Hkind Hget Hnull.
  destruct (validateJSONData_contents jsonData dataType st) as (r & st' & Hrun & Hc).
  exists r, st'. split; [done |].
  assert (read st' (errors r) = (expected jsonData dataType).1.2) as ->
    by by rewrite <- Hc.
  destruct (get_array_is_object _ _ _ Hget) as [Htruthy Hobject].
  unfold expected. rewrite Htruthy, Hobject. cbn [negb].
  assert (checksOf jsonData dataType
          = Some (checkArray jsonData field (field +:+ " must be an array") itemType))
    as ->.
  { unfold arrayKinds in Hkind.
    repeat (apply elem_of_cons in Hkind as [[= -> -> ->] | Hkind]); try done.
    by apply elem_of_nil in Hkind. }
  assert (outcomeOf (checkArray jsonData field (field +:+ " must be an array") itemType)
          = (Return tt, concat (imap (itemErrors itemType) items))) as ->.
  { unfold outcomeOf, checkArray, bind, lift. rewrite Hget.
    cbn [truthy isArray negb orb]. fold (outcomeOf (validateArrayItems (VArr items) itemType)).
    unfold validateArrayItems. rewrite outcomeOf_forEach.
    - f_equal. rewrite fmap_imap. f_equal.
    - intros [index item] [i Hi]%list_elem_of_lookup.
      rewrite list_lookup_imap in Hi.
      destruct (items !! i) as [item' |] eqn:Hitem; [| done].
      injection Hi as <- <-. apply never_validateItemStructure.
      intros ->. apply Hnull. by eapply list_elem_of_lookup_2. }
  cbn [fst snd]. by destruct (concat _).
Qed.

(** Two companies, the first without a name, the second with a market
    share that is neither a string nor a number; a required field of the
    wrong type is reported twice, once as a required field and once as a
    field that is present. *)
Lemma errors_are_collected_per_item_witness :
  let first := VObj [("marketShare", VNum 38); ("subscribers", VStr "70M")] in
  let second := VObj [("name", VStr "Zong"); ("marketShare", VBool true);
                      ("subscribers", VStr "40M")] in
  let document := VObj [("companies", VArr [first; second])] in
  ("companies", "companies", "companies") ∈ arrayKinds
  /\ get document "companies" = Return (VArr [first; second])
  /\ (VNull ∉ [first; second])
  /\ concat (imap (itemErrors "companies") [first; second])
     = [ "companies[0] missing required field: name";
         "companies[1].marketShare must be one of: string, number, got: boolean";
         "companies[1].marketShare must be one of: string, number, got: boolean" ]
  /\ exists r st',
       validateJSONData document "companies" new = (Return r, st')
       /\ read st' (errors r) = concat (imap (itemErrors "companies") [first; second]).
Proof.
  intros first second document.
  assert (("companies", "companies", "companies") ∈ arrayKinds) as Hkind
    by apply list_elem_of_here.
  assert (VNull ∉ [first; second]) as Hnull.
  { intros Hin. repeat (apply elem_of_cons in Hin as [Heq | Hin]; [discriminate Heq |]).
    by apply elem_of_nil in Hin. }
  split; [exact Hkind |]. split; [reflexivity |]. split; [exact Hnull |].
  split; [vm_compute; reflexivity |].
  exact (errors_are_collected_per_item "companies" "companies" "companies" document
           [first; second] new Hkind eq_refl Hnull).
Defined.

(** The errors of two checks in a row. *)
Lemma outcomeOf_seq (m k : M validator unit) :
  pushes never m -> pushes never k ->
  (outcomeOf (bind m (fun _ => k))).2 = (outcomeOf m).2 ++ (outcomeOf k).2.
Proof.
  intros Hm Hk.
  destruct (never_outcomeOf m Hm) as [[] Hreturn].
  pose proof (pushes_outcomeOf never m Hm [] []) as Hrun. rewrite Hreturn in Hrun.
  pose proof (pushes_outcomeOf never k Hk [] ([] ++ (outcomeOf m).2)) as Hrun'.
  unfold outcomeOf at 1, bind.
  change (during [] []) with (during [] ([] : list string)).
  rewrite Hrun, Hrun'. cbn [snd]. by rewrite (read_during []).
Qed.

Lemma assoc_fst {A} (k : string) (l : list (string * A)) (x : A) :
  assoc k l = Some x -> k ∈ l.*1.
Proof.
  induction l as [|[k' y] l IH]; [done |]. cbn [assoc fmap list_fmap fst].
  destruct (String.eqb_spec k k') as [-> | _]; [intros _; apply list_elem_of_here |].
  intros Hk. by apply list_elem_of_further, IH.
Qed.

(** X27.  A required field that is present with a value of the wrong
    type is reported twice: [validateItemStructure] checks the type of
    each required field, and then the type of each field that is present,
    and both checks push the same message. *)
Theorem mistyped_required_field_is_reported_twice (itemType itemPath field : string)
    (requirements : requirements) (t : typeSpec) (props : list (string * value))
    (v : value) :
  assoc itemType getRequiredFields = Some requirements ->
  field ∈ required requirements ->
  assoc field (types requirements) = Some t ->
  assoc field props = Some v ->
  accepts (Some t) v = false ->
  exists message before between after,
    (outcomeOf (validateFieldType v (Some t) (itemPath +:+ "." +:+ field))).2
    = [message]
    /\ (outcomeOf (validateItemStructure (VObj props) itemType itemPath)).2
       = before ++ message :: between ++ message :: after.
Proof.
  intros Hreq Hrequired Ht Hv Haccepts.
  assert (exists message,
            outcomeOf (validateFieldType v (Some t) (itemPath +:+ "." +:+ field))
            = (Return tt, [message])) as [message Hmessage].
  { unfold validateFieldType, accepts in *.
    destruct t as [t | ts]; rewrite Haccepts; cbn [negb]; by eexists. }
  exists message. rewrite Hmessage. cbn [snd].
  set (checkRequired := fun field : string =>
         present <- lift (has_property field (VObj props));;
         if negb present
         then addError (itemPath +:+ " missing required field: " +:+ field)
         else w <- lift (get (VObj props) field);;
              validateFieldType w (assoc field (types requirements))
                                (itemPath +:+ "." +:+ field)).
  set (checkPresent := fun field : string =>
         match assoc field (types requirements) with
         | Some t => w <- lift (get (VObj props) field);;
                     validateFieldType w (Some t) (itemPath +:+ "." +:+ field)
         | None => ret tt
         end).
  assert (is_object (VObj props)) as Hobject by done.
  assert (forall name, pushes never (checkRequired name)) as HpushR.
  { intros name. apply pushes_bind; [by apply pushes_returning, is_object_has_property |].
    intros present. destruct (negb present); [apply pushes_addError |].
    apply pushes_bind; [by apply pushes_returning, is_object_get |].
    intros w. apply pushes_validateFieldType. }
  assert (forall name, pushes never (checkPresent name)) as HpushP.
  { intros name. unfold checkPresent.
    destruct (assoc name (types requirements)); [| apply pushes_ret].
    apply pushes_bind; [by apply pushes_returning, is_object_get |].
    intros w. apply pushes_validateFieldType. }
  assert ((outcomeOf (checkRequired field)).2 = [message]) as HerrR.
  { unfold outcomeOf, checkRequired, bind, lift. cbn [has_property get].
    rewrite bool_decide_true by (by rewrite Hv). cbn [negb]. rewrite Hv, Ht.
    cbn [default from_option]. unfold id.
    by fold (outcomeOf (validateFieldType v (Some t) (itemPath +:+ "." +:+ field)));
      rewrite Hmessage. }
  assert ((outcomeOf (checkPresent field)).2 = [message]) as HerrP.
  { unfold outcomeOf, checkPresent, bind, lift. rewrite Ht. cbn [get].
    rewrite Hv. cbn [default from_option]. unfold id.
    by fold (outcomeOf (validateFieldType v (Some t) (itemPath +:+ "." +:+ field)));
      rewrite Hmessage. }
  assert (forall (check : string -> M validator unit) names,
            (forall name, pushes never (check name)) ->
            field ∈ names ->
            (outcomeOf (check field)).2 = [message] ->
            exists before after,
              (outcomeOf (forEach check names)).2 = before ++ message :: after)
    as Hloop.
  { intros check names Hcheck Hin Herr.
    apply list_elem_of_split in Hin as (l1 & l2 & ->).
    rewrite outcomeOf_forEach by (intros; apply Hcheck). cbn [snd].
    rewrite fmap_app, concat_app. cbn [fmap list_fmap concat]. rewrite Herr.
    by eexists _, _. }
  destruct (Hloop checkRequired (required requirements) HpushR Hrequired HerrR)
    as (before & middle & Hfirst).
  destruct (Hloop checkPresent props.*1 HpushP (assoc_fst _ _ _ Hv) HerrP)
    as (middle' & after & Hsecond).
  exists before, (middle ++ middle'), after. split; [done |].
  unfold validateItemStructure. cbn [typeof String.eqb Ascii.eqb Bool.eqb negb].
  rewrite Hreq.
  rewrite outcomeOf_seq.
  - change ((outcomeOf (forEach checkRequired (required requirements))).2
            ++ (outcomeOf (forEach checkPresent props.*1)).2
            = before ++ message :: (middle ++ middle') ++ message :: after).
    rewrite Hfirst, Hsecond. by rewrite <- !app_assoc.
  - by apply pushes_forEach.
  - apply pushes_bind; [by apply pushes_returning, is_object_keys |].
    intros fields. by apply pushes_forEach.
Qed.

(** A company whose market share is a boolean. *)
Lemma mistyped_required_field_is_reported_twice_witness :
  let props := [("name", VStr "Zong"); ("marketShare", VBool true);
                ("subscribers", VStr "40M")] in
  let message := "companies[0].marketShare must be one of: string, number, got: boolean" in
  exists requirements,
    assoc "companies" getRequiredFields = Some requirements
    /\ "marketShare" ∈ required requirements
    /\ assoc "marketShare" (types requirements) = Some (OneOf ["string"; "number"])
    /\ assoc "marketShare" props = Some (VBool true)
    /\ accepts (Some (OneOf ["string"; "number"])) (VBool true) = false
    /\ (outcomeOf (validateItemStructure (VObj props) "companies" "companies[0]")).2
       = [message; message]
    /\ exists message' before between after,
         (outcomeOf (validateFieldType (VBool true) (Some (OneOf ["string"; "number"]))
                       ("companies[0]" +:+ "." +:+ "marketShare"))).2
         = [message']
         /\ (outcomeOf (validateItemStructure (VObj props) "companies" "companies[0]")).2
            = before ++ message' :: between ++ message' :: after.
Proof.
  intros props message. eexists.
  assert ("marketShare" ∈ ["name"; "marketShare"; "subscribers"]) as Hrequired
    by apply list_elem_of_further, list_elem_of_here.
  split; [reflexivity |]. split; [exact Hrequired |]. split; [reflexivity |].
  split; [reflexivity |]. split; [reflexivity |]. split; [vm_compute; reflexivity |].
  exact (mistyped_required_field_is_reported_twice "companies" "companies[0]"
           "marketShare" _ (OneOf ["string"; "number"]) props (VBool true)
           eq_refl Hrequired eq_refl eq_refl eq_refl).
Defined.

End ErrorCollection.

(** ** The optional files that are there *)

Module OptionalFiles.
Import PakistanTimelineApp PakistanTimelineAppFacts.

(** A server that has every file, each holding the empty object. *)
Definition everyFileHost : host :=
  {| page := Fixtures.timelinePage;
     JSON_parse := Fixtures.parseStub;
     fetch := fun _ _ => Response 200 "OK" "{}" |}.

Lemma forEach_invariant {T} (f : T -> M app unit) (P : app -> Prop) (l : list T) :
  (forall x a, x ∈ l -> P a -> P (f x a).2) ->
  forall a, P a -> P (forEach f l a).2.
Proof.
  induction l as [|x l IH]; intros Hf a Ha; [done |].
  cbn [forEach]. unfold bind.
  pose proof (Hf x a (list_elem_of_here _ _) Ha) as Hx.
  destruct (f x a) as [[[] | e] a1]; cbn [snd] in *; [| done].
  apply IH; [| done]. intros y b Hy. apply Hf. by apply list_elem_of_further.
Qed.

Lemma forEach_app_state {T} (f : T -> M app unit) (l1 l2 : list T) (a : app) :
  (forall x b, (f x b).1 = Return tt) ->
  (forEach f (l1 ++ l2) a).2 = (forEach f l2 (forEach f l1 a).2).2.
Proof.
  intros Hf. revert a. induction l1 as [|x l1 IH]; intros a; [done |].
  rewrite <- app_comm_cons. cbn [forEach]. unfold bind. specialize (Hf x a).
  destruct (f x a) as [[[] | e] a1]; cbn [fst] in Hf; [apply IH | done].
Qed.

Section Served.
Variable h : host.

Lemma loadOptional_cfg file a : cfg (loadOptional h file a).2 = cfg a.
Proof.
  destruct (loadJSONFile_world h file a) as (n & t & _ & Hworld).
  destruct (loadOptional_run h file a)
    as [_ [-> | (loaded & fileName & _ & _ & _ & ->)]];
    by rewrite Hworld.
Qed.

(** An iteration for another file leaves the key of this one alone. *)
Lemma loadOptional_other file key file' a :
  file ∈ optionalFiles ->
  fileNameOf file = Return key ->
  file' ∈ optionalFiles ->
  file' <> file ->
  data (loadOptional h file' a).2 !! key = data a !! key.
Proof.
  intros Hfile Hkey Hfile' Hne.
  destruct (optional_key_of file key Hfile Hkey) as (_ & _ & Hinj).
  destruct (loadJSONFile_world h file' a) as (n & t & _ & Hworld).
  destruct (loadOptional_run h file' a)
    as [_ [-> | (loaded & fileName & _ & _ & Hname & ->)]];
    rewrite Hworld; [done |].
  cbn [data with_data with_world]. apply lookup_insert_ne.
  intros ->. by apply Hne, Hinj.
Qed.

(** The iteration for a file whose first response is accepted. *)
Lemma loadOptional_served file key document a :
  fileNameOf file = Return key ->
  1 <= retryAttempts (cfg a) ->
  truthy document = true ->
  responseOutcome h (fetch h (fetches a) file) = Return document ->
  data (loadOptional h file a).2 !! key = Some document.
Proof.
  intros Hkey Hlimit Htruthy Hresponse.
  unfold loadOptional, try_catch, bind at 1, loadJSONFile, bind, gets. cbv beta.
  destruct (retryAttempts (cfg a)) as [|limit]; [lia |].
  cbn [attemptLoop]. unfold try_catch, bind. rewrite fetchAndParse_run, Hresponse.
  unfold ret. cbv beta iota. rewrite Htruthy. unfold lift. rewrite Hkey.
  unfold modify. cbn [snd data with_data]. apply lookup_insert_eq.
Qed.

(** X28.  An optional file that the server has ends up in the data
    object: when every response for the file is accepted with the same
    truthy document, then after [loadOptionalDataFiles] the document is in
    the data object under the name of the file without directory and
    extension, whatever happens to the other files. *)
Theorem served_optional_file_is_stored (file key : string) (document : value)
    (a : app) :
  file ∈ optionalFiles ->
  fileNameOf file = Return key ->
  1 <= retryAttempts (cfg a) ->
  truthy document = true ->
  (forall k, responseOutcome h (fetch h k file) = Return document) ->
  data (loadOptionalDataFiles h a).2 !! key = Some document.
Proof.
  intros Hfile Hkey Hlimit Htruthy Hserved.
  rewrite loadOptionalDataFiles_unfold.
  assert (NoDup optionalFiles) as Hnodup
    by (apply (bool_decide_unpack _); vm_compute; exact I).
  destruct (list_elem_of_split _ _ Hfile) as (earlier & later & Hsplit).
  assert (forall file', file' ∈ later -> file' ∈ optionalFiles /\ file' <> file)
    as Hlater.
  { rewrite Hsplit in Hnodup |- *.
    apply NoDup_app in Hnodup as (_ & _ & [Hfresh _]%NoDup_cons).
    intros file' Hin. split.
    - apply elem_of_app. right. by apply list_elem_of_further.
    - by intros ->. }
  rewrite Hsplit.
  rewrite forEach_app_state by (intros; apply loadOptional_run).
  assert (cfg (forEach (loadOptional h) earlier a).2 = cfg a) as Hcfg.
  { apply (forEach_invariant _ (fun b => cfg b = cfg a)); [| done].
    intros file' b _ Hb. by rewrite loadOptional_cfg. }
  set (a1 := (forEach (loadOptional h) earlier a).2) in *.
  cbn [forEach]. unfold bind.
  pose proof (loadOptional_served file key document a1 Hkey
                ltac:(by rewrite Hcfg) Htruthy (Hserved _)) as Hstored.
  destruct (loadOptional h file a1) as [[[] | e] a2]; cbn [snd] in *; [| done].
  apply (forEach_invariant _ (fun b => data b !! key = Some document)); [| done].
  intros file' b [Hfile' Hne]%Hlater Hb.
  by rewrite (loadOptional_other file key file').
Qed.

End Served.

(** The companies file on a server that has every file. *)
Lemma served_optional_file_is_stored_witness :
  let file := "data/companies.json" in
  let a := PakistanTimelineApp.new ∅ in
  file ∈ optionalFiles
  /\ fileNameOf file = Return "companies"
  /\ 1 <= retryAttempts (cfg a)
  /\ truthy (VObj []) = true
  /\ (forall k, responseOutcome everyFileHost (fetch everyFileHost k file)
                = Return (VObj []))
  /\ data (loadOptionalDataFiles everyFileHost a).2 !! "companies" = Some (VObj []).
Proof.
  intros file a.
  assert (file ∈ optionalFiles) as Hfile
    by apply list_elem_of_further, list_elem_of_here.
  assert (1 <= retryAttempts (cfg a)) as Hbudget by (cbn; lia).
  split; [exact Hfile |]. split; [reflexivity |]. split; [exact Hbudget |].
  split; [reflexivity |]. split; [intros k; reflexivity |].
  exact (served_optional_file_is_stored everyFileHost file "companies" (VObj []) a
           Hfile eq_refl Hbudget eq_refl (fun _ => eq_refl)).
Defined.

End OptionalFiles.

(** * ScrollController (js/scroll-controller.js) *)

From Stdlib Require Import QArith.
Close Scope Q_scope.

Module ScrollController.

(** An entry of [this.sections], as [getSections] builds it; [offsetTop]
    and [offsetHeight] are whole numbers of pixels. *)
Record section : Type := {
  id : string;
  offsetTop : Z;
  height : Z;
  name : string
}.

(** The header element: its [offsetHeight] and its [style.transform]. *)
Record headerElement : Type := {
  offsetHeight : Z;
  transform : string
}.

(** What a key press carries: [e.key] and [e.target.tagName]. *)
Record keyboardEvent : Type := {
  key : string;
  tagName : string
}.

(** What the controller asks of the browser. *)
Inductive request : Type :=
| PreventDefault
| ScrollTo (top : Z)
| AnimatedScrollTo (top : Z)
| ReplaceState (url : string).

(** What the browser supports: ['scrollBehavior' in
    document.documentElement.style] and [history.replaceState]. *)
Record host : Type := {
  scrollBehavior : bool;
  replaceState : bool
}.

(** The controller, with the requests it has made so far (a ghost field,
    read by no method). *)
Record controller : Type := {
  sections : list section;
  currentSection : string;
  headerVisible : bool;
  header : option headerElement;
  requests : list request
}.

Definition ask (r : request) : M controller unit :=
  modify (fun c => {| sections := sections c; currentSection := currentSection c;
                      headerVisible := headerVisible c; header := header c;
                      requests := requests c ++ [r] |}).

(** [this.elements.header.style.transform = value; this.headerVisible = visible] *)
Definition set_header (value : string) (visible : bool) (c : controller) : controller :=
  match header c with
  | Some el =>
      {| sections := sections c; currentSection := currentSection c;
         headerVisible := visible;
         header := Some {| offsetHeight := offsetHeight el; transform := value |};
         requests := requests c |}
  | None => c
  end.

(** [hideHeader()] and [showHeader()] *)
Definition hideHeader : M controller unit := modify (set_header "translateY(-100%)" false).
Definition showHeader : M controller unit := modify (set_header "translateY(0)" true).

(** [handleHeaderVisibility(direction, scrollTop)]; a scroll position is
    a number that need not be whole. *)
Definition handleHeaderVisibility (direction : string) (scrollTop : Q)
    : M controller unit :=
  el <- gets header;;
  match el with
  | None => ret tt
  | Some _ =>
      let shouldHide := String.eqb direction "down" && negb (Qle_bool scrollTop 200) in
      let shouldShow := String.eqb direction "up" || Qle_bool scrollTop 100 in
      visible <- gets headerVisible;;
      if shouldHide && visible then hideHeader
      else if shouldShow && negb visible then showHeader
      else ret tt
  end.

(** [array.findIndex(p)]: the first index at which [p] holds, or -1. *)
Fixpoint findIndex_from {A} (p : A -> bool) (l : list A) (i : Z) : Z :=
  match l with
  | [] => (-1)%Z
  | x :: rest => if p x then i else findIndex_from p rest (i + 1)%Z
  end.

Definition findIndex {A} (p : A -> bool) (l : list A) : Z := findIndex_from p l 0.

(** [this.sections[k].id] *)
Definition idAt (k : Z) : M controller string :=
  entries <- gets sections;;
  match (if (k <? 0)%Z then None else entries !! Z.to_nat k) with
  | Some entry => ret (id entry)
  | None => throw (TypeError "Cannot read properties of undefined (reading 'id')")
  end.

Section Methods.
Variable h : host.

(** [smoothScrollToSection(sectionId)] *)
Definition smoothScrollToSection (sectionId : string) : M controller unit :=
  targetSection <- gets (fun c =>
                     List.find (fun entry => String.eqb (id entry) sectionId)
                               (sections c));;
  match targetSection with
  | None => ret tt
  | Some targetSection =>
      headerHeight <- gets (fun c => match header c with
                                     | Some el => offsetHeight el
                                     | None => 120%Z
                                     end);;
      let targetPosition := (offsetTop targetSection - headerHeight - 20)%Z in
      (if scrollBehavior h
       then ask (ScrollTo targetPosition)
       else ask (AnimatedScrollTo targetPosition));;;
      if replaceState h
      then ask (ReplaceState ("#" +:+ sectionId))
      else ret tt
  end.

(** [handleKeyNavigation(e)] *)
Definition handleKeyNavigation (e : keyboardEvent) : M controller unit :=
  if String.eqb (tagName e) "INPUT" || String.eqb (tagName e) "TEXTAREA"
  then ret tt
  else
    currentIndex <- gets (fun c =>
                      findIndex (fun entry => String.eqb (id entry) (currentSection c))
                                (sections c));;
    if String.eqb (key e) "ArrowUp" || String.eqb (key e) "PageUp"
    then
      ask PreventDefault;;;
      if (0 <? currentIndex)%Z
      then sectionId <- idAt (currentIndex - 1);;
           smoothScrollToSection sectionId
      else ret tt
    else if String.eqb (key e) "ArrowDown" || String.eqb (key e) "PageDown"
    then
      ask PreventDefault;;;
      count <- gets (fun c => Z.of_nat (length (sections c)));;
      if (currentIndex <? count - 1)%Z
      then sectionId <- idAt (currentIndex + 1);;
           smoothScrollToSection sectionId
      else ret tt
    else if String.eqb (key e) "Home"
    then
      ask PreventDefault;;;
      smoothScrollToSection "hero"
    else if String.eqb (key e) "End"
    then
      ask PreventDefault;;;
      count <- gets (fun c => Z.of_nat (length (sections c)));;
      sectionId <- idAt (count - 1);;
      smoothScrollToSection sectionId
    else ret tt.

End Methods.
End ScrollController.

(** ** The scroll controller: keyboard navigation and the header *)

Module ScrollControllerFacts.
Import ScrollController.

(** The controller after it has made the requests [asked]. *)
Definition having (asked : list request) (c : controller) : controller :=
  {| sections := sections c; currentSection := currentSection c;
     headerVisible := headerVisible c; header := header c;
     requests := requests c ++ asked |}.

(** Where a scroll to [target] lands: its top, less the height of the
    header (120 when the page has none) and a margin of 20. *)
Definition landing (c : controller) (target : section) : Z :=
  (offsetTop target
   - match header c with Some el => offsetHeight el | None => 120 end
   - 20)%Z.

(** The requests of a scroll to [target]. *)
Definition scrollRequests (h : host) (c : controller) (target : section)
    : list request :=
  (if scrollBehavior h then ScrollTo (landing c target)
   else AnimatedScrollTo (landing c target))
  :: (if replaceState h then [ReplaceState ("#" +:+ id target)] else []).

(** The event comes from a field the user types in. *)
Definition typing (e : keyboardEvent) : bool :=
  String.eqb (tagName e) "INPUT" || String.eqb (tagName e) "TEXTAREA".

(** The page of the timeline: four sections under a header of 80
    pixels. *)
Definition timelineSections : list section :=
  [ {| id := "hero"; offsetTop := 0; height := 900; name := "Hero Section" |};
    {| id := "foundation"; offsetTop := 900; height := 1400;
       name := "Foundation Era (2006-2014)" |};
    {| id := "mobile"; offsetTop := 2300; height := 1600;
       name := "Mobile Revolution (2014-2021)" |};
    {| id := "fintech"; offsetTop := 3900; height := 1500;
       name := "Fintech Era (2021-2025)" |} ].

Definition viewing (current : string) (visible : bool) : controller :=
  {| sections := timelineSections;
     currentSection := current;
     headerVisible := visible;
     header := Some {| offsetHeight := 80;
                       transform := if visible then "translateY(0)"
                                    else "translateY(-100%)" |};
     requests := [] |}.

Definition modernBrowser : host := {| scrollBehavior := true; replaceState := true |}.

Lemma having_nil c : having [] c = c.
Proof. destruct c. unfold having. cbn. by rewrite app_nil_r. Qed.

Lemma having_having asked asked' c :
  having asked' (having asked c) = having (asked ++ asked') c.
Proof. unfold having. cbn. by rewrite app_assoc. Qed.

Lemma findIndex_from_unique (l : list section) :
  forall i k target,
    NoDup (id <$> l) ->
    l !! i = Some target ->
    findIndex_from (fun entry => String.eqb (id entry) (id target)) l k
    = (k + Z.of_nat i)%Z.
Proof.
  induction l as [|x l IH]; intros i k target Hnodup Hi; [done |].
  cbn [fmap list_fmap] in Hnodup. apply NoDup_cons in Hnodup as [Hx Hnodup].
  cbn [findIndex_from]. destruct i as [|i].
  - injection Hi as ->. rewrite String.eqb_refl. lia.
  - cbn in Hi. destruct (String.eqb_spec (id x) (id target)) as [Heq | _].
    + exfalso. apply Hx. rewrite Heq. apply list_elem_of_fmap.
      exists target. split; [done |]. by eapply list_elem_of_lookup_2.
    + rewrite (IH i (k + 1)%Z target) by done. lia.
Qed.

Lemma find_unique (l : list section) :
  forall i target,
    NoDup (id <$> l) ->
    l !! i = Some target ->
    List.find (fun entry => String.eqb (id entry) (id target)) l = Some target.
Proof.
  induction l as [|x l IH]; intros i target Hnodup Hi; [done |].
  cbn [fmap list_fmap] in Hnodup. apply NoDup_cons in Hnodup as [Hx Hnodup].
  cbn [List.find]. destruct i as [|i].
  - injection Hi as ->. by rewrite String.eqb_refl.
  - cbn in Hi. destruct (String.eqb_spec (id x) (id target)) as [Heq | _].
    + exfalso. apply Hx. rewrite Heq. apply list_elem_of_fmap.
      exists target. split; [done |]. by eapply list_elem_of_lookup_2.
    + by apply (IH i).
Qed.

Section Keys.
Variable h : host.

(** A scroll to a section the list has. *)
Lemma smoothScrollToSection_run c asked target :
  List.find (fun entry => String.eqb (id entry) (id target)) (sections c)
  = Some target ->
  smoothScrollToSection h (id target) (having asked c)
  = (Return tt, having (asked ++ scrollRequests h c target) c).
Proof.
  intros Hfind. unfold smoothScrollToSection, bind at 1, gets at 1. cbv beta.
  cbn [sections having]. rewrite Hfind.
  unfold bind at 1, gets at 1. cbv beta. cbn [header having].
  unfold scrollRequests, landing, bind, ask, modify, ret.
  destruct (scrollBehavior h), (replaceState h); cbv beta iota;
    unfold having; cbn; by rewrite <- ?app_assoc.
Qed.

Lemma idAt_run c asked i entry :
  sections c !! i = Some entry ->
  idAt (Z.of_nat i) (having asked c) = (Return (id entry), having asked c).
Proof.
  intros Hi. unfold idAt, bind, gets. cbv beta. cbn [sections having].
  replace (Z.of_nat i <? 0)%Z with false by (symmetry; apply Z.ltb_ge; lia).
  by rewrite Nat2Z.id, Hi.
Qed.

(** X19.  When the sections have distinct ids and the current section is
    the [i]-th of them, a key press outside a text field moves by one
    section: ArrowDown or PageDown cancels the default action and scrolls
    to the section after the current one, landing at its top less the
    header height and 20 pixels, and ArrowUp or PageUp to the one before.
    On the last (first) section the key is cancelled and nothing
    scrolls. *)
Theorem arrow_keys_move_to_adjacent_section (e : keyboardEvent) (c : controller)
    (i : nat) (current : section) :
  NoDup (id <$> sections c) ->
  sections c !! i = Some current ->
  currentSection c = id current ->
  typing e = false ->
  (key e = "ArrowDown" \/ key e = "PageDown" ->
   handleKeyNavigation h e c
   = (Return tt,
      having (PreventDefault
              :: match sections c !! S i with
                 | Some next => scrollRequests h c next
                 | None => []
                 end) c))
  /\ (key e = "ArrowUp" \/ key e = "PageUp" ->
      handleKeyNavigation h e c
      = (Return tt,
         having (PreventDefault
                 :: match i with
                    | 0 => []
                    | S j => match sections c !! j with
                             | Some previous => scrollRequests h c previous
                             | None => []
                             end
                    end) c)).
Proof.
  intros Hnodup Hi Hcurrent Htyping.
  assert (findIndex (fun entry => String.eqb (id entry) (currentSection c)) (sections c)
          = Z.of_nat i) as Hindex.
  { rewrite Hcurrent. unfold findIndex.
    by rewrite (findIndex_from_unique _ i 0%Z current). }
  pose proof (lookup_lt_Some _ _ _ Hi) as Hlt.
  split.
  - intros Hkey. unfold handleKeyNavigation. fold (typing e). rewrite Htyping.
    unfold bind at 1, gets at 1. cbv beta. rewrite Hindex.
    replace (String.eqb (key e) "ArrowUp" || String.eqb (key e) "PageUp")
      with false by (by destruct Hkey as [-> | ->]).
    replace (String.eqb (key e) "ArrowDown" || String.eqb (key e) "PageDown")
      with true by (by destruct Hkey as [-> | ->]).
    unfold bind at 1, ask at 1, modify at 1. cbv beta.
    fold (having [PreventDefault] c).
    unfold bind at 1, gets at 1. cbv beta. cbn [sections having].
    destruct (sections c !! S i) as [next |] eqn:Hnext.
    + pose proof (lookup_lt_Some _ _ _ Hnext) as Hlt'.
      replace (Z.of_nat i <? Z.of_nat (length (sections c)) - 1)%Z with true
        by (symmetry; apply Z.ltb_lt; lia).
      unfold bind at 1.
      replace (Z.of_nat i + 1)%Z with (Z.of_nat (S i)) by lia.
      rewrite (idAt_run c [PreventDefault] (S i) next Hnext).
      apply smoothScrollToSection_run. by apply (find_unique _ (S i)).
    + apply lookup_ge_None in Hnext.
      replace (Z.of_nat i <? Z.of_nat (length (sections c)) - 1)%Z with false
        by (symmetry; apply Z.ltb_ge; lia).
      done.
  - intros Hkey. unfold handleKeyNavigation. fold (typing e). rewrite Htyping.
    unfold bind at 1, gets at 1. cbv beta. rewrite Hindex.
    replace (String.eqb (key e) "ArrowUp" || String.eqb (key e) "PageUp")
      with true by (by destruct Hkey as [-> | ->]).
    unfold bind at 1, ask at 1, modify at 1. cbv beta.
    fold (having [PreventDefault] c).
    destruct i as [|j].
    + done.
    + replace (0 <? Z.of_nat (S j))%Z with true by (symmetry; apply Z.ltb_lt; lia).
      destruct (sections c !! j) as [previous |] eqn:Hprevious.
      * unfold bind at 1.
        replace (Z.of_nat (S j) - 1)%Z with (Z.of_nat j) by lia.
        rewrite (idAt_run c [PreventDefault] j previous Hprevious).
        apply smoothScrollToSection_run. by apply (find_unique _ j).
      * apply lookup_ge_None in Hprevious. lia.
Qed.

(** X20.  The End key outside a text field, when the sections have
    distinct ids: it is cancelled and the page scrolls to the last section.
    On a page without sections the key is cancelled and then the handler
    raises a TypeError, reading the id of a section that is not there. *)
Theorem end_key_scrolls_to_last_section (e : keyboardEvent) (c : controller) :
  NoDup (id <$> sections c) ->
  typing e = false ->
  key e = "End" ->
  handleKeyNavigation h e c
  = match last (sections c) with
    | Some final =>
        (Return tt, having (PreventDefault :: scrollRequests h c final) c)
    | None =>
        (Throw (TypeError "Cannot read properties of undefined (reading 'id')"),
         having [PreventDefault] c)
    end.
Proof.
  intros Hnodup Htyping Hkey. unfold handleKeyNavigation. fold (typing e).
  rewrite Htyping, Hkey. unfold bind at 1, gets at 1. cbv beta.
  cbn [String.eqb Ascii.eqb Bool.eqb orb].
  unfold bind at 1, ask at 1, modify at 1. cbv beta.
  fold (having [PreventDefault] c).
  unfold bind at 1, gets at 1. cbv beta. cbn [sections having].
  rewrite last_lookup.
  destruct (sections c) as [|first rest] eqn:Hsections.
  - reflexivity.
  - rewrite <- Hsections in *.
    assert (exists n, length (sections c) = S n) as [n Hn]
      by (rewrite Hsections; by eexists).
    rewrite Hn. cbn [pred].
    destruct (sections c !! n) as [final |] eqn:Hfinal;
      [| apply lookup_ge_None in Hfinal; lia].
    unfold bind at 1.
    replace (Z.of_nat (S n) - 1)%Z with (Z.of_nat n) by lia.
    rewrite (idAt_run c [PreventDefault] n final Hfinal).
    apply smoothScrollToSection_run. by apply (find_unique _ n).
Qed.

End Keys.

(** The flag and the style of the header agree. *)
Definition headerConsistent (c : controller) : Prop :=
  match header c with
  | Some el => transform el = "translateY(-100%)" <-> headerVisible c = false
  | None => True
  end.

Lemma handleHeaderVisibility_run direction scrollTop c :
  is_Some (header c) ->
  handleHeaderVisibility direction scrollTop c
  = (Return tt,
     if String.eqb direction "down" && negb (Qle_bool scrollTop 200) && headerVisible c
     then set_header "translateY(-100%)" false c
     else if (String.eqb direction "up" || Qle_bool scrollTop 100)
             && negb (headerVisible c)
          then set_header "translateY(0)" true c
          else c).
Proof.
  intros [el Hel]. unfold handleHeaderVisibility, bind, gets. cbv beta zeta.
  rewrite Hel. unfold hideHeader, showHeader, modify, ret.
  destruct (String.eqb direction "down" && negb (Qle_bool scrollTop 200)
            && headerVisible c); [done |].
  by destruct ((String.eqb direction "up" || Qle_bool scrollTop 100)
               && negb (headerVisible c)).
Qed.

(** X21.  On a page with a header, after [handleHeaderVisibility] the
    header is hidden only if the page is being scrolled in a direction
    other than 'up' and is more than 100 pixels down: at the top of the
    page, and whenever the page is scrolled up, the header ends visible.
    While the page is scrolled down between 100 and 200 pixels the call
    changes nothing.  The [headerVisible] flag and the transform of the
    header stay in agreement. *)
Theorem header_never_hidden_at_top (direction : string) (scrollTop : Q)
    (c : controller) :
  is_Some (header c) ->
  let c' := (handleHeaderVisibility direction scrollTop c).2 in
  (handleHeaderVisibility direction scrollTop c).1 = Return tt
  /\ (headerVisible c' = false -> direction <> "up" /\ (100 < scrollTop)%Q)
  /\ (direction = "down" -> (100 < scrollTop)%Q -> (scrollTop <= 200)%Q -> c' = c)
  /\ (headerConsistent c -> headerConsistent c').
Proof.
  intros Hheader c'. subst c'.
  rewrite (handleHeaderVisibility_run direction scrollTop c Hheader).
  destruct Hheader as [el Hel]. cbn [fst snd].
  split; [done |].
  assert (Qle_bool scrollTop 200 = false -> (100 < scrollTop)%Q) as Hpast.
  { intros H200. apply Qnot_le_lt. intros Hle.
    assert (Qle_bool scrollTop 200 = true); [| congruence].
    apply Qle_bool_iff. eapply Qle_trans; [exact Hle |]. by unfold Qle. }
  assert (Qle_bool scrollTop 100 = false -> (100 < scrollTop)%Q) as Hbelow.
  { intros H100. apply Qnot_le_lt. intros Hle.
    apply Qle_bool_iff in Hle. congruence. }
  destruct (String.eqb_spec direction "down") as [Hdown | Hdown];
    destruct (String.eqb_spec direction "up") as [Hup | Hup];
    destruct (Qle_bool scrollTop 200) eqn:H200;
    destruct (Qle_bool scrollTop 100) eqn:H100;
    destruct (headerVisible c) eqn:Hvisible;
    cbn [andb orb negb]; unfold set_header; rewrite ?Hel;
    cbn [headerVisible];
    (split;
     [ first [ by rewrite Hvisible | done | intros _; split; [congruence |]; auto ]
     | split;
       [ first
           [ done
           | intros Hd Hlow Hhigh;
             first [ congruence
                   | apply Qle_bool_iff in Hhigh; congruence
                   | apply Qlt_not_le in Hlow; apply Qle_bool_iff in H100; done ] ]
       | unfold headerConsistent; cbn [header headerVisible transform];
         rewrite ?Hel, ?Hvisible; first [done | intros _; split; done] ] ]).
Qed.

Lemma timelineSections_distinct : NoDup (id <$> timelineSections).
Proof. apply (bool_decide_unpack _). vm_compute. exact I. Qed.

(** ArrowDown while the foundation era is on screen. *)
Lemma arrow_keys_move_to_adjacent_section_witness :
  let e := {| key := "ArrowDown"; tagName := "BODY" |} in
  let c := viewing "foundation" true in
  NoDup (id <$> sections c)
  /\ sections c !! 1 = Some {| id := "foundation"; offsetTop := 900; height := 1400;
                               name := "Foundation Era (2006-2014)" |}
  /\ typing e = false
  /\ handleKeyNavigation modernBrowser e c
     = (Return tt,
        having [PreventDefault; ScrollTo 2200; ReplaceState "#mobile"] c).
Proof.
  intros e c. split; [exact timelineSections_distinct |].
  split; [reflexivity |]. split; [reflexivity |].
  exact (proj1 (arrow_keys_move_to_adjacent_section modernBrowser e c 1 _
                  timelineSections_distinct eq_refl eq_refl eq_refl)
               (or_introl eq_refl)).
Defined.

(** End while the hero section is on screen. *)
Lemma end_key_scrolls_to_last_section_witness :
  let e := {| key := "End"; tagName := "BODY" |} in
  let c := viewing "hero" true in
  NoDup (id <$> sections c)
  /\ typing e = false
  /\ key e = "End"
  /\ handleKeyNavigation modernBrowser e c
     = (Return tt,
        having [PreventDefault; ScrollTo 3800; ReplaceState "#fintech"] c).
Proof.
  intros e c. split; [exact timelineSections_distinct |].
  split; [reflexivity |]. split; [reflexivity |].
  exact (end_key_scrolls_to_last_section modernBrowser e c
           timelineSections_distinct eq_refl eq_refl).
Defined.

(** Back at the top with the header hidden: it is shown again. *)
Lemma header_never_hidden_at_top_witness :
  let c := viewing "hero" false in
  let c' := (handleHeaderVisibility "down" 50 c).2 in
  is_Some (header c)
  /\ headerVisible c' = true
  /\ (handleHeaderVisibility "down" 50 c).1 = Return tt
  /\ (headerVisible c' = false -> "down" <> "up" /\ (100 < 50)%Q)
  /\ ("down" = "down" -> (100 < 50)%Q -> (50 <= 200)%Q -> c' = c)
  /\ (headerConsistent c -> headerConsistent c').
Proof.
  intros c c'.
  assert (is_Some (header c)) as Hheader by (by eexists).
  split; [exact Hheader |]. split; [reflexivity |].
  exact (header_never_hidden_at_top "down" 50 c Hheader).
Defined.

End ScrollControllerFacts.

